(** * CardCreator: a shallow embedding of the three card renderers

    The repository holds three programs, each a [package main] of its own:
    - [src/main.go]: the CSV batch tool (module [Batch]);
    - [src/server/emailfooterserver.go], lines 1-285: the business-card HTTP
      server with the twelve-field record (module [CardServer]);
    - [src/server/emailfooterserver.go], lines 287-538: the e-mail footer
      HTTP server with the seven-field record (module [FooterServer]).

    Go strings are byte sequences and are modelled by [string] (a list of
    8-bit characters).  Go's [int] is 64 bits wide; every integer computed
    by these programs is a small layout coordinate, modelled in [Z].

    What is taken as given:
    - the decoders and encoders of the image, font and CSV libraries
      ([Libs]); every statement holds whatever they compute;
    - a file system, in which several paths can name one file, changed by
      the program alone, in which opening fails on a missing file only and
      [os.Create] succeeds on the names [creatable] allows;
    - writes to a file that do not fail (a write to an HTTP response
      can). *)

From stdpp Require Import gmap strings list.
From Stdlib Require Import ZArith Ascii String Lia.

Open Scope string_scope.
Open Scope Z_scope.

(** ** Strings *)

(** A byte as a number, and back. *)
Definition code (c : ascii) : Z := Z.of_N (N_of_ascii c).
Definition byte (n : Z) : ascii := ascii_of_N (Z.to_N (n mod 256)).

Definition RuneError : Z := 65533.

(** [utf8.DecodeRuneInString]: the first rune of [s] and its width in bytes;
    an invalid or truncated encoding decodes to [RuneError] with width 1.
    The library's tables [first] and [acceptRanges] are written out as
    comparisons: a first byte below 0x80 is a rune of its own; 0x80-0xC1 and
    0xF5-0xFF are invalid; 0xC2-0xDF start two bytes, 0xE0-0xEF three,
    0xF0-0xF4 four; the second byte must lie in [lo]..[hi], the others in
    0x80..0xBF.  Ranging over a string decodes in the same way. *)
Definition DecodeRuneInString (s : string) : Z * nat :=
  match s with
  | EmptyString => (RuneError, 0%nat)
  | String c0 rest =>
      let s0 := code c0 in
      if s0 <? 0x80 then (s0, 1%nat)
      else if (s0 <? 0xC2) || (0xF4 <? s0) then (RuneError, 1%nat)
      else
        let sz := if s0 <? 0xE0 then 2 else if s0 <? 0xF0 then 3 else 4 in
        let lo := if s0 =? 0xE0 then 0xA0 else if s0 =? 0xF0 then 0x90 else 0x80 in
        let hi := if s0 =? 0xED then 0x9F else if s0 =? 0xF4 then 0x8F else 0xBF in
        match rest with
        | EmptyString => (RuneError, 1%nat)
        | String c1 rest =>
            let s1 := code c1 in
            if (s1 <? lo) || (hi <? s1) then (RuneError, 1%nat)
            else if sz <=? 2
            then (Z.lor (Z.shiftl (Z.land s0 0x1F) 6) (Z.land s1 0x3F), 2%nat)
            else
              match rest with
              | EmptyString => (RuneError, 1%nat)
              | String c2 rest =>
                  let s2 := code c2 in
                  if (s2 <? 0x80) || (0xBF <? s2) then (RuneError, 1%nat)
                  else if sz <=? 3
                  then (Z.lor (Z.lor (Z.shiftl (Z.land s0 0x0F) 12)
                                     (Z.shiftl (Z.land s1 0x3F) 6))
                              (Z.land s2 0x3F), 3%nat)
                  else
                    match rest with
                    | EmptyString => (RuneError, 1%nat)
                    | String c3 _ =>
                        let s3 := code c3 in
                        if (s3 <? 0x80) || (0xBF <? s3) then (RuneError, 1%nat)
                        else (Z.lor (Z.lor (Z.lor (Z.shiftl (Z.land s0 0x07) 18)
                                                   (Z.shiftl (Z.land s1 0x3F) 12))
                                           (Z.shiftl (Z.land s2 0x3F) 6))
                                    (Z.land s3 0x3F), 4%nat)
                    end
              end
        end
  end.

(** [utf8.AppendRune] for a rune that is not negative. *)
Definition AppendRune (r : Z) : string :=
  let tx b := byte (Z.lor 0x80 (Z.land b 0x3F)) in
  let three r := String (byte (Z.lor 0xE0 (Z.shiftr r 12)))
                   (String (tx (Z.shiftr r 6)) (String (tx r) EmptyString)) in
  if r <=? 0x7F then String (byte r) EmptyString
  else if r <=? 0x7FF
  then String (byte (Z.lor 0xC0 (Z.shiftr r 6))) (String (tx r) EmptyString)
  else if (0x10FFFF <? r) || ((0xD800 <=? r) && (r <=? 0xDFFF)) then three RuneError
  else if r <=? 0xFFFF then three r
  else String (byte (Z.lor 0xF0 (Z.shiftr r 18)))
         (String (tx (Z.shiftr r 12)) (String (tx (Z.shiftr r 6)) (String (tx r) EmptyString))).

(** [strings.Map]: every rune of [s] is replaced by its image under
    [mapping], or dropped when the image is negative.  [skip] counts the
    bytes of the rune last decoded that are still to be passed over. *)
Fixpoint Map_from (mapping : Z -> Z) (s : string) (skip : nat) : string :=
  match s with
  | EmptyString => EmptyString
  | String _ s' =>
      match skip with
      | S k => Map_from mapping s' k
      | O =>
          let (c, width) := DecodeRuneInString s in
          let r := mapping c in
          (if 0 <=? r then AppendRune r else EmptyString)
            ++ Map_from mapping s' (width - 1)
      end
  end.

Definition strings_Map (mapping : Z -> Z) (s : string) : string := Map_from mapping s 0.

(** The function literal passed to [strings.Map] in GenerateCard
    (emailfooterserver.go 164-169 and 442-447): a rune is kept when it lies
    between '0' and '9' and dropped (mapped to -1) otherwise. *)
Definition keep_digit (r : Z) : Z := if (48 <=? r) && (r <=? 57) then r else -1.

(** emailfooterserver.go 164-169 and 442-447: [digitsOnly]. *)
Definition digitsOnly (s : string) : string := strings_Map keep_digit s.

(** Go's slice expression [s[lo:hi]] on a string, for [lo <= hi <= len(s)]. *)
Definition slice (s : string) (lo hi : nat) : string :=
  String.substring lo (hi - lo) s.

(** emailfooterserver.go 162-173 and 440-451: the value of [formattedPhone]
    when the phone line is drawn. *)
Definition formattedPhone (PhoneNumber : string) : string :=
  let formattedPhone := PhoneNumber in
  let digitsOnly := digitsOnly PhoneNumber in
  if (String.length digitsOnly =? 10)%nat
  then "(" ++ slice digitsOnly 0 3 ++ ") " ++ slice digitsOnly 3 6 ++ "-" ++ slice digitsOnly 6 10
  else formattedPhone.

(** [strings.HasPrefix]. *)
Fixpoint HasPrefix (s prefix : string) : bool :=
  match prefix, s with
  | EmptyString, _ => true
  | String p prefix', String c s' => if Ascii.eqb p c then HasPrefix s' prefix' else false
  | String _ _, EmptyString => false
  end.

(** [strings.ReplaceAll s old new]: the leftmost non-overlapping
    occurrences of [old] are replaced by [new]; an empty [old] matches
    before every rune and at the end.  [skip] counts the bytes of a matched
    occurrence (of the rune decoded) that are still to be passed over. *)
Fixpoint replace_from (old new s : string) (skip : nat) : string :=
  match s with
  | EmptyString => EmptyString
  | String c s' =>
      match skip with
      | S k => replace_from old new s' k
      | O =>
          if HasPrefix s old
          then new ++ replace_from old new s' (String.length old - 1)
          else String c (replace_from old new s' 0)
      end
  end.

Fixpoint insert_before_runes (new s : string) (skip : nat) : string :=
  match s with
  | EmptyString => EmptyString
  | String c s' =>
      match skip with
      | S k => String c (insert_before_runes new s' k)
      | O =>
          let (_, width) := DecodeRuneInString s in
          new ++ String c (insert_before_runes new s' (width - 1))
      end
  end.

Definition ReplaceAll (s old new : string) : string :=
  match old with
  | EmptyString => insert_before_runes new s 0 ++ new
  | _ => replace_from old new s 0
  end.

(** ** Images, fonts and colours

    Rasterisation lives in the image and font libraries.  An [image.RGBA] is
    represented by its rectangle and by the sequence of paint operations
    applied to its (initially zero) pixel buffer: none of these operations
    can touch [Rect], only [Pix]. *)

Record Point := { X : Z; Y : Z }.
Record Rectangle := { Min : Point; Max : Point }.

Definition Dx (r : Rectangle) : Z := X (Max r) - X (Min r).
Definition Dy (r : Rectangle) : Z := Y (Max r) - Y (Min r).

(** A decoded [image.Image]: what [image.Decode] hands back. *)
Record Picture := { pic_bounds : Rectangle; pic_pixels : string }.

(** A parsed [*opentype.Font]. *)
Record Font := { font_src : string }.

Inductive Hinting := HintingNone | HintingVertical | HintingFull.

(** [opentype.FaceOptions].  [Size] is a float64 in the source; every size
    used is a whole number of points, and [int(size)] is that number. *)
Record FaceOptions := { Size : Z; DPI : Z; hinting : Hinting }.

Record Face := { face_font : Font; face_opts : FaceOptions }.

(** [color.RGBA]. *)
Record Color := { R : Z; G : Z; B : Z; A : Z }.

(** [fixed.I]: an integer as a 26.6 fixed-point number, an int32. *)
Definition wrap32 (n : Z) : Z := (n + 2 ^ 31) mod 2 ^ 32 - 2 ^ 31.
Definition fixed_I (i : Z) : Z := wrap32 (Z.shiftl i 6).

(** The text lines of a card, naming the [drawText] call site that draws
    each of them. *)
Inductive Field :=
| FName | FPronouns | FTitle | FCompany | FDepartment | FAddress
| FPhone | FEmail | FLandGrant1 | FLandGrant2 | FLandGrant3 | FLandGrant4.

#[global] Instance Field_eq_dec : EqDecision Field.
Proof. solve_decision. Defined.

(** [font.Drawer] as built by [drawText]; [Dst] is the image drawn on. *)
Record Drawer := { Src : Color; face : Face; Dot : Point }.

Inductive Paint :=
| PaintSrc (src : Picture) (r : Rectangle) (sp : Point)
    (* draw.Draw(dst, r, src, sp, draw.Src) *)
| PaintString (site : Field) (d : Drawer) (text : string).
    (* d.DrawString(text), issued by the call site [site] *)

Record RGBA := { Rect : Rectangle; Pix : list Paint }.

(** [image.NewRGBA], on the bounds of a decoded picture (a rectangle of
    negative or huge dimensions, on which Go panics, is none). *)
Definition NewRGBA (r : Rectangle) : RGBA := {| Rect := r; Pix := [] |}.

Definition draw_Draw (dst : RGBA) (r : Rectangle) (src : Picture) (sp : Point) : RGBA :=
  {| Rect := Rect dst; Pix := Pix dst ++ [PaintSrc src r sp] |}.

(** [drawText] (main.go 161-169, emailfooterserver.go 202-210 and 461-469).
    [site] is the field whose line the call draws. *)
Definition drawText (site : Field) (img : RGBA) (f : Face) (text : string)
    (x y : Z) (c : Color) : RGBA :=
  let d := {| Src := c; face := f; Dot := {| X := fixed_I x; Y := fixed_I y |} |} in
  {| Rect := Rect img; Pix := Pix img ++ [PaintString site d text] |}.

(** The [DrawString] calls recorded in an image, in the order issued. *)
Definition draw_calls (img : RGBA) : list (Field * Drawer * string) :=
  omap (fun p => match p with
                 | PaintString s d t => Some (s, d, t)
                 | PaintSrc _ _ _ => None
                 end) (Pix img).

(** ** Errors *)

Inductive CsvError := ErrFieldCount | ErrQuote | ErrBareQuote.

Inductive error :=
| EOF                               (* io.EOF *)
| ErrPath (op path : string)        (* fs.PathError of os.Open, ReadFile, Create *)
| ErrImage                          (* image.Decode failed *)
| ErrFont                           (* opentype.Parse failed *)
| ErrFace                           (* opentype.NewFace failed *)
| ErrCsv (e : CsvError)             (* a csv.ParseError *)
| ErrPngSize                        (* png.Encode: invalid image size *)
| ErrWrite                          (* a Write on the response failed *)
| ErrForm                           (* Request.ParseForm failed *)
| ErrNew (msg : string)             (* fmt.Errorf(msg) *)
| ErrWrap (msg : string) (e : error). (* fmt.Errorf(msg + ": %w", e) *)

Inductive result (T : Type) := Ok (v : T) | Err (e : error).
Arguments Ok {T} v.
Arguments Err {T} e.

(** ** The libraries

    What the decoders and encoders of the Go libraries compute is taken as
    given; every statement below holds for all of them. *)

(** What the lexer of [encoding/csv] makes of one record of the input (one
    line, or several when a quoted field spans lines; blank lines yield
    nothing): its fields, and the quoting error if it has one. *)
Record RawRecord := { raw_fields : list string; raw_err : option CsvError }.

Record Libs := {
  image_Decode : string -> option Picture;     (* image.Decode on a file's bytes *)
  opentype_Parse : string -> option Font;      (* opentype.Parse *)
  newFace_ok : Font -> FaceOptions -> bool;    (* does opentype.NewFace succeed *)
  png_bytes : RGBA -> string;                  (* the PNG encoding of an image *)
  csv_lex : string -> list RawRecord           (* the records of a CSV text *)
}.

Definition opentype_NewFace (L : Libs) (f : Font) (o : FaceOptions) : result Face :=
  if newFace_ok L f o then Ok {| face_font := f; face_opts := o |} else Err ErrFace.

(** [png.Encode] refuses an image whose width or height is not positive or
    does not fit 32 bits, before it writes anything; otherwise it writes the
    encoding. *)
Definition png_size_ok (m : RGBA) : bool :=
  (0 <? Dx (Rect m)) && (0 <? Dy (Rect m)) && (Dx (Rect m) <? 2 ^ 32) && (Dy (Rect m) <? 2 ^ 32).

Definition png_Encode (L : Libs) (m : RGBA) : result string :=
  if png_size_ok m then Ok (png_bytes L m) else Err ErrPngSize.

(** ** The CSV reader

    [csv.NewReader] leaves [FieldsPerRecord] at 0.  The documentation of
    [encoding/csv] says: "If FieldsPerRecord is positive, Read requires each
    record to have the given number of fields.  If FieldsPerRecord is 0,
    Read sets it to the number of fields in the first record, so that future
    records must have the same field count. [...] If the record has an
    unexpected number of fields, Read returns the record along with the
    error ErrFieldCount."  [readRecord] below is the end of the library's
    function of that name. *)

Record Reader := { FieldsPerRecord : Z; pending : list RawRecord }.

Definition csv_NewReader (L : Libs) (file : string) : Reader :=
  {| FieldsPerRecord := 0; pending := csv_lex L file |}.

Definition readRecord (fpr : Z) (raw : RawRecord) : list string * option error * Z :=
  let dst := raw_fields raw in
  let err := option_map ErrCsv (raw_err raw) in
  if 0 <? fpr then
    if negb (Z.of_nat (List.length dst) =? fpr) && negb (bool_decide (is_Some err))
    then (dst, Some (ErrCsv ErrFieldCount), fpr)
    else (dst, err, fpr)
  else if fpr =? 0 then (dst, err, Z.of_nat (List.length dst))
  else (dst, err, fpr).

(** The method [Read] of [csv.Reader]. *)
Definition Read (r : Reader) : list string * option error * Reader :=
  match pending r with
  | [] => ([], Some EOF, r)
  | raw :: rest =>
      let '(record, err, fpr) := readRecord (FieldsPerRecord r) raw in
      (record, err, {| FieldsPerRecord := fpr; pending := rest |})
  end.

(** ** The world: files, log, standard output

    Several paths can name one file: "cards.csv" and "./cards.csv", a
    link and what it points to, a name in another case where the file
    system ignores case.  [locate] is the file a path names, as the
    operating system resolves it, and [disk] holds the content of every
    file that exists, under the file and not under a path.  The programs
    read files and create regular files and do nothing else to the file
    system, so what a path names is the same throughout a run.  A path is
    looked up, and written to, through [locate].

    [creatable] says for which names [os.Create] succeeds (the directory
    exists and is writable).  [trace] records every file-system and
    form-parsing call in the order made. *)

Record Files := {
  disk : gmap string string;
  locate : string -> string
}.

#[global] Instance Files_lookup : Lookup string string Files :=
  fun path fs => disk fs !! locate fs path.

#[global] Instance Files_insert : Insert string string Files :=
  fun path data fs => {| disk := <[locate fs path := data]> (disk fs); locate := locate fs |}.

#[global] Arguments Files_lookup : simpl never.
#[global] Arguments Files_insert : simpl never.

Inductive Arg := AStr (s : string) | AErr (e : error) | AInt (n : Z) | ARec (r : list string).

(** One call of [log.Printf], [log.Println] or [log.Fatalf]. *)
Record LogEntry := { fatal : bool; format : string; args : list Arg }.

Inductive Event :=
| EvStat (path : string)
| EvOpen (path : string)
| EvReadFile (path : string)
| EvCreate (path : string)
| EvWrite (path : string) (data : string)
| EvParseForm.

Record World := {
  files : Files;
  creatable : string -> bool;
  logs : list LogEntry;
  stdout : list string;
  trace : list Event
}.

Definition M (T : Type) : Type := World -> T * World.

Definition ret {T} (v : T) : M T := fun w => (v, w).

Definition bind {T U} (c : M T) (k : T -> M U) : M U :=
  fun w => let (v, w') := c w in k v w'.

Notation "x <- c ;; k" := (bind c (fun x => k))
  (at level 100, c at next level, right associativity).
Notation "c ;;; k" := (bind c (fun _ => k))
  (at level 100, right associativity).

Definition emit (e : Event) : M unit :=
  fun w => (tt, {| files := files w; creatable := creatable w; logs := logs w;
                   stdout := stdout w; trace := trace w ++ [e] |}).

Definition set_file (path data : string) : M unit :=
  fun w => (tt, {| files := <[path := data]> (files w); creatable := creatable w;
                   logs := logs w; stdout := stdout w; trace := trace w |}).

Definition get_file (path : string) : M (option string) :=
  fun w => (files w !! path, w).

Definition log_entry (e : LogEntry) : M unit :=
  fun w => (tt, {| files := files w; creatable := creatable w; logs := logs w ++ [e];
                   stdout := stdout w; trace := trace w |}).

Definition log_Printf (fmt : string) (a : list Arg) : M unit :=
  log_entry {| fatal := false; format := fmt; args := a |}.

Definition fmt_Printf (line : string) : M unit :=
  fun w => (tt, {| files := files w; creatable := creatable w; logs := logs w;
                   stdout := stdout w ++ [line]; trace := trace w |}).

(** [os.Stat]: the only failure modelled is a missing file. *)
Definition os_Stat (path : string) : M (result unit) :=
  emit (EvStat path) ;;;
  f <- get_file path ;;
  ret (match f with Some _ => Ok tt | None => Err (ErrPath "stat" path) end).

(** [os.Open] followed by reading through the handle: the file's bytes. *)
Definition os_Open (path : string) : M (result string) :=
  emit (EvOpen path) ;;;
  f <- get_file path ;;
  ret (match f with Some data => Ok data | None => Err (ErrPath "open" path) end).

Definition ioutil_ReadFile (path : string) : M (result string) :=
  emit (EvReadFile path) ;;;
  f <- get_file path ;;
  ret (match f with Some data => Ok data | None => Err (ErrPath "open" path) end).

(** [os.Create]: creates the file or truncates an existing one. *)
Definition os_Create (path : string) : M (result string) :=
  emit (EvCreate path) ;;;
  fun w => if creatable w path
           then (set_file path "" ;;; ret (Ok path)) w
           else (Err (ErrPath "open" path), w).

(** [png.Encode(outFile, m)] on a file just created. *)
Definition png_Encode_file (L : Libs) (outFile : string) (m : RGBA) : M (option error) :=
  match png_Encode L m with
  | Ok data => emit (EvWrite outFile data) ;;; set_file outFile data ;;; ret None
  | Err e => ret (Some e)
  end.

(** Go's [x, err := f(); if err != nil { return nil, fmt.Errorf(msg, err) }]. *)
Definition try {T U} (c : M (result T)) (msg : string)
    (k : T -> M (option U * option error)) : M (option U * option error) :=
  r <- c ;;
  match r with
  | Ok v => k v
  | Err e => ret (None, Some (ErrWrap msg e))
  end.

Notation "x <~ c 'orelse' msg ;; k" := (try c msg (fun x => k))
  (at level 100, c at next level, msg at next level, right associativity).

Definition pure_result {T} (o : option T) (e : error) : M (result T) :=
  ret (match o with Some v => Ok v | None => Err e end).

Definition nl : string := String (ascii_of_nat 10) EmptyString.
Definition dquote : string := String (ascii_of_nat 34) EmptyString.

(** How a [main] ends: by returning, through [os.Exit] (as [log.Fatalf]
    does after logging), or in a run-time panic. *)
Inductive Exit := Return | OsExit (code : Z) | Panic.

Definition log_Fatalf (fmt : string) (a : list Arg) : M Exit :=
  log_entry {| fatal := true; format := fmt; args := a |} ;;; ret (OsExit 1).

Definition nonempty (s : string) : bool := negb (String.eqb s "").

(** * The batch tool: src/main.go *)
Module Batch.

Record BusinessCard := {
  Name : string;
  Pronouns : string;
  Title : string;
  Company : string;
  Address : string;
  PhoneNumber : string;
  Email : string
}.

Section WithLibs.
Context (L : Libs).

(** main.go 133-155: the drawing part of [GenerateCard]. *)
Definition draw_fields (img : RGBA) (nameFace midFace titleFace otherFace pronounsFace : Face)
    (cardData : BusinessCard) : RGBA :=
  let nameFontSize := 20 in
  let pronounsFontSize := 13 in
  let titleFontSize := 15 in
  let companyFontSize := 15 in
  let otherFontSize := 13 in
  let nameColor := {| R := 242; G := 103; B := 34; A := 255 |} in
  let titleTextColor := {| R := 0; G := 48; B := 71; A := 255 |} in
  let companyTextColor := {| R := 109; G := 110; B := 113; A := 255 |} in
  let otherTextColor := {| R := 109; G := 110; B := 113; A := 255 |} in
  let y := 25 in
  let img := drawText FName img nameFace (Name cardData) 70 y nameColor in
  let y := y + nameFontSize + 0 in
  let '(img, y) :=
    if nonempty (Pronouns cardData)
    then (drawText FPronouns img pronounsFace (Pronouns cardData) 70 y otherTextColor,
          y + pronounsFontSize + 1)
    else (img, y) in
  let img := drawText FTitle img titleFace (Title cardData) 70 y titleTextColor in
  let y := y + titleFontSize + 0 in
  let y := y + 10 in
  let img := drawText FCompany img midFace (Company cardData) 70 y companyTextColor in
  let y := y + companyFontSize + 0 in
  let img := drawText FAddress img otherFace (Address cardData) 70 y otherTextColor in
  let y := y + otherFontSize + 0 in
  let img := drawText FPhone img otherFace (PhoneNumber cardData) 70 y otherTextColor in
  let y := y + otherFontSize + 0 in
  let img := drawText FEmail img otherFace (Email cardData) 70 y otherTextColor in
  img.

(** main.go 34-158. *)
Definition GenerateCard (bgImagePath regularFontPath boldFontPath : string)
    (cardData : BusinessCard) : M (option RGBA * option error) :=
  bgFile <~ os_Open bgImagePath orelse "failed to open background image: %w" ;;
  bgImage <~ pure_result (image_Decode L bgFile) ErrImage
    orelse "failed to decode background image: %w" ;;
  let bounds := pic_bounds bgImage in
  let img := NewRGBA bounds in
  let img := draw_Draw img bounds bgImage {| X := 0; Y := 0 |} in
  regularFontBytes <~ ioutil_ReadFile regularFontPath
    orelse "failed to read regular font file: %w" ;;
  regularFont <~ pure_result (opentype_Parse L regularFontBytes) ErrFont
    orelse "failed to parse regular font: %w" ;;
  boldFontBytes <~ ioutil_ReadFile boldFontPath
    orelse "failed to read bold font file: %w" ;;
  boldFont <~ pure_result (opentype_Parse L boldFontBytes) ErrFont
    orelse "failed to parse bold font: %w" ;;
  let nameFontSize := 20 in
  let pronounsFontSize := 13 in
  let titleFontSize := 15 in
  let otherFontSize := 13 in
  let midFontSize := 14 in
  nameFace <~ ret (opentype_NewFace L boldFont
      {| Size := nameFontSize; DPI := 72; hinting := HintingFull |})
    orelse "failed to create name font face: %w" ;;
  midFace <~ ret (opentype_NewFace L boldFont
      {| Size := midFontSize; DPI := 72; hinting := HintingFull |})
    orelse "failed to create mid font face: %w" ;;
  titleFace <~ ret (opentype_NewFace L boldFont
      {| Size := titleFontSize; DPI := 72; hinting := HintingFull |})
    orelse "failed to create mid font face: %w" ;;
  otherFace <~ ret (opentype_NewFace L regularFont
      {| Size := otherFontSize; DPI := 72; hinting := HintingFull |})
    orelse "failed to create other font face: %w" ;;
  pronounsFace <~ ret (opentype_NewFace L regularFont
      {| Size := pronounsFontSize; DPI := 72; hinting := HintingFull |})
    orelse "failed to create pronouns font face: %w" ;;
  ret (Some (draw_fields img nameFace midFace titleFace otherFace pronounsFace cardData), None).

(** main.go 204-212. *)
Definition card_of_record (record : list string) : BusinessCard :=
  {| Name := nth 0 record "";
     Pronouns := nth 1 record "";
     Title := nth 2 record "";
     Company := nth 3 record "";
     Address := nth 4 record "";
     PhoneNumber := nth 5 record "";
     Email := nth 6 record "" |}.

(** main.go 189-215: the loop over [reader.Read()].  [fpr] and [rest] are
    the state of the reader; each turn is one [Read] (lemma
    [read_loop_Read]). *)
Fixpoint read_loop (fpr : Z) (rest : list RawRecord) (cards : list BusinessCard)
    : M (list BusinessCard * option error) :=
  match rest with
  | [] => ret (cards, None)
  | raw :: rest' =>
      let '(record, err, fpr') := readRecord fpr raw in
      match err with
      | Some err => ret ([], Some (ErrWrap "failed to read CSV record: %w" err))
      | None =>
          if (List.length record <? 7)%nat
          then log_Printf "Skipping invalid record: %v (expected 7 fields, got %d)"
                 [ARec record; AInt (Z.of_nat (List.length record))] ;;;
               read_loop fpr' rest' cards
          else read_loop fpr' rest' (cards ++ [card_of_record record])
      end
  end.

(** main.go 172-216. *)
Definition readCardsFromCSV (csvPath : string) : M (list BusinessCard * option error) :=
  f <- os_Open csvPath ;;
  match f with
  | Err err => ret ([], Some (ErrWrap "failed to open CSV file: %w" err))
  | Ok file =>
      let reader := csv_NewReader L file in
      let '(_, err, reader) := Read reader in
      match err with
      | Some EOF => ret ([], Some (ErrNew "CSV file is empty"))
      | Some err => ret ([], Some (ErrWrap "failed to read CSV header: %w" err))
      | None => read_loop (FieldsPerRecord reader) (pending reader) []
      end
  end.

Definition bgImagePath := "./BrandingGuidelines_2025.png".
Definition regularFontPath := "./Raleway-Regular.ttf".
Definition boldFontPath := "./Raleway-Bold.ttf".
Definition csvPath := "./cards.csv".

(** main.go 264-266. *)
Definition outputFileName (card : BusinessCard) : string :=
  let sanitizedName := ReplaceAll (Name card) " " "_" in
  sanitizedName ++ "_email_signature.png".

(** main.go 257-281: the loop over the cards. *)
Fixpoint for_cards (cards : list BusinessCard) : M Exit :=
  match cards with
  | [] => ret Return
  | card :: rest =>
      r <- GenerateCard bgImagePath regularFontPath boldFontPath card ;;
      match r with
      | (_, Some err) =>
          log_Fatalf "Error generating email signature for %s: %v" [AStr (Name card); AErr err]
      | (None, None) => ret Panic
      | (Some cardImage, None) =>
          let outputFileName := outputFileName card in
          c <- os_Create outputFileName ;;
          match c with
          | Err err =>
              log_Fatalf "Failed to create output file %s: %v" [AStr outputFileName; AErr err]
          | Ok outFile =>
              e <- png_Encode_file L outFile cardImage ;;
              match e with
              | Some err =>
                  log_Fatalf "Failed to encode image to PNG for %s: %v"
                    [AStr (Name card); AErr err]
              | None =>
                  fmt_Printf ("Successfully generated business card: " ++ outputFileName ++ nl) ;;;
                  for_cards rest
              end
          end
      end
  end.

Definition exists_or_fatal (path fmt : string) (k : M Exit) : M Exit :=
  s <- os_Stat path ;;
  match s with
  | Err _ => log_Fatalf fmt [AStr path]
  | Ok _ => k
  end.

(** main.go 218-282. *)
Definition main : M Exit :=
  exists_or_fatal bgImagePath "Background image file does not exist: %s" (
  exists_or_fatal regularFontPath "Regular font file does not exist: %s" (
  exists_or_fatal boldFontPath "Bold font file does not exist: %s" (
  exists_or_fatal csvPath "CSV file does not exist: %s" (
  r <- readCardsFromCSV csvPath ;;
  let '(cards, err) := r in
  match err with
  | Some err => log_Fatalf "Error reading cards from CSV: %v" [AErr err]
  | None =>
      if (List.length cards =? 0)%nat
      then log_entry {| fatal := false; format := "No cards found in the CSV file."; args := [] |} ;;;
           ret Return
      else for_cards cards
  end)))).

End WithLibs.
End Batch.

(** * HTTP

    A response writer with the semantics [net/http] documents: the status
    code and the headers are fixed by the first [WriteHeader]; a [Write]
    before any [WriteHeader] fixes them with status 200; later changes to
    the header map or calls of [WriteHeader] do not reach the client.

    [body] is what has been passed to [Write] so far.  A [Write] can fail
    (the client is gone): the handlers look at the result of the writes
    [png.Encode] makes and at no other.  The encoder writes the encoding
    in pieces and gives up at the first [Write] that fails; [stops] says,
    for the bytes an encoder is to write through this writer, whether all
    its writes succeed ([None]) or how many bytes it had passed on when a
    [Write] failed. *)

Record ResponseWriter := {
  header : gmap string string;                (* w.Header() *)
  sent : option (Z * gmap string string);     (* status and headers, once fixed *)
  body : string;
  stops : string -> option nat
}.

Definition Header_Set (k v : string) (w : ResponseWriter) : ResponseWriter :=
  {| header := <[k := v]> (header w); sent := sent w; body := body w; stops := stops w |}.

Definition Header_Del (k : string) (w : ResponseWriter) : ResponseWriter :=
  {| header := delete k (header w); sent := sent w; body := body w; stops := stops w |}.

Definition WriteHeader (code : Z) (w : ResponseWriter) : ResponseWriter :=
  match sent w with
  | Some _ => w
  | None => {| header := header w; sent := Some (code, header w); body := body w;
               stops := stops w |}
  end.

Definition StatusOK := 200.
Definition StatusBadRequest := 400.
Definition StatusMethodNotAllowed := 405.
Definition StatusInternalServerError := 500.

Definition Write (data : string) (w : ResponseWriter) : ResponseWriter :=
  let w := WriteHeader StatusOK w in
  {| header := header w; sent := sent w; body := body w ++ data; stops := stops w |}.

(** [http.Error]. *)
Definition http_Error (w : ResponseWriter) (msg : string) (code : Z) : ResponseWriter :=
  let w := Header_Del "Content-Length" w in
  let w := Header_Set "Content-Type" "text/plain; charset=utf-8" w in
  let w := Header_Set "X-Content-Type-Options" "nosniff" w in
  let w := WriteHeader code w in
  Write (msg ++ nl) w.

Definition status (w : ResponseWriter) : option Z := fst <$> sent w.
Definition sent_header (w : ResponseWriter) (k : string) : option string :=
  sent w ≫= fun s => snd s !! k.

(** A response writer as a handler receives it, on a connection that
    holds. *)
Definition new_response : ResponseWriter :=
  {| header := ∅; sent := None; body := ""; stops := fun _ => None |}.

(** A response writer as a handler receives it, on a connection that is
    lost when [n] bytes are through: an encoder that has more to write
    finds a write failing then. *)
Definition lost_after (n : nat) : ResponseWriter :=
  {| header := ∅; sent := None; body := "";
     stops := fun data => if (n <? String.length data)%nat then Some n else None |}.

(** A request.  [form_data] is what [ParseForm] makes of the query string
    and the body: the values, and the error if the encoding is malformed.
    [Form] is the field of that name, nil until the form is parsed. *)
Record Request := {
  Method : string;
  form_data : gmap string (list string) * option error;
  Form : option (gmap string (list string))
}.

Definition ParseForm (r : Request) : M (Request * option error) :=
  emit EvParseForm ;;;
  ret (match Form r with
       | Some _ => (r, None)
       | None => ({| Method := Method r; form_data := form_data r;
                     Form := Some (fst (form_data r)) |}, snd (form_data r))
       end).

Definition FormValue (r : Request) (key : string) : string :=
  let form := match Form r with Some f => f | None => fst (form_data r) end in
  match form !! key with
  | Some (v :: _) => v
  | _ => ""
  end.

(** How a handler ends: having built a response (and possibly parsed the
    request's form), or in a run-time panic. *)
Inductive Served := Responded (w : ResponseWriter) (r : Request) | Panicked.

(** [png.Encode(w, img)] on a response writer: the size check, before
    anything is written, and then the writes, of which the first fixes
    status 200 whether it succeeds or not. *)
Definition png_Encode_response (L : Libs) (w : ResponseWriter) (m : RGBA)
    : ResponseWriter * option error :=
  match png_Encode L m with
  | Ok data =>
      match stops w data with
      | None => (Write data w, None)
      | Some n => (Write (substring 0 n data) w, Some ErrWrite)
      end
  | Err e => (w, Some e)
  end.

(** * The business-card server: src/server/emailfooterserver.go, 1-285 *)
Module CardServer.

Record BusinessCard := {
  Name : string;
  Pronouns : string;
  Title : string;
  Company : string;
  Department : string;
  Address : string;
  LandGrant1 : string;
  LandGrant2 : string;
  LandGrant3 : string;
  LandGrant4 : string;
  PhoneNumber : string;
  Email : string
}.

Section WithLibs.
Context (L : Libs).

(** Lines 130-196: the drawing part of [GenerateCard]. *)
Definition draw_fields (img : RGBA) (nameFace midFace otherFace pronounsFace : Face)
    (cardData : BusinessCard) : RGBA :=
  let nameFontSize := 36 in
  let midFontSize := 28 in
  let otherFontSize := 24 in
  let pronounsFontSize := 18 in
  let nameColor := {| R := 255; G := 165; B := 0; A := 255 |} in
  let midTextColor := {| R := 200; G := 200; B := 200; A := 255 |} in
  let otherTextColor := {| R := 255; G := 255; B := 255; A := 255 |} in
  let y := 100 in
  let img := drawText FName img nameFace (Name cardData) 50 y nameColor in
  let y := y + nameFontSize + 5 in
  let '(img, y) :=
    if nonempty (Pronouns cardData)
    then (drawText FPronouns img pronounsFace (Pronouns cardData) 50 y otherTextColor,
          y + pronounsFontSize + 5)
    else (img, y) in
  let y := y + 10 in
  let img := drawText FTitle img midFace ("Title: " ++ Title cardData) 50 y midTextColor in
  let y := y + midFontSize + 10 in
  let img := drawText FCompany img midFace ("Company: " ++ Company cardData) 50 y midTextColor in
  let y := y + midFontSize + 10 in
  let '(img, y) :=
    if nonempty (Department cardData)
    then (drawText FDepartment img midFace ("Department: " ++ Department cardData) 50 y midTextColor,
          y + midFontSize + 10)
    else (img, y) in
  let img := drawText FAddress img otherFace ("Address: " ++ Address cardData) 50 y otherTextColor in
  let y := y + otherFontSize + 10 in
  let formattedPhone := formattedPhone (PhoneNumber cardData) in
  let img := drawText FPhone img otherFace ("Phone: " ++ formattedPhone) 50 y otherTextColor in
  let y := y + otherFontSize + 10 in
  let img := drawText FEmail img otherFace ("Email: " ++ Email cardData) 50 y otherTextColor in
  let y := y + otherFontSize + 10 in
  let '(img, y) :=
    if nonempty (LandGrant1 cardData)
    then (drawText FLandGrant1 img otherFace (LandGrant1 cardData) 50 y otherTextColor,
          y + otherFontSize + 5)
    else (img, y) in
  let '(img, y) :=
    if nonempty (LandGrant2 cardData)
    then (drawText FLandGrant2 img otherFace (LandGrant2 cardData) 50 y otherTextColor,
          y + otherFontSize + 5)
    else (img, y) in
  let '(img, y) :=
    if nonempty (LandGrant3 cardData)
    then (drawText FLandGrant3 img otherFace (LandGrant3 cardData) 50 y otherTextColor,
          y + otherFontSize + 5)
    else (img, y) in
  let '(img, y) :=
    if nonempty (LandGrant4 cardData)
    then (drawText FLandGrant4 img otherFace (LandGrant4 cardData) 50 y otherTextColor,
          y + otherFontSize + 5)
    else (img, y) in
  img.

(** Lines 38-199. *)
Definition GenerateCard (bgImagePath regularFontPath boldFontPath italicFontPath : string)
    (cardData : BusinessCard) : M (option RGBA * option error) :=
  bgFile <~ os_Open bgImagePath orelse "failed to open background image: %w" ;;
  bgImage <~ pure_result (image_Decode L bgFile) ErrImage
    orelse "failed to decode background image: %w" ;;
  let bounds := pic_bounds bgImage in
  let img := NewRGBA bounds in
  let img := draw_Draw img bounds bgImage {| X := 0; Y := 0 |} in
  regularFontBytes <~ ioutil_ReadFile regularFontPath
    orelse "failed to read regular font file: %w" ;;
  regularFont <~ pure_result (opentype_Parse L regularFontBytes) ErrFont
    orelse "failed to parse regular font: %w" ;;
  boldFontBytes <~ ioutil_ReadFile boldFontPath
    orelse "failed to read bold font file: %w" ;;
  boldFont <~ pure_result (opentype_Parse L boldFontBytes) ErrFont
    orelse "failed to parse bold font: %w" ;;
  italicFontBytes <~ ioutil_ReadFile italicFontPath
    orelse "failed to read italic font file: %w" ;;
  italicFont <~ pure_result (opentype_Parse L italicFontBytes) ErrFont
    orelse "failed to parse italic font: %w" ;;
  let nameFontSize := 36 in
  let midFontSize := 28 in
  let otherFontSize := 24 in
  let pronounsFontSize := 18 in
  nameFace <~ ret (opentype_NewFace L boldFont
      {| Size := nameFontSize; DPI := 72; hinting := HintingFull |})
    orelse "failed to create name font face: %w" ;;
  midFace <~ ret (opentype_NewFace L boldFont
      {| Size := midFontSize; DPI := 72; hinting := HintingFull |})
    orelse "failed to create mid font face: %w" ;;
  otherFace <~ ret (opentype_NewFace L regularFont
      {| Size := otherFontSize; DPI := 72; hinting := HintingFull |})
    orelse "failed to create other font face: %w" ;;
  pronounsFace <~ ret (opentype_NewFace L italicFont
      {| Size := pronounsFontSize; DPI := 72; hinting := HintingFull |})
    orelse "failed to create pronouns font face: %w" ;;
  ret (Some (draw_fields img nameFace midFace otherFace pronounsFace cardData), None).

Definition bgImagePath := "./assets/background_image.png".
Definition regularFontPath := "./assets/Railway-Regular.ttf".
Definition boldFontPath := "./assets/Railway-Bold.ttf".
Definition italicFontPath := "./assets/Railway-Italic.ttf".

(** Lines 227-240. *)
Definition card_of_form (r : Request) : BusinessCard :=
  {| Name := FormValue r "name";
     Pronouns := FormValue r "pronouns";
     Title := FormValue r "title";
     Company := FormValue r "company";
     Department := FormValue r "department";
     Address := FormValue r "address";
     LandGrant1 := FormValue r "land_grant_1";
     LandGrant2 := FormValue r "land_grant_2";
     LandGrant3 := FormValue r "land_grant_3";
     LandGrant4 := FormValue r "land_grant_4";
     PhoneNumber := FormValue r "phone_number";
     Email := FormValue r "email" |}.

(** Lines 213-268. *)
Definition cardHandler (w : ResponseWriter) (r : Request) : M Served :=
  if negb (String.eqb (Method r) "POST")
  then ret (Responded (http_Error w "Method not allowed" StatusMethodNotAllowed) r)
  else
    p <- ParseForm r ;;
    let '(r, err) := p in
    match err with
    | Some _ => ret (Responded (http_Error w "Failed to parse form data" StatusBadRequest) r)
    | None =>
        let cardData := card_of_form r in
        g <- GenerateCard bgImagePath regularFontPath boldFontPath italicFontPath cardData ;;
        match g with
        | (_, Some err) =>
            log_Printf "Error generating image: %v" [AErr err] ;;;
            ret (Responded (http_Error w "Failed to generate business card image"
                              StatusInternalServerError) r)
        | (None, None) => ret Panicked
        | (Some img, None) =>
            let w := Header_Set "Content-Type" "image/png" w in
            let w := Header_Set "Content-Disposition"
                       ("attachment; filename=" ++ dquote ++ "emailsignature.png" ++ dquote) w in
            let '(w, err) := png_Encode_response L w img in
            match err with
            | Some err =>
                log_Printf "Error encoding image: %v" [AErr err] ;;;
                ret (Responded (http_Error w "Failed to encode PNG image"
                                  StatusInternalServerError) r)
            | None => ret (Responded w r)
            end
        end
    end.

End WithLibs.
End CardServer.

(** * The e-mail footer server: src/server/emailfooterserver.go, 287-538 *)
Module FooterServer.

Record BusinessCard := {
  Name : string;
  Pronouns : string;
  Title : string;
  Company : string;
  Address : string;
  PhoneNumber : string;
  Email : string
}.

Section WithLibs.
Context (L : Libs).

(** Lines 412-455: the drawing part of [GenerateCard]. *)
Definition draw_fields (img : RGBA) (nameFace midFace titleFace otherFace pronounsFace : Face)
    (cardData : BusinessCard) : RGBA :=
  let nameFontSize := 20 in
  let pronounsFontSize := 13 in
  let titleFontSize := 15 in
  let companyFontSize := 15 in
  let otherFontSize := 13 in
  let nameColor := {| R := 242; G := 103; B := 34; A := 255 |} in
  let titleTextColor := {| R := 0; G := 48; B := 71; A := 255 |} in
  let companyTextColor := {| R := 109; G := 110; B := 113; A := 255 |} in
  let otherTextColor := {| R := 109; G := 110; B := 113; A := 255 |} in
  let y := 25 in
  let img := drawText FName img nameFace (Name cardData) 70 y nameColor in
  let y := y + nameFontSize + 0 in
  let '(img, y) :=
    if nonempty (Pronouns cardData)
    then (drawText FPronouns img pronounsFace (Pronouns cardData) 70 y otherTextColor,
          y + pronounsFontSize + 1)
    else (img, y) in
  let img := drawText FTitle img titleFace (Title cardData) 70 y titleTextColor in
  let y := y + titleFontSize + 0 in
  let y := y + 10 in
  let img := drawText FCompany img midFace (Company cardData) 70 y companyTextColor in
  let y := y + companyFontSize + 0 in
  let img := drawText FAddress img otherFace (Address cardData) 70 y otherTextColor in
  let y := y + otherFontSize + 0 in
  let formattedPhone := formattedPhone (PhoneNumber cardData) in
  let img := drawText FPhone img otherFace formattedPhone 70 y otherTextColor in
  let y := y + otherFontSize + 0 in
  let img := drawText FEmail img otherFace (Email cardData) 70 y otherTextColor in
  img.

(** Lines 319-458. *)
Definition GenerateCard (bgImagePath regularFontPath boldFontPath : string)
    (cardData : BusinessCard) : M (option RGBA * option error) :=
  bgFile <~ os_Open bgImagePath orelse "failed to open background image: %w" ;;
  bgImage <~ pure_result (image_Decode L bgFile) ErrImage
    orelse "failed to decode background image: %w" ;;
  let bounds := pic_bounds bgImage in
  let img := NewRGBA bounds in
  let img := draw_Draw img bounds bgImage {| X := 0; Y := 0 |} in
  regularFontBytes <~ ioutil_ReadFile regularFontPath
    orelse "failed to read regular font file: %w" ;;
  regularFont <~ pure_result (opentype_Parse L regularFontBytes) ErrFont
    orelse "failed to parse regular font: %w" ;;
  boldFontBytes <~ ioutil_ReadFile boldFontPath
    orelse "failed to read bold font file: %w" ;;
  boldFont <~ pure_result (opentype_Parse L boldFontBytes) ErrFont
    orelse "failed to parse bold font: %w" ;;
  let nameFontSize := 20 in
  let pronounsFontSize := 13 in
  let titleFontSize := 15 in
  let otherFontSize := 13 in
  let midFontSize := 14 in
  nameFace <~ ret (opentype_NewFace L boldFont
      {| Size := nameFontSize; DPI := 72; hinting := HintingFull |})
    orelse "failed to create name font face: %w" ;;
  midFace <~ ret (opentype_NewFace L boldFont
      {| Size := midFontSize; DPI := 72; hinting := HintingFull |})
    orelse "failed to create mid font face: %w" ;;
  titleFace <~ ret (opentype_NewFace L boldFont
      {| Size := titleFontSize; DPI := 72; hinting := HintingFull |})
    orelse "failed to create mid font face: %w" ;;
  otherFace <~ ret (opentype_NewFace L regularFont
      {| Size := otherFontSize; DPI := 72; hinting := HintingFull |})
    orelse "failed to create other font face: %w" ;;
  pronounsFace <~ ret (opentype_NewFace L regularFont
      {| Size := pronounsFontSize; DPI := 72; hinting := HintingFull |})
    orelse "failed to create pronouns font face: %w" ;;
  ret (Some (draw_fields img nameFace midFace titleFace otherFace pronounsFace cardData), None).

Definition bgImagePath := "../BrandingGuidelines_2025.png".
Definition regularFontPath := "../Raleway-Regular.ttf".
Definition boldFontPath := "../Raleway-Bold.ttf".

(** Lines 486-494. *)
Definition card_of_form (r : Request) : BusinessCard :=
  {| Name := FormValue r "name";
     Pronouns := FormValue r "pronouns";
     Title := FormValue r "title";
     Company := FormValue r "company";
     Address := FormValue r "address";
     PhoneNumber := FormValue r "phone_number";
     Email := FormValue r "email" |}.

(** Lines 472-521. *)
Definition cardHandler (w : ResponseWriter) (r : Request) : M Served :=
  if negb (String.eqb (Method r) "POST")
  then ret (Responded (http_Error w "Method not allowed" StatusMethodNotAllowed) r)
  else
    p <- ParseForm r ;;
    let '(r, err) := p in
    match err with
    | Some _ => ret (Responded (http_Error w "Failed to parse form data" StatusBadRequest) r)
    | None =>
        let cardData := card_of_form r in
        g <- GenerateCard bgImagePath regularFontPath boldFontPath cardData ;;
        match g with
        | (_, Some err) =>
            log_Printf "Error generating image: %v" [AErr err] ;;;
            ret (Responded (http_Error w "Failed to generate business card image"
                              StatusInternalServerError) r)
        | (None, None) => ret Panicked
        | (Some img, None) =>
            let w := Header_Set "Content-Type" "image/png" w in
            let w := Header_Set "Content-Disposition"
                       ("attachment; filename=" ++ dquote ++ "EmailSignature.png" ++ dquote) w in
            let '(w, err) := png_Encode_response L w img in
            match err with
            | Some err =>
                log_Printf "Error encoding image: %v" [AErr err] ;;;
                ret (Responded (http_Error w "Failed to encode PNG image"
                                  StatusInternalServerError) r)
            | None => ret (Responded w r)
            end
        end
    end.

End WithLibs.
End FooterServer.

(** * The vocabulary of the statements

    Nothing below is part of the programs: these are the notions the
    statements about them are written in. *)

(** ** Strings *)

(** A function applied to every byte. *)
Fixpoint map_bytes (f : ascii -> ascii) (s : string) : string :=
  match s with
  | EmptyString => EmptyString
  | String c s' => String (f c) (map_bytes f s')
  end.

(** Every space (U+0020) turned into an underscore, all else kept. *)
Definition underscores (s : string) : string :=
  map_bytes (fun c => if Ascii.eqb c " " then "_"%char else c) s.

(** A byte that is a decimal digit; the digit bytes of a string, in order;
    how many there are. *)
Definition is_digit (c : ascii) : bool :=
  (48 <=? nat_of_ascii c)%nat && (nat_of_ascii c <=? 57)%nat.

Fixpoint digit_bytes (s : string) : string :=
  match s with
  | EmptyString => EmptyString
  | String c s' => if is_digit c then String c (digit_bytes s') else digit_bytes s'
  end.

Fixpoint count_digits (s : string) : nat :=
  match s with
  | EmptyString => 0
  | String c s' => ((if is_digit c then 1 else 0) + count_digits s')%nat
  end.

(** The first [n] bytes of [s] are not ASCII. *)
Fixpoint high (n : nat) (s : string) : Prop :=
  match n, s with
  | S k, String c s' => 0x80 <= code c /\ high k s'
  | _, _ => True
  end.

(** [strings.HasSuffix]. *)
Fixpoint HasSuffix (s suffix : string) : bool :=
  String.eqb s suffix ||
  match s with
  | EmptyString => false
  | String _ s' => HasSuffix s' suffix
  end.

(** ** Worlds *)

(** The world with more calls on record, and with one more log entry. *)
Definition add_trace (w : World) (evs : list Event) : World :=
  {| files := files w; creatable := creatable w; logs := logs w;
     stdout := stdout w; trace := trace w ++ evs |}.

Definition add_log (w : World) (e : LogEntry) : World :=
  {| files := files w; creatable := creatable w; logs := logs w ++ [e];
     stdout := stdout w; trace := trace w |}.

(** Two paths name the same file. *)
Definition same_file (fs : Files) (p q : string) : Prop := locate fs p = locate fs q.

(** [reads_only w w']: from [w] to [w'] files were opened or read, and
    nothing else happened. *)
Definition is_read (e : Event) : Prop :=
  match e with
  | EvOpen _ | EvReadFile _ => True
  | _ => False
  end.

Definition reads_only (w w' : World) : Prop :=
  exists evs, w' = add_trace w evs /\ Forall is_read evs.

(** A Go result pair is either a value with a nil error or nil with an error. *)
Definition go_pair {U} (r : option U * option error) : Prop :=
  (is_Some (fst r) /\ snd r = None) \/ (fst r = None /\ is_Some (snd r)).

(** A call returns such a pair and does nothing but read. *)
Definition tidy {U} (c : M (option U * option error)) : Prop :=
  forall w, reads_only w (snd (c w)) /\ go_pair (fst (c w)).

Definition reading {T} (c : M T) : Prop := forall w, reads_only w (snd (c w)).

(** ** Assets *)

(** The face options used throughout, and the face they give. *)
Definition opts (size : Z) : FaceOptions := {| Size := size; DPI := 72; hinting := HintingFull |}.
Definition mkFace (f : Font) (size : Z) : Face := {| face_font := f; face_opts := opts size |}.

(** The image after the background was drawn on it, before any text. *)
Definition background (pic : Picture) : RGBA :=
  draw_Draw (NewRGBA (pic_bounds pic)) (pic_bounds pic) pic {| X := 0; Y := 0 |}.

(** The file at [path] is there and decodes to [pic]; parses to [f]. *)
Definition loads (L : Libs) (fs : Files) (path : string) (pic : Picture) : Prop :=
  exists data, fs !! path = Some data /\ image_Decode L data = Some pic.

Definition parses (L : Libs) (fs : Files) (path : string) (f : Font) : Prop :=
  exists data, fs !! path = Some data /\ opentype_Parse L data = Some f.

(** The assets of the batch tool and of the footer server are in place:
    background and both fonts decode and the five faces can be made. *)
Definition ready2 (L : Libs) (fs : Files) (bg rf bf : string)
    (pic : Picture) (rfont bfont : Font) : Prop :=
  loads L fs bg pic /\ parses L fs rf rfont /\ parses L fs bf bfont /\
  newFace_ok L bfont (opts 20) = true /\ newFace_ok L bfont (opts 14) = true /\
  newFace_ok L bfont (opts 15) = true /\ newFace_ok L rfont (opts 13) = true.

(** The same for the card server, with its third font. *)
Definition ready3 (L : Libs) (fs : Files) (bg rf bf itf : string)
    (pic : Picture) (rfont bfont ifont : Font) : Prop :=
  loads L fs bg pic /\ parses L fs rf rfont /\ parses L fs bf bfont /\ parses L fs itf ifont /\
  newFace_ok L bfont (opts 36) = true /\ newFace_ok L bfont (opts 28) = true /\
  newFace_ok L rfont (opts 24) = true /\ newFace_ok L ifont (opts 18) = true.

(** What each program draws once its assets are in place. *)
Definition Batch_rendered (pic : Picture) (rfont bfont : Font) (c : Batch.BusinessCard) : RGBA :=
  Batch.draw_fields (background pic) (mkFace bfont 20) (mkFace bfont 14) (mkFace bfont 15)
    (mkFace rfont 13) (mkFace rfont 13) c.

Definition FooterServer_rendered (pic : Picture) (rfont bfont : Font)
    (c : FooterServer.BusinessCard) : RGBA :=
  FooterServer.draw_fields (background pic) (mkFace bfont 20) (mkFace bfont 14)
    (mkFace bfont 15) (mkFace rfont 13) (mkFace rfont 13) c.

Definition CardServer_rendered (pic : Picture) (rfont bfont ifont : Font)
    (c : CardServer.BusinessCard) : RGBA :=
  CardServer.draw_fields (background pic) (mkFace bfont 36) (mkFace bfont 28)
    (mkFace rfont 24) (mkFace ifont 18) c.

(** ** The lines of a card, as a table

    The reading of the specification: the fields are drawn in a fixed
    order, each at the vertical offset reached so far, which a drawn line
    then advances; a blank optional field draws nothing and advances
    nothing. *)

Record Line := {
  site : Field;        (* the field the line shows *)
  optional : bool;     (* skipped when the field is blank *)
  value : string;      (* the field *)
  text : string;       (* what is drawn: the field, after its label if any *)
  lface : Face;
  colour : Color;
  advance : Z          (* added to y once the line is drawn *)
}.

Inductive Item := Text (l : Line) | Gap (n : Z).

Fixpoint layout (x y : Z) (items : list Item) : list (Field * Drawer * string) :=
  match items with
  | [] => []
  | Gap n :: rest => layout x (y + n) rest
  | Text l :: rest =>
      if optional l && negb (nonempty (value l))
      then layout x y rest
      else (site l,
            {| Src := colour l; face := lface l; Dot := {| X := fixed_I x; Y := fixed_I y |} |},
            text l) :: layout x (y + advance l) rest
  end.

(** The table with the line of field [f] struck out: the card as it would
    be if that field did not exist. *)
Definition without (f : Field) (items : list Item) : list Item :=
  List.filter (fun i => match i with
                        | Text l => negb (bool_decide (site l = f))
                        | Gap _ => true
                        end) items.

(** The optional lines of a table: field and content. *)
Definition optional_lines (items : list Item) : list (Field * string) :=
  omap (fun i => match i with
                 | Text l => if optional l then Some (site l, value l) else None
                 | Gap _ => None
                 end) items.

(** The texts drawn for one field. *)
Definition texts_at (f : Field) (img : RGBA) : list string :=
  omap (fun c => if decide (fst (fst c) = f) then Some (snd c) else None) (draw_calls img).

(** The vertical positions, in pixels, of the lines drawn on an image. *)
Definition baselines (img : RGBA) : list (Field * Z) :=
  map (fun c => (fst (fst c), Y (Dot (snd (fst c))) / 64)) (draw_calls img).

(** The tables of the three programs. *)
Definition gray : Color := {| R := 109; G := 110; B := 113; A := 255 |}.
Definition white : Color := {| R := 255; G := 255; B := 255; A := 255 |}.
Definition light_gray : Color := {| R := 200; G := 200; B := 200; A := 255 |}.

Definition line (f : Field) (opt : bool) (v label : string) (fc : Face) (c : Color) (adv : Z) :=
  Text {| site := f; optional := opt; value := v; text := label ++ v; lface := fc;
          colour := c; advance := adv |}.

Definition Batch_lines (rfont bfont : Font) (c : Batch.BusinessCard) : list Item :=
  [ line FName false (Batch.Name c) "" (mkFace bfont 20) {| R := 242; G := 103; B := 34; A := 255 |} 20;
    line FPronouns true (Batch.Pronouns c) "" (mkFace rfont 13) gray 14;
    line FTitle false (Batch.Title c) "" (mkFace bfont 15) {| R := 0; G := 48; B := 71; A := 255 |} 15;
    Gap 10;
    line FCompany false (Batch.Company c) "" (mkFace bfont 14) gray 15;
    line FAddress false (Batch.Address c) "" (mkFace rfont 13) gray 13;
    line FPhone false (Batch.PhoneNumber c) "" (mkFace rfont 13) gray 13;
    line FEmail false (Batch.Email c) "" (mkFace rfont 13) gray 0 ].

Definition FooterServer_lines (rfont bfont : Font) (c : FooterServer.BusinessCard) : list Item :=
  [ line FName false (FooterServer.Name c) "" (mkFace bfont 20)
      {| R := 242; G := 103; B := 34; A := 255 |} 20;
    line FPronouns true (FooterServer.Pronouns c) "" (mkFace rfont 13) gray 14;
    line FTitle false (FooterServer.Title c) "" (mkFace bfont 15)
      {| R := 0; G := 48; B := 71; A := 255 |} 15;
    Gap 10;
    line FCompany false (FooterServer.Company c) "" (mkFace bfont 14) gray 15;
    line FAddress false (FooterServer.Address c) "" (mkFace rfont 13) gray 13;
    line FPhone false (formattedPhone (FooterServer.PhoneNumber c)) "" (mkFace rfont 13) gray 13;
    line FEmail false (FooterServer.Email c) "" (mkFace rfont 13) gray 0 ].

Definition CardServer_lines (rfont bfont ifont : Font) (c : CardServer.BusinessCard) : list Item :=
  [ line FName false (CardServer.Name c) "" (mkFace bfont 36)
      {| R := 255; G := 165; B := 0; A := 255 |} 41;
    line FPronouns true (CardServer.Pronouns c) "" (mkFace ifont 18) white 23;
    Gap 10;
    line FTitle false (CardServer.Title c) "Title: " (mkFace bfont 28) light_gray 38;
    line FCompany false (CardServer.Company c) "Company: " (mkFace bfont 28) light_gray 38;
    line FDepartment true (CardServer.Department c) "Department: " (mkFace bfont 28) light_gray 38;
    line FAddress false (CardServer.Address c) "Address: " (mkFace rfont 24) white 34;
    line FPhone false (formattedPhone (CardServer.PhoneNumber c)) "Phone: " (mkFace rfont 24) white 34;
    line FEmail false (CardServer.Email c) "Email: " (mkFace rfont 24) white 34;
    line FLandGrant1 true (CardServer.LandGrant1 c) "" (mkFace rfont 24) white 29;
    line FLandGrant2 true (CardServer.LandGrant2 c) "" (mkFace rfont 24) white 29;
    line FLandGrant3 true (CardServer.LandGrant3 c) "" (mkFace rfont 24) white 29;
    line FLandGrant4 true (CardServer.LandGrant4 c) "" (mkFace rfont 24) white 29 ].

(** The texts the table yields for one field. *)
Definition table_texts (f : Field) (items : list Item) : list string :=
  omap (fun i => match i with
                 | Text l =>
                     if decide (site l = f)
                     then if optional l && negb (nonempty (value l)) then None else Some (text l)
                     else None
                 | Gap _ => None
                 end) items.

(** Strings of three and of four bytes. *)
Definition str3 (a b c : ascii) : string := String a (String b (String c "")).
Definition str4 (a b c d : ascii) : string := String a (String b (String c (String d ""))).

(** ** The batch run *)

(** The test of main.go 199, negated. *)
Definition long_enough (record : list string) : bool := negb (List.length record <? 7)%nat.

(** The files written, in order, with what was written. *)
Definition written (t : list Event) : list (string * string) :=
  omap (fun e => match e with EvWrite p d => Some (p, d) | _ => None end) t.

(** The names given to [os.Create], in order. *)
Definition created (t : list Event) : list string :=
  omap (fun e => match e with EvCreate p => Some p | _ => None end) t.

(** The PNG the batch tool writes for a card. *)
Definition Batch_png (L : Libs) (pic : Picture) (rfont bfont : Font) (c : Batch.BusinessCard)
    : string :=
  png_bytes L (Batch_rendered pic rfont bfont c).

(** The world after one card went through the loop without a failure. *)
Definition card_done (L : Libs) (pic : Picture) (rfont bfont : Font) (w : World)
    (c : Batch.BusinessCard) : World :=
  let name := Batch.outputFileName c in
  let data := Batch_png L pic rfont bfont c in
  {| files := <[name := data]> (files w);
     creatable := creatable w;
     logs := logs w;
     stdout := stdout w ++ ["Successfully generated business card: " ++ name ++ nl];
     trace := trace w ++ [EvOpen Batch.bgImagePath; EvReadFile Batch.regularFontPath;
                          EvReadFile Batch.boldFontPath; EvCreate name; EvWrite name data] |}.

(** The assets of the batch tool are in place. *)
Definition Batch_ready (L : Libs) (fs : Files) (pic : Picture) (rfont bfont : Font) :=
  ready2 L fs Batch.bgImagePath Batch.regularFontPath Batch.boldFontPath pic rfont bfont.

(** None of the cards has the background or one of the fonts for its
    output file. *)
Definition outputs_apart (fs : Files) (cards : list Batch.BusinessCard) : Prop :=
  forall c, In c cards ->
    ~ same_file fs (Batch.outputFileName c) Batch.bgImagePath /\
    ~ same_file fs (Batch.outputFileName c) Batch.regularFontPath /\
    ~ same_file fs (Batch.outputFileName c) Batch.boldFontPath.

(** The calls by which [main] checks its four files. *)
Definition checked : list Event :=
  [EvStat Batch.bgImagePath; EvStat Batch.regularFontPath; EvStat Batch.boldFontPath;
   EvStat Batch.csvPath].

(** The log entries of the programs. *)
Definition no_cards : LogEntry :=
  {| fatal := false; format := "No cards found in the CSV file."; args := [] |}.

(** One more output file in the file system. *)
Definition put (L : Libs) (pic : Picture) (rfont bfont : Font) (fs : Files)
    (c : Batch.BusinessCard) : Files :=
  <[Batch.outputFileName c := Batch_png L pic rfont bfont c]> fs.

(** A run from [w] that ended in [log.Fatalf]: exit status 1, and the log
    extended by warnings and, last, one fatal entry. *)
Definition fatal_exit (w : World) (r : Exit * World) : Prop :=
  fst r = OsExit 1 /\
  exists warnings entry,
    logs (snd r) = (logs w ++ warnings ++ [entry])%list /\
    fatal entry = true /\ Forall (fun e => fatal e = false) warnings.

(** The run left the files as they were and wrote nothing. *)
Definition nothing_written (w : World) (r : Exit * World) : Prop :=
  files (snd r) = files w /\ written (trace (snd r)) = written (trace w).

(** The background or one of the fonts is there but does not decode. *)
Definition undecodable (L : Libs) (fs : Files) : Prop :=
  (exists d, fs !! Batch.bgImagePath = Some d /\ image_Decode L d = None) \/
  (exists d, fs !! Batch.regularFontPath = Some d /\ opentype_Parse L d = None) \/
  (exists d, fs !! Batch.boldFontPath = Some d /\ opentype_Parse L d = None).

(** A run that returned normally: no fatal entry in the log, and one file
    written for each of [cards], in order. *)
Definition clean_return (w : World) (cards : list Batch.BusinessCard) (r : Exit * World) : Prop :=
  fst r = Return /\
  (exists warnings, logs (snd r) = (logs w ++ warnings)%list /\
                    Forall (fun e => fatal e = false) warnings) /\
  map fst (written (trace (snd r)))
  = (map fst (written (trace w)) ++ map Batch.outputFileName cards)%list.

(** ** Responses *)

(** The Content-Disposition value of a handler. *)
Definition attachment (name : string) : string :=
  "attachment; filename=" ++ dquote ++ name ++ dquote.

(** The response writer once the handler has set its two headers. *)
Definition png_headers (name : string) (rw : ResponseWriter) : ResponseWriter :=
  Header_Set "Content-Disposition" (attachment name) (Header_Set "Content-Type" "image/png" rw).

Definition generate_failed (err : error) : LogEntry :=
  {| fatal := false; format := "Error generating image: %v"; args := [AErr err] |}.

Definition encode_failed (err : error) : LogEntry :=
  {| fatal := false; format := "Error encoding image: %v"; args := [AErr err] |}.

Definition skipped (record : list string) : LogEntry :=
  {| fatal := false; format := "Skipping invalid record: %v (expected 7 fields, got %d)";
     args := [ARec record; AInt (Z.of_nat (List.length record))] |}.

(** ** More vocabulary: bytes of a string *)

(** The byte [c] occurs in [s]. *)
Fixpoint contains_byte (c : ascii) (s : string) : bool :=
  match s with
  | EmptyString => false
  | String d s' => Ascii.eqb c d || contains_byte c s'
  end.

(** Every byte of [s] is a decimal digit. *)
Fixpoint all_digits (s : string) : bool :=
  match s with
  | EmptyString => true
  | String c s' => is_digit c && all_digits s'
  end.

(** ** More vocabulary: the records of a CSV file *)

(** What [Read] has against a data record once the header has fixed the
    number of fields at [n]: its quoting error if it has one, a wrong
    number of fields otherwise. *)
Definition row_error (n : nat) (row : RawRecord) : option CsvError :=
  match raw_err row with
  | Some e => Some e
  | None => if (List.length (raw_fields row) =? n)%nat then None else Some ErrFieldCount
  end.

(** The records before the first one [Read] rejects, and what it has
    against that one. *)
Fixpoint accepted (n : nat) (rows : list RawRecord) : list RawRecord * option CsvError :=
  match rows with
  | [] => ([], None)
  | row :: rest =>
      match row_error n row with
      | Some e => ([], Some e)
      | None => let (ok, e) := accepted n rest in (row :: ok, e)
      end
  end.

(** The world with more entries in the log. *)
Definition add_logs (w : World) (es : list LogEntry) : World :=
  {| files := files w; creatable := creatable w; logs := logs w ++ es;
     stdout := stdout w; trace := trace w |}.

(** ** More vocabulary: what GenerateCard reads and returns *)

(** The reads of [GenerateCard] in the batch tool and in the footer
    server: the background is opened; the regular font is read if the
    background is there and decodes; the bold font is read if the regular
    font is there and parses. *)
Definition asset_reads2 (L : Libs) (fs : Files) (bg rf bf : string) : list Event :=
  EvOpen bg ::
  match fs !! bg ≫= image_Decode L with
  | None => []
  | Some _ =>
      EvReadFile rf ::
      match fs !! rf ≫= opentype_Parse L with
      | None => []
      | Some _ => [EvReadFile bf]
      end
  end.

(** The same for the card server, which reads the italic font if the bold
    font is there and parses. *)
Definition asset_reads3 (L : Libs) (fs : Files) (bg rf bf itf : string) : list Event :=
  EvOpen bg ::
  match fs !! bg ≫= image_Decode L with
  | None => []
  | Some _ =>
      EvReadFile rf ::
      match fs !! rf ≫= opentype_Parse L with
      | None => []
      | Some _ =>
          EvReadFile bf ::
          match fs !! bf ≫= opentype_Parse L with
          | None => []
          | Some _ => [EvReadFile itf]
          end
      end
  end.

(** The result of a call that failed: no image, and the error wrapped in
    the message. *)
Definition failed (msg : string) (e : error) : option RGBA * option error :=
  (None, Some (ErrWrap msg e)).

(** The paint operation of a draw call. *)
Definition paint_of (c : Field * Drawer * string) : Paint :=
  PaintString (fst (fst c)) (snd (fst c)) (snd c).

(** The horizontal position, in pixels, of a draw call. *)
Definition column (c : Field * Drawer * string) : Z := X (Dot (snd (fst c))) / 64.

(** Each number of the list is below the next one. *)
Fixpoint increasing (l : list Z) : bool :=
  match l with
  | a :: rest => match rest with
                 | b :: _ => (a <? b) && increasing rest
                 | [] => true
                 end
  | [] => true
  end.

(** The text of an optional line: none when the field is blank. *)
Definition if_given (label v : string) : list string :=
  if nonempty v then [label ++ v] else [].

(** How many of the strings are not empty. *)
Definition given (vs : list string) : nat :=
  List.length (List.filter nonempty vs).

(** Which error [GenerateCard] returns in the batch tool and in the footer
    server: that of the first step that fails, the steps being taken in
    the order of the source. *)
Definition first_failure2 (L : Libs) (fs : Files) (bg rf bf : string)
    (r : option RGBA * option error) : Prop :=
  (fs !! bg = None -> r = failed "failed to open background image: %w" (ErrPath "open" bg)) /\
  (forall d, fs !! bg = Some d -> image_Decode L d = None ->
     r = failed "failed to decode background image: %w" ErrImage) /\
  (forall pic, loads L fs bg pic ->
     (fs !! rf = None -> r = failed "failed to read regular font file: %w" (ErrPath "open" rf)) /\
     (forall d, fs !! rf = Some d -> opentype_Parse L d = None ->
        r = failed "failed to parse regular font: %w" ErrFont) /\
     (forall rfont, parses L fs rf rfont ->
        (fs !! bf = None -> r = failed "failed to read bold font file: %w" (ErrPath "open" bf)) /\
        (forall d, fs !! bf = Some d -> opentype_Parse L d = None ->
           r = failed "failed to parse bold font: %w" ErrFont) /\
        (forall bfont, parses L fs bf bfont ->
           (newFace_ok L bfont (opts 20) = false ->
            r = failed "failed to create name font face: %w" ErrFace) /\
           (newFace_ok L bfont (opts 20) = true -> newFace_ok L bfont (opts 14) = false ->
            r = failed "failed to create mid font face: %w" ErrFace) /\
           (newFace_ok L bfont (opts 20) = true -> newFace_ok L bfont (opts 14) = true ->
            newFace_ok L bfont (opts 15) = false ->
            r = failed "failed to create mid font face: %w" ErrFace) /\
           (newFace_ok L bfont (opts 20) = true -> newFace_ok L bfont (opts 14) = true ->
            newFace_ok L bfont (opts 15) = true -> newFace_ok L rfont (opts 13) = false ->
            r = failed "failed to create other font face: %w" ErrFace)))).

(** The same for the card server, with its third font. *)
Definition first_failure3 (L : Libs) (fs : Files) (bg rf bf itf : string)
    (r : option RGBA * option error) : Prop :=
  (fs !! bg = None -> r = failed "failed to open background image: %w" (ErrPath "open" bg)) /\
  (forall d, fs !! bg = Some d -> image_Decode L d = None ->
     r = failed "failed to decode background image: %w" ErrImage) /\
  (forall pic, loads L fs bg pic ->
     (fs !! rf = None -> r = failed "failed to read regular font file: %w" (ErrPath "open" rf)) /\
     (forall d, fs !! rf = Some d -> opentype_Parse L d = None ->
        r = failed "failed to parse regular font: %w" ErrFont) /\
     (forall rfont, parses L fs rf rfont ->
        (fs !! bf = None -> r = failed "failed to read bold font file: %w" (ErrPath "open" bf)) /\
        (forall d, fs !! bf = Some d -> opentype_Parse L d = None ->
           r = failed "failed to parse bold font: %w" ErrFont) /\
        (forall bfont, parses L fs bf bfont ->
           (fs !! itf = None ->
            r = failed "failed to read italic font file: %w" (ErrPath "open" itf)) /\
           (forall d, fs !! itf = Some d -> opentype_Parse L d = None ->
              r = failed "failed to parse italic font: %w" ErrFont) /\
           (forall ifont, parses L fs itf ifont ->
              (newFace_ok L bfont (opts 36) = false ->
               r = failed "failed to create name font face: %w" ErrFace) /\
              (newFace_ok L bfont (opts 36) = true -> newFace_ok L bfont (opts 28) = false ->
               r = failed "failed to create mid font face: %w" ErrFace) /\
              (newFace_ok L bfont (opts 36) = true -> newFace_ok L bfont (opts 28) = true ->
               newFace_ok L rfont (opts 24) = false ->
               r = failed "failed to create other font face: %w" ErrFace) /\
              (newFace_ok L bfont (opts 36) = true -> newFace_ok L bfont (opts 28) = true ->
               newFace_ok L rfont (opts 24) = true -> newFace_ok L ifont (opts 18) = false ->
               r = failed "failed to create pronouns font face: %w" ErrFace))))).

(** ** More vocabulary: what a handler leaves behind *)

(** A handler, started in [w] on the request [r], has answered: it ended
    with a response; it left the request's method and form data alone; it
    changed no file, created and wrote none, and printed nothing; and
    status and log are one of: 405 and nothing logged, for a method other
    than POST; and for POST, 400 and nothing logged; 500 and the failure
    of [GenerateCard] logged; 500 and the refusal of the image size by
    [png.Encode] logged; 200 and the failure of a write logged; 200 and
    nothing logged. *)
Definition answered (w : World) (r : Request) (res : Served * World) : Prop :=
  exists rw' r',
    fst res = Responded rw' r' /\
    Method r' = Method r /\ form_data r' = form_data r /\
    files (snd res) = files w /\ creatable (snd res) = creatable w /\
    stdout (snd res) = stdout w /\
    created (trace (snd res)) = created (trace w) /\
    written (trace (snd res)) = written (trace w) /\
    ((Method r <> "POST" /\ status rw' = Some 405 /\ logs (snd res) = logs w) \/
     (Method r = "POST" /\
      ((status rw' = Some 400 /\ logs (snd res) = logs w) \/
       (status rw' = Some 500 /\
        exists e, logs (snd res) = (logs w ++ [generate_failed e])%list) \/
       (status rw' = Some 500 /\
        logs (snd res) = (logs w ++ [encode_failed ErrPngSize])%list) \/
       (status rw' = Some 200 /\
        logs (snd res) = (logs w ++ [encode_failed ErrWrite])%list) \/
       (status rw' = Some 200 /\ logs (snd res) = logs w)))).

(** The form keys of the optional fields of the card server, with the
    lines they fill. *)
Definition optional_keys : list (string * Field) :=
  [("pronouns", FPronouns); ("department", FDepartment);
   ("land_grant_1", FLandGrant1); ("land_grant_2", FLandGrant2);
   ("land_grant_3", FLandGrant3); ("land_grant_4", FLandGrant4)].

(** ** More vocabulary: the course of a batch run *)

(** The entry [log.Fatalf] writes for a missing input file. *)
Definition missing (fmt path : string) : LogEntry :=
  {| fatal := true; format := fmt; args := [AStr path] |}.

(** The line printed for a card whose file was written. *)
Definition success_line (c : Batch.BusinessCard) : string :=
  "Successfully generated business card: " ++ Batch.outputFileName c ++ nl.

(** The calls made for one card that goes through without a failure. *)
Definition card_events (L : Libs) (pic : Picture) (rfont bfont : Font)
    (c : Batch.BusinessCard) : list Event :=
  [EvOpen Batch.bgImagePath; EvReadFile Batch.regularFontPath;
   EvReadFile Batch.boldFontPath; EvCreate (Batch.outputFileName c);
   EvWrite (Batch.outputFileName c) (Batch_png L pic rfont bfont c)].

(** * A concrete library and world for the examples

    [plain_csv] is what [encoding/csv] makes of a text without quote
    characters: records are lines (ending in LF or CR LF), blank lines are
    dropped, fields are separated by commas.  A line holding a quote
    character is reported as a quoting error; the example texts hold none. *)
Module Demo.

Fixpoint split (sep : ascii) (s : string) : list string :=
  match s with
  | EmptyString => [EmptyString]
  | String c s' =>
      if Ascii.eqb c sep then EmptyString :: split sep s'
      else match split sep s' with
           | h :: t => String c h :: t
           | [] => [String c EmptyString]
           end
  end.

Fixpoint chomp_cr (s : string) : string :=
  match s with
  | EmptyString => EmptyString
  | String c EmptyString => if Ascii.eqb c (ascii_of_nat 13) then EmptyString else s
  | String c s' => String c (chomp_cr s')
  end.

Fixpoint has_char (c : ascii) (s : string) : bool :=
  match s with
  | EmptyString => false
  | String d s' => Ascii.eqb c d || has_char c s'
  end.

Definition plain_csv (text : string) : list RawRecord :=
  omap (fun line =>
          let line := chomp_cr line in
          if String.eqb line "" then None
          else if has_char (ascii_of_nat 34) line
          then Some {| raw_fields := []; raw_err := Some ErrBareQuote |}
          else Some {| raw_fields := split "," line; raw_err := None |})
       (split (ascii_of_nat 10) text).

(** A stand-in for the encoder: the texts drawn, one per line. *)
Definition texts (m : RGBA) : string :=
  String.concat nl (map (fun c => snd c) (draw_calls m)).

(** The file system of the examples: one directory, in which a leading
    "./" changes nothing. *)
Fixpoint clean (path : string) : string :=
  match path with
  | String c (String d rest) =>
      if Ascii.eqb c "." && Ascii.eqb d "/" then clean rest else path
  | _ => path
  end.

Definition holding (l : list (string * string)) : Files :=
  foldr (fun f fs => <[fst f := snd f]> fs) {| disk := ∅; locate := clean |} l.

Definition libs : Libs := {|
  image_Decode := fun data =>
    if HasPrefix data "PNG"
    then Some {| pic_bounds := {| Min := {| X := 0; Y := 0 |}; Max := {| X := 600; Y := 200 |} |};
                 pic_pixels := data |}
    else None;
  opentype_Parse := fun data =>
    if HasPrefix data "OTTO" then Some {| font_src := data |} else None;
  newFace_ok := fun _ _ => true;
  png_bytes := fun m => "PNG" ++ nl ++ texts m;
  csv_lex := plain_csv
|}.

Definition header : string := "name,pronouns,title,company,address,phone,email".

Definition world (csv : string) : World := {|
  files := holding [("./BrandingGuidelines_2025.png", "PNG background");
                    ("./Raleway-Regular.ttf", "OTTO regular");
                    ("./Raleway-Bold.ttf", "OTTO bold");
                    ("./cards.csv", csv)];
  creatable := fun _ => true;
  logs := [];
  stdout := [];
  trace := []
|}.

Definition ada : string :=
  "Ada Lovelace,she/her,Analyst,Engines Ltd,12 Mill Lane,5551234567,ada@example.org".
Definition alan : string :=
  "Alan Turing,,Fellow,Kings,1 Parade,555-0100,alan@example.org".

Definition post (fields : list (string * string)) : Request := {|
  Method := "POST";
  form_data := (list_to_map (map (fun kv => (fst kv, [snd kv])) fields), None);
  Form := None
|}.

(** The assets of the two servers. *)
Definition server_world : World := {|
  files := holding [("./assets/background_image.png", "PNG background");
                    ("./assets/Railway-Regular.ttf", "OTTO regular");
                    ("./assets/Railway-Bold.ttf", "OTTO bold");
                    ("./assets/Railway-Italic.ttf", "OTTO italic");
                    ("../BrandingGuidelines_2025.png", "PNG background");
                    ("../Raleway-Regular.ttf", "OTTO regular");
                    ("../Raleway-Bold.ttf", "OTTO bold")];
  creatable := fun _ => false;
  logs := [];
  stdout := [];
  trace := []
|}.

Definition two_rows : string := header ++ nl ++ ada ++ nl ++ alan ++ nl.

(** A second row under the name of the first. *)
Definition ada_again : string :=
  "Ada Lovelace,,Countess,Lovelace Estate,Ockham Park,555-0199,countess@example.org".

Definition same_name : string := header ++ nl ++ ada ++ nl ++ ada_again ++ nl.

(** A second row whose name differs from that of the first by a leading
    "./" only. *)
Definition dot_ada : string :=
  "./Ada Lovelace,,Countess,Lovelace Estate,Ockham Park,555-0199,countess@example.org".

Definition dot_slash : string := header ++ nl ++ ada ++ nl ++ dot_ada ++ nl.

(** A two-field row between two rows of seven fields. *)
Definition short_row : string :=
  header ++ nl ++ ada ++ nl ++ "Grace Hopper,she/her" ++ nl ++ alan ++ nl.

(** A row of eight fields under the header of seven. *)
Definition long_row : string := header ++ nl ++ ada ++ ",extra" ++ nl.

(** A header of two fields over rows of two fields. *)
Definition short_header : string :=
  "name,pronouns" ++ nl ++ "Grace Hopper,she/her" ++ nl ++ "Alan Turing," ++ nl.

(** What the example library makes of the assets. *)
Definition pic : Picture :=
  {| pic_bounds := {| Min := {| X := 0; Y := 0 |}; Max := {| X := 600; Y := 200 |} |};
     pic_pixels := "PNG background" |}.

Definition regular : Font := {| font_src := "OTTO regular" |}.

Definition bold : Font := {| font_src := "OTTO bold" |}.

Definition ada_card : Batch.BusinessCard := Batch.card_of_record (split "," ada).

Definition alan_card : Batch.BusinessCard := Batch.card_of_record (split "," alan).

Definition get : Request := {| Method := "GET"; form_data := (∅, None); Form := None |}.

Definition bad_post : Request :=
  {| Method := "POST"; form_data := (∅, Some ErrForm); Form := None |}.

Definition ada_post : Request :=
  post [("name", "Ada Lovelace"); ("phone_number", "555 123 4567")].

(** A response writer on a connection that is lost at once: the first
    write of an encoder fails. *)
Definition lost_connection : ResponseWriter := lost_after 0.

(** A request after [ParseForm]. *)
Definition parsed (r : Request) : Request :=
  {| Method := Method r; form_data := form_data r; Form := Some (fst (form_data r)) |}.

Definition no_files : World :=
  {| files := holding []; creatable := fun _ => true; logs := []; stdout := [];
     trace := [] |}.

End Demo.

(** * Properties *)

(** ** Strings *)

Example formattedPhone_plain : formattedPhone "5551234567" = "(555) 123-4567".
Proof. reflexivity. Qed.

Example formattedPhone_dashes : formattedPhone "555-123-4567" = "(555) 123-4567".
Proof. reflexivity. Qed.

Example formattedPhone_short : formattedPhone "555-1234" = "555-1234".
Proof. reflexivity. Qed.

(** The two bytes of a rune outside ASCII between two digits. *)
Example digitsOnly_two_byte_rune :
  digitsOnly ("5" ++ String (byte 195) (String (byte 169) "7")) = "57".
Proof. reflexivity. Qed.

Example strings_Map_shift : strings_Map (fun r => r + 1) "abc" = "bcd".
Proof. reflexivity. Qed.

Example ReplaceAll_name : ReplaceAll "Ada  M Lovelace" " " "_" = "Ada__M_Lovelace".
Proof. reflexivity. Qed.

Example ReplaceAll_word : ReplaceAll "aaaa" "aa" "b" = "bb".
Proof. reflexivity. Qed.

Example ReplaceAll_empty : ReplaceAll "ab" "" "-" = "-a-b-".
Proof. reflexivity. Qed.

Lemma HasPrefix_empty (s : string) : HasPrefix s "" = true.
Proof. by destruct s. Qed.

Lemma ReplaceAll_space (s : string) : ReplaceAll s " " "_" = underscores s.
Proof.
  unfold ReplaceAll, underscores.
  induction s as [|c s IH]; [reflexivity|].
  cbn [replace_from HasPrefix map_bytes String.length Nat.sub].
  rewrite HasPrefix_empty, (Ascii.eqb_sym " " c).
  destruct (Ascii.eqb c " "); cbn; by rewrite IH.
Qed.

(** *** UTF-8: [strings.Map] with the digit mapping is a filter on bytes *)

Lemma code_range c : 0 <= code c < 256.
Proof.
  unfold code. pose proof (N_ascii_bounded c). lia.
Qed.

Lemma byte_code c : byte (code c) = c.
Proof.
  unfold byte, code. pose proof (N_ascii_bounded c).
  rewrite Z.mod_small by lia. rewrite N2Z.id. apply ascii_N_embedding.
Qed.

Lemma is_digit_code c : is_digit c = (48 <=? code c) && (code c <=? 57).
Proof.
  unfold is_digit, code, nat_of_ascii.
  set (n := N_of_ascii c).
  destruct (48 <=? N.to_nat n)%nat eqn:E1, (N.to_nat n <=? 57)%nat eqn:E2;
    cbn [andb]; symmetry.
  - apply Nat.leb_le in E1, E2. apply andb_true_iff. split; apply Z.leb_le; lia.
  - apply Nat.leb_le in E1. apply Nat.leb_gt in E2. apply andb_false_iff. right.
    apply Z.leb_gt. lia.
  - apply Nat.leb_gt in E1. apply andb_false_iff. left. apply Z.leb_gt. lia.
  - apply Nat.leb_gt in E1. apply andb_false_iff. left. apply Z.leb_gt. lia.
Qed.

Lemma lor_ge_r x y : 0 <= x -> y <= Z.lor x y.
Proof.
  intros Hx. pose proof (Zbitwise.Z.sub_lor_l_same_r x y) as H.
  assert (0 <= Z.land x (Z.lnot y)) by (apply Z.land_nonneg; auto).
  lia.
Qed.

Lemma lor_ge_l x y : 0 <= y -> x <= Z.lor x y.
Proof. intros H. rewrite Z.lor_comm. by apply lor_ge_r. Qed.

Lemma land_mask a n : 0 <= n -> Z.land a (Z.ones n) = a mod 2 ^ n.
Proof. intros H. by apply Z.land_ones. Qed.

Lemma decode_ascii c rest :
  code c < 0x80 -> DecodeRuneInString (String c rest) = (code c, 1%nat).
Proof.
  intros H. unfold DecodeRuneInString.
  by replace (code c <? 0x80) with true by (symmetry; apply Z.ltb_lt; lia).
Qed.

Lemma decode_high c rest r w :
  0x80 <= code c -> DecodeRuneInString (String c rest) = (r, w) ->
  64 <= r /\ (1 <= w)%nat /\ high (w - 1) rest.
Proof.
  intros Hc. unfold DecodeRuneInString.
  pose proof (code_range c) as R0.
  assert (Herr : (RuneError, 1%nat) = (r, w) -> 64 <= r /\ (1 <= w)%nat /\ high (w - 1) rest).
  { intros E. inversion E. subst. unfold RuneError. cbn. repeat split; lia. }
  replace (code c <? 0x80) with false by (symmetry; apply Z.ltb_ge; lia).
  destruct ((code c <? 0xC2) || (0xF4 <? code c)) eqn:E0; [exact Herr|].
  apply orb_false_iff in E0 as [E0 E0']. apply Z.ltb_ge in E0, E0'.
  destruct rest as [|c1 rest]; [exact Herr|].
  pose proof (code_range c1) as R1.
  destruct (_ || _) eqn:E1; [exact Herr|].
  apply orb_false_iff in E1 as [E1 E1']. apply Z.ltb_ge in E1, E1'.
  assert (H1 : 0x80 <= code c1 <= 0xBF /\ (code c = 0xE0 -> 0xA0 <= code c1) /\
               (code c = 0xF0 -> 0x90 <= code c1)).
  { revert E1 E1'. destruct (Z.eqb_spec (code c) 0xE0), (Z.eqb_spec (code c) 0xF0),
      (Z.eqb_spec (code c) 0xED), (Z.eqb_spec (code c) 0xF4); lia. }
  clear E1 E1'. destruct H1 as (H1 & H1a & H1b).
  assert (N1 : 0 <= Z.land (code c1) 0x3F) by (apply Z.land_nonneg; lia).
  destruct (Z.ltb_spec (code c) 0xE0) as [L2|L2].
  { cbn [Z.leb Z.compare Pos.compare Pos.compare_cont]. intros E. inversion E. subst.
    cbn [Nat.sub high]. repeat split; try lia.
    etransitivity; [|apply lor_ge_l; exact N1].
    rewrite Z.shiftl_mul_pow2 by lia. change 0x1F with (Z.ones 5).
    rewrite land_mask by lia. Z.div_mod_to_equations. lia. }
  destruct (Z.ltb_spec (code c) 0xF0) as [L3|L3].
  { replace (3 <=? 2) with false by reflexivity.
    destruct rest as [|c2 rest]; [exact Herr|].
    pose proof (code_range c2) as R2.
    destruct (_ || _) eqn:E2; [exact Herr|].
    apply orb_false_iff in E2 as [E2 E2']. apply Z.ltb_ge in E2, E2'.
    replace (3 <=? 3) with true by reflexivity.
    intros E. inversion E. subst. cbn [Nat.sub high]. repeat split; try lia.
    assert (N2 : 0 <= Z.land (code c2) 0x3F) by (apply Z.land_nonneg; lia).
    etransitivity; [|apply lor_ge_l; exact N2].
    destruct (Z.eqb_spec (code c) 0xE0) as [Q|Q].
    - etransitivity; [|apply lor_ge_r; apply Z.shiftl_nonneg, Z.land_nonneg; lia].
      rewrite Z.shiftl_mul_pow2 by lia. change 0x3F with (Z.ones 6).
      rewrite land_mask by lia. specialize (H1a Q). Z.div_mod_to_equations. lia.
    - etransitivity; [|apply lor_ge_l; apply Z.shiftl_nonneg; exact N1].
      rewrite Z.shiftl_mul_pow2 by lia. change 0x0F with (Z.ones 4).
      rewrite land_mask by lia. Z.div_mod_to_equations. lia. }
  replace (4 <=? 2) with false by reflexivity.
  destruct rest as [|c2 rest]; [exact Herr|].
  pose proof (code_range c2) as R2.
  destruct (_ || _) eqn:E2; [exact Herr|].
  apply orb_false_iff in E2 as [E2 E2']. apply Z.ltb_ge in E2, E2'.
  replace (4 <=? 3) with false by reflexivity.
  destruct rest as [|c3 rest]; [exact Herr|].
  pose proof (code_range c3) as R3.
  destruct (_ || _) eqn:E3; [exact Herr|].
  apply orb_false_iff in E3 as [E3 E3']. apply Z.ltb_ge in E3, E3'.
  intros E. inversion E. subst. cbn [Nat.sub high]. repeat split; try lia.
  assert (N2 : 0 <= Z.land (code c2) 0x3F) by (apply Z.land_nonneg; lia).
  assert (N3 : 0 <= Z.land (code c3) 0x3F) by (apply Z.land_nonneg; lia).
  etransitivity; [|apply lor_ge_l; exact N3].
  etransitivity; [|apply lor_ge_l; apply Z.shiftl_nonneg; exact N2].
  destruct (Z.eqb_spec (code c) 0xF0) as [Q|Q].
  - etransitivity; [|apply lor_ge_r; apply Z.shiftl_nonneg, Z.land_nonneg; lia].
    rewrite Z.shiftl_mul_pow2 by lia. change 0x3F with (Z.ones 6).
    rewrite land_mask by lia. specialize (H1b Q). Z.div_mod_to_equations. lia.
  - etransitivity; [|apply lor_ge_l; apply Z.shiftl_nonneg; exact N1].
    rewrite Z.shiftl_mul_pow2 by lia. change 0x07 with (Z.ones 3).
    rewrite land_mask by lia. Z.div_mod_to_equations. lia.
Qed.

Lemma is_digit_high c : 0x80 <= code c -> is_digit c = false.
Proof.
  intros H. rewrite is_digit_code. apply andb_false_iff. right. apply Z.leb_gt. lia.
Qed.

Lemma Map_digits s skip : high skip s -> Map_from keep_digit s skip = digit_bytes s.
Proof.
  revert skip. induction s as [|c s IH]; intros skip H; [reflexivity|].
  destruct skip as [|k].
  - cbn [Map_from digit_bytes].
    destruct (Z.ltb_spec (code c) 0x80) as [Hc|Hc].
    + rewrite (decode_ascii c s Hc). cbn [Nat.sub]. rewrite (IH 0%nat) by (by destruct s).
      rewrite is_digit_code. unfold keep_digit.
      destruct ((48 <=? code c) && (code c <=? 57)) eqn:E; [|reflexivity].
      apply andb_true_iff in E as [E1 E2]. apply Z.leb_le in E1, E2.
      replace (0 <=? code c) with true by (symmetry; apply Z.leb_le; lia).
      unfold AppendRune.
      replace (code c <=? 0x7F) with true by (symmetry; apply Z.leb_le; lia).
      by rewrite byte_code.
    + destruct (DecodeRuneInString (String c s)) as [r w] eqn:E.
      destruct (decode_high c s r w Hc E) as (Hr & Hw & Hh).
      rewrite (IH (w - 1)%nat Hh), (is_digit_high c Hc). unfold keep_digit.
      replace (r <=? 57) with false by (symmetry; apply Z.leb_gt; lia).
      by rewrite andb_false_r.
  - destruct H as [Hc Hh]. cbn [Map_from digit_bytes].
    by rewrite (IH k Hh), (is_digit_high c Hc).
Qed.

(** [strings.Map] with the digit mapping keeps the digit bytes, in order. *)
Lemma digitsOnly_bytes s : digitsOnly s = digit_bytes s.
Proof. apply Map_digits. by destruct s. Qed.

Lemma digitsOnly_length (s : string) : String.length (digitsOnly s) = count_digits s.
Proof.
  rewrite digitsOnly_bytes.
  induction s as [|c s IH]; [reflexivity|].
  cbn. destruct (is_digit c); cbn; by rewrite IH.
Qed.

Lemma HasSuffix_app (s suffix : string) : HasSuffix (s ++ suffix) suffix = true.
Proof.
  induction s as [|c s IH].
  - change ("" ++ suffix) with suffix.
    destruct suffix; [reflexivity|].
    cbn [HasSuffix]. by rewrite String.eqb_refl.
  - change (String c s ++ suffix) with (String c (s ++ suffix)).
    cbn [HasSuffix]. rewrite IH. apply orb_true_r.
Qed.

(** ** Files and paths *)

Lemma files_insert_same (fs : Files) p q d :
  same_file fs p q -> <[p := d]> fs !! q = Some d.
Proof.
  unfold same_file, lookup, insert, Files_lookup, Files_insert. cbn [disk locate].
  intros <-. apply lookup_insert_eq.
Qed.

Lemma files_insert_eq (fs : Files) p d : <[p := d]> fs !! p = Some d.
Proof. by apply files_insert_same. Qed.

Lemma files_insert_ne (fs : Files) p q d :
  ~ same_file fs p q -> <[p := d]> fs !! q = fs !! q.
Proof.
  unfold same_file, lookup, insert, Files_lookup, Files_insert. cbn [disk locate].
  intros H. by apply lookup_insert_ne.
Qed.

Lemma files_insert_insert (fs : Files) p d d' : <[p := d]> (<[p := d']> fs) = <[p := d]> fs.
Proof.
  unfold insert, Files_insert. cbn [disk locate]. f_equal. apply insert_insert_eq.
Qed.

Lemma locate_insert (fs : Files) p d : locate (<[p := d]> fs) = locate fs.
Proof. reflexivity. Qed.

Lemma disk_insert (fs : Files) p d : disk (<[p := d]> fs) = <[locate fs p := d]> (disk fs).
Proof. reflexivity. Qed.

Lemma same_file_insert (fs : Files) p d a b :
  same_file (<[p := d]> fs) a b <-> same_file fs a b.
Proof. reflexivity. Qed.

(** ** Running the primitives *)

Lemma add_trace_nil w : add_trace w [] = w.
Proof. destruct w; unfold add_trace; cbn. by rewrite app_nil_r. Qed.

Lemma add_trace_app w a b : add_trace (add_trace w a) b = add_trace w (a ++ b).
Proof. unfold add_trace; cbn. by rewrite app_assoc. Qed.

Lemma os_Stat_run p w :
  os_Stat p w = (match files w !! p with Some _ => Ok tt | None => Err (ErrPath "stat" p) end,
                 add_trace w [EvStat p]).
Proof. reflexivity. Qed.

Lemma os_Open_run p w :
  os_Open p w = (match files w !! p with Some d => Ok d | None => Err (ErrPath "open" p) end,
                 add_trace w [EvOpen p]).
Proof. reflexivity. Qed.

Lemma ReadFile_run p w :
  ioutil_ReadFile p w
  = (match files w !! p with Some d => Ok d | None => Err (ErrPath "open" p) end,
     add_trace w [EvReadFile p]).
Proof. reflexivity. Qed.

Lemma pure_result_run {T} (o : option T) e w :
  pure_result o e w = (match o with Some v => Ok v | None => Err e end, w).
Proof. reflexivity. Qed.

Lemma log_Fatalf_run fmt a w :
  log_Fatalf fmt a w = (OsExit 1, add_log w {| fatal := true; format := fmt; args := a |}).
Proof. reflexivity. Qed.

Lemma log_Printf_run fmt a w :
  log_Printf fmt a w = (tt, add_log w {| fatal := false; format := fmt; args := a |}).
Proof. reflexivity. Qed.

Lemma try_Ok {T U} (c : M (result T)) msg (k : T -> M (option U * option error)) w v w1 :
  c w = (Ok v, w1) -> try c msg k w = k v w1.
Proof. unfold try, bind. by intros ->. Qed.

Lemma try_Err {T U} (c : M (result T)) msg (k : T -> M (option U * option error)) w e w1 :
  c w = (Err e, w1) -> try c msg k w = ((None, Some (ErrWrap msg e)), w1).
Proof. unfold try, bind. by intros ->. Qed.

Lemma try_inv {T U} (c : M (result T)) msg (k : T -> M (option U * option error)) w r w' :
  try c msg k w = ((r, None), w') ->
  exists v w1, c w = (Ok v, w1) /\ k v w1 = ((r, None), w').
Proof.
  unfold try, bind. destruct (c w) as [[v|e] w1]; cbn; [eauto|].
  intros H; inversion H.
Qed.

Lemma os_Open_inv p w d w1 :
  os_Open p w = (Ok d, w1) -> files w !! p = Some d /\ w1 = add_trace w [EvOpen p].
Proof. rewrite os_Open_run. destruct (files w !! p); intros H; inversion H; auto. Qed.

Lemma ReadFile_inv p w d w1 :
  ioutil_ReadFile p w = (Ok d, w1) -> files w !! p = Some d /\ w1 = add_trace w [EvReadFile p].
Proof. rewrite ReadFile_run. destruct (files w !! p); intros H; inversion H; auto. Qed.

Lemma pure_result_inv {T} (o : option T) e w v w1 :
  pure_result o e w = (Ok v, w1) -> o = Some v /\ w1 = w.
Proof. rewrite pure_result_run. destruct o; intros H; inversion H; auto. Qed.

Lemma NewFace_run L f o w :
  ret (opentype_NewFace L f o) w
  = (if newFace_ok L f o then Ok {| face_font := f; face_opts := o |} else Err ErrFace, w).
Proof. unfold ret, opentype_NewFace. by destruct (newFace_ok L f o). Qed.

Lemma NewFace_inv L f o w v w1 :
  ret (opentype_NewFace L f o) w = (Ok v, w1) ->
  newFace_ok L f o = true /\ v = {| face_font := f; face_opts := o |} /\ w1 = w.
Proof. rewrite NewFace_run. destruct (newFace_ok L f o); intros H; inversion H; auto. Qed.

(** ** What a call may do to the world *)

Lemma reads_only_refl w : reads_only w w.
Proof. exists []. by rewrite add_trace_nil. Qed.

Lemma reads_only_trans w1 w2 w3 : reads_only w1 w2 -> reads_only w2 w3 -> reads_only w1 w3.
Proof.
  intros (a & -> & Ha) (b & -> & Hb). exists (a ++ b)%list.
  rewrite add_trace_app. split; [done | by apply Forall_app].
Qed.

Lemma reading_os_Open p : reading (os_Open p).
Proof. intros w. rewrite os_Open_run. exists [EvOpen p]. split; [done|]. by repeat constructor. Qed.

Lemma reading_ReadFile p : reading (ioutil_ReadFile p).
Proof. intros w. rewrite ReadFile_run. exists [EvReadFile p]. split; [done|]. by repeat constructor. Qed.

Lemma reading_ret {T} (v : T) : reading (ret v).
Proof. intros w. apply reads_only_refl. Qed.

Lemma reading_pure_result {T} (o : option T) e : reading (pure_result o e).
Proof. intros w. apply reads_only_refl. Qed.

Lemma tidy_try {T U} (c : M (result T)) msg (k : T -> M (option U * option error)) :
  reading c -> (forall v, tidy (k v)) -> tidy (try c msg k).
Proof.
  intros Hc Hk w. unfold try, bind. specialize (Hc w).
  destruct (c w) as [[v|e] w1]; cbn in *.
  - destruct (Hk v w1) as [R G]. split; [by eapply reads_only_trans | done].
  - split; [done|]. right. cbn. eauto.
Qed.

Lemma tidy_ret_Some {U} (v : U) : tidy (ret (Some v, None)).
Proof. intros w. split; [apply reads_only_refl|]. left. cbn. eauto. Qed.

Create HintDb tidy.

#[local] Hint Resolve reading_os_Open reading_ReadFile reading_ret reading_pure_result
  tidy_ret_Some : tidy.

Ltac tidy_steps := repeat (apply tidy_try; [auto with tidy | intros ?]); auto with tidy.

Lemma Batch_GenerateCard_tidy L bg rf bf c : tidy (Batch.GenerateCard L bg rf bf c).
Proof. unfold Batch.GenerateCard. tidy_steps. Qed.

Lemma CardServer_GenerateCard_tidy L bg rf bf itf c :
  tidy (CardServer.GenerateCard L bg rf bf itf c).
Proof. unfold CardServer.GenerateCard. tidy_steps. Qed.

Lemma FooterServer_GenerateCard_tidy L bg rf bf c : tidy (FooterServer.GenerateCard L bg rf bf c).
Proof. unfold FooterServer.GenerateCard. tidy_steps. Qed.

(** ** When GenerateCard succeeds, and with what *)

Ltac run_open F := erewrite try_Ok; [| rewrite os_Open_run; cbn [files add_trace]; rewrite F; reflexivity].
Ltac run_read F := erewrite try_Ok; [| rewrite ReadFile_run; cbn [files add_trace]; rewrite F; reflexivity].
Ltac run_pure D := erewrite try_Ok; [| rewrite pure_result_run, D; reflexivity].
Ltac run_face N := erewrite try_Ok; [| rewrite NewFace_run, N; reflexivity].

Lemma Batch_GenerateCard_ready L bg rf bf c w pic rfont bfont :
  ready2 L (files w) bg rf bf pic rfont bfont ->
  Batch.GenerateCard L bg rf bf c w =
  ((Some (Batch_rendered pic rfont bfont c), None),
   add_trace w [EvOpen bg; EvReadFile rf; EvReadFile bf]).
Proof.
  intros ((d1 & F1 & D1) & (d2 & F2 & D2) & (d3 & F3 & D3) & N1 & N2 & N3 & N4).
  unfold Batch.GenerateCard.
  run_open F1. run_pure D1. cbv zeta.
  run_read F2. run_pure D2. run_read F3. run_pure D3.
  fold (opts 20) (opts 14) (opts 15) (opts 13).
  run_face N1. run_face N2. run_face N3. run_face N4. run_face N4.
  unfold ret. rewrite !add_trace_app. reflexivity.
Qed.

Lemma FooterServer_GenerateCard_ready L bg rf bf c w pic rfont bfont :
  ready2 L (files w) bg rf bf pic rfont bfont ->
  FooterServer.GenerateCard L bg rf bf c w =
  ((Some (FooterServer_rendered pic rfont bfont c), None),
   add_trace w [EvOpen bg; EvReadFile rf; EvReadFile bf]).
Proof.
  intros ((d1 & F1 & D1) & (d2 & F2 & D2) & (d3 & F3 & D3) & N1 & N2 & N3 & N4).
  unfold FooterServer.GenerateCard.
  run_open F1. run_pure D1. cbv zeta.
  run_read F2. run_pure D2. run_read F3. run_pure D3.
  fold (opts 20) (opts 14) (opts 15) (opts 13).
  run_face N1. run_face N2. run_face N3. run_face N4. run_face N4.
  unfold ret. rewrite !add_trace_app. reflexivity.
Qed.

Lemma CardServer_GenerateCard_ready L bg rf bf itf c w pic rfont bfont ifont :
  ready3 L (files w) bg rf bf itf pic rfont bfont ifont ->
  CardServer.GenerateCard L bg rf bf itf c w =
  ((Some (CardServer_rendered pic rfont bfont ifont c), None),
   add_trace w [EvOpen bg; EvReadFile rf; EvReadFile bf; EvReadFile itf]).
Proof.
  intros ((d1 & F1 & D1) & (d2 & F2 & D2) & (d3 & F3 & D3) & (d4 & F4 & D4) & N1 & N2 & N3 & N4).
  unfold CardServer.GenerateCard.
  run_open F1. run_pure D1. cbv zeta.
  run_read F2. run_pure D2. run_read F3. run_pure D3. run_read F4. run_pure D4.
  fold (opts 36) (opts 28) (opts 24) (opts 18).
  run_face N1. run_face N2. run_face N3. run_face N4.
  unfold ret. rewrite !add_trace_app. reflexivity.
Qed.

Ltac inv_open H F := apply try_inv in H as (? & ? & (F & ->)%os_Open_inv & H).
Ltac inv_read H F := apply try_inv in H as (? & ? & (F & ->)%ReadFile_inv & H).
Ltac inv_pure H D := apply try_inv in H as (? & ? & (D & ->)%pure_result_inv & H).
Ltac inv_face H N := apply try_inv in H as (? & ? & (N & -> & ->)%NewFace_inv & H).

Lemma Batch_GenerateCard_inv L bg rf bf c w r w' :
  Batch.GenerateCard L bg rf bf c w = ((r, None), w') ->
  exists pic rfont bfont, ready2 L (files w) bg rf bf pic rfont bfont.
Proof.
  unfold Batch.GenerateCard. intros H.
  inv_open H F1. inv_pure H D1. cbv zeta in H.
  inv_read H F2. inv_pure H D2. inv_read H F3. inv_pure H D3.
  inv_face H N1. inv_face H N2. inv_face H N3. inv_face H N4. inv_face H N5.
  unfold ready2, loads, parses. cbn in *. eauto 20.
Qed.

Lemma FooterServer_GenerateCard_inv L bg rf bf c w r w' :
  FooterServer.GenerateCard L bg rf bf c w = ((r, None), w') ->
  exists pic rfont bfont, ready2 L (files w) bg rf bf pic rfont bfont.
Proof.
  unfold FooterServer.GenerateCard. intros H.
  inv_open H F1. inv_pure H D1. cbv zeta in H.
  inv_read H F2. inv_pure H D2. inv_read H F3. inv_pure H D3.
  inv_face H N1. inv_face H N2. inv_face H N3. inv_face H N4. inv_face H N5.
  unfold ready2, loads, parses. cbn in *. eauto 20.
Qed.

Lemma CardServer_GenerateCard_inv L bg rf bf itf c w r w' :
  CardServer.GenerateCard L bg rf bf itf c w = ((r, None), w') ->
  exists pic rfont bfont ifont, ready3 L (files w) bg rf bf itf pic rfont bfont ifont.
Proof.
  unfold CardServer.GenerateCard. intros H.
  inv_open H F1. inv_pure H D1. cbv zeta in H.
  inv_read H F2. inv_pure H D2. inv_read H F3. inv_pure H D3. inv_read H F4. inv_pure H D4.
  inv_face H N1. inv_face H N2. inv_face H N3. inv_face H N4.
  unfold ready3, loads, parses. cbn in *. eauto 20.
Qed.

(** ** The code draws what the table says *)

Lemma Batch_draws_table pic rfont bfont c :
  draw_calls (Batch_rendered pic rfont bfont c) = layout 70 25 (Batch_lines rfont bfont c).
Proof.
  unfold Batch_rendered, Batch.draw_fields, Batch_lines, line. cbn [layout optional value andb].
  destruct (nonempty (Batch.Pronouns c)); reflexivity.
Qed.

Lemma FooterServer_draws_table pic rfont bfont c :
  draw_calls (FooterServer_rendered pic rfont bfont c)
  = layout 70 25 (FooterServer_lines rfont bfont c).
Proof.
  unfold FooterServer_rendered, FooterServer.draw_fields, FooterServer_lines, line.
  cbn [layout optional value andb].
  destruct (nonempty (FooterServer.Pronouns c)); reflexivity.
Qed.

Lemma CardServer_draws_table pic rfont bfont ifont c :
  draw_calls (CardServer_rendered pic rfont bfont ifont c)
  = layout 50 100 (CardServer_lines rfont bfont ifont c).
Proof.
  unfold CardServer_rendered, CardServer.draw_fields, CardServer_lines, line.
  cbn [layout optional value andb].
  destruct (nonempty (CardServer.Pronouns c)), (nonempty (CardServer.Department c)),
    (nonempty (CardServer.LandGrant1 c)), (nonempty (CardServer.LandGrant2 c)),
    (nonempty (CardServer.LandGrant3 c)), (nonempty (CardServer.LandGrant4 c)); reflexivity.
Qed.

Lemma layout_without f x y items :
  (forall l, In (Text l) items -> site l = f -> optional l = true /\ value l = "") ->
  layout x y (without f items) = layout x y items.
Proof.
  revert y. induction items as [|[l|n] items IH]; intros y H; [reflexivity| |].
  - cbn [without List.filter layout]. fold (without f items).
    destruct (bool_decide_reflect (site l = f)) as [E|E]; cbn [negb].
    + destruct (H l (or_introl eq_refl) E) as [-> ->]. cbn.
      apply IH. intros l' Hl'. apply H. by right.
    + cbn [layout]. destruct (optional l && negb (nonempty (value l))).
      * apply IH. intros l' Hl'. apply H. by right.
      * f_equal. apply IH. intros l' Hl'. apply H. by right.
  - cbn [without List.filter layout]. fold (without f items).
    apply IH. intros l' Hl'. apply H. by right.
Qed.

Lemma layout_none_at f x y items :
  (forall l, In (Text l) items -> site l = f -> optional l = true /\ value l = "") ->
  Forall (fun c => fst (fst c) <> f) (layout x y items).
Proof.
  revert y. induction items as [|[l|n] items IH]; intros y H; cbn [layout].
  - constructor.
  - assert (Hrest : forall l', In (Text l') items -> site l' = f ->
                      optional l' = true /\ value l' = "")
      by (intros l' Hl'; apply H; by right).
    destruct (optional l && negb (nonempty (value l))) eqn:E; [by apply IH|].
    constructor; [|by apply IH]. cbn. intros Hs.
    destruct (H l (or_introl eq_refl) Hs) as [Ho Hv]. by rewrite Ho, Hv in E.
  - apply IH. intros l' Hl'. apply H. by right.
Qed.

Lemma texts_at_none f img :
  Forall (fun c => fst (fst c) <> f) (draw_calls img) -> texts_at f img = [].
Proof.
  unfold texts_at. induction 1 as [|c l Hc _ IH]; [reflexivity|].
  cbn. by destruct (decide (fst (fst c) = f)).
Qed.

Ltac in_table H :=
  cbn [In] in H;
  repeat (destruct H as [H|H]; [first [discriminate H | injection H as <-]|]);
  try contradiction.

Lemma Batch_sites rfont bfont c l l' :
  In (Text l) (Batch_lines rfont bfont c) -> In (Text l') (Batch_lines rfont bfont c) ->
  site l' = site l -> l' = l.
Proof.
  unfold Batch_lines, line. intros H H'.
  in_table H; in_table H'; cbn; intros E; first [reflexivity | discriminate E].
Qed.

Lemma FooterServer_sites rfont bfont c l l' :
  In (Text l) (FooterServer_lines rfont bfont c) ->
  In (Text l') (FooterServer_lines rfont bfont c) ->
  site l' = site l -> l' = l.
Proof.
  unfold FooterServer_lines, line. intros H H'.
  in_table H; in_table H'; cbn; intros E; first [reflexivity | discriminate E].
Qed.

Lemma CardServer_sites rfont bfont ifont c l l' :
  In (Text l) (CardServer_lines rfont bfont ifont c) ->
  In (Text l') (CardServer_lines rfont bfont ifont c) ->
  site l' = site l -> l' = l.
Proof.
  unfold CardServer_lines, line. intros H H'.
  in_table H; in_table H'; cbn; intros E; first [reflexivity | discriminate E].
Qed.

Lemma Batch_GenerateCard_ok L bg rf bf c w r w' :
  Batch.GenerateCard L bg rf bf c w = ((r, None), w') ->
  exists pic rfont bfont,
    ready2 L (files w) bg rf bf pic rfont bfont /\
    r = Some (Batch_rendered pic rfont bfont c) /\
    w' = add_trace w [EvOpen bg; EvReadFile rf; EvReadFile bf].
Proof.
  intros H. destruct (Batch_GenerateCard_inv _ _ _ _ _ _ _ _ H) as (pic & rfont & bfont & Hr).
  exists pic, rfont, bfont. split; [done|].
  rewrite (Batch_GenerateCard_ready _ _ _ _ _ _ _ _ _ Hr) in H. by inversion H.
Qed.

Lemma FooterServer_GenerateCard_ok L bg rf bf c w r w' :
  FooterServer.GenerateCard L bg rf bf c w = ((r, None), w') ->
  exists pic rfont bfont,
    ready2 L (files w) bg rf bf pic rfont bfont /\
    r = Some (FooterServer_rendered pic rfont bfont c) /\
    w' = add_trace w [EvOpen bg; EvReadFile rf; EvReadFile bf].
Proof.
  intros H.
  destruct (FooterServer_GenerateCard_inv _ _ _ _ _ _ _ _ H) as (pic & rfont & bfont & Hr).
  exists pic, rfont, bfont. split; [done|].
  rewrite (FooterServer_GenerateCard_ready _ _ _ _ _ _ _ _ _ Hr) in H. by inversion H.
Qed.

Lemma CardServer_GenerateCard_ok L bg rf bf itf c w r w' :
  CardServer.GenerateCard L bg rf bf itf c w = ((r, None), w') ->
  exists pic rfont bfont ifont,
    ready3 L (files w) bg rf bf itf pic rfont bfont ifont /\
    r = Some (CardServer_rendered pic rfont bfont ifont c) /\
    w' = add_trace w [EvOpen bg; EvReadFile rf; EvReadFile bf; EvReadFile itf].
Proof.
  intros H.
  destruct (CardServer_GenerateCard_inv _ _ _ _ _ _ _ _ _ H)
    as (pic & rfont & bfont & ifont & Hr).
  exists pic, rfont, bfont, ifont. split; [done|].
  rewrite (CardServer_GenerateCard_ready _ _ _ _ _ _ _ _ _ _ _ Hr) in H. by inversion H.
Qed.

(** Drawing text leaves the rectangle of the image alone. *)
Lemma drawText_Rect f img fc t x y c : Rect (drawText f img fc t x y c) = Rect img.
Proof. reflexivity. Qed.

Lemma Batch_draw_fields_Rect img f1 f2 f3 f4 f5 c :
  Rect (Batch.draw_fields img f1 f2 f3 f4 f5 c) = Rect img.
Proof. unfold Batch.draw_fields. by destruct (nonempty (Batch.Pronouns c)). Qed.

Lemma FooterServer_draw_fields_Rect img f1 f2 f3 f4 f5 c :
  Rect (FooterServer.draw_fields img f1 f2 f3 f4 f5 c) = Rect img.
Proof. unfold FooterServer.draw_fields. by destruct (nonempty (FooterServer.Pronouns c)). Qed.

Lemma CardServer_draw_fields_Rect img f1 f2 f3 f4 c :
  Rect (CardServer.draw_fields img f1 f2 f3 f4 c) = Rect img.
Proof.
  unfold CardServer.draw_fields.
  by destruct (nonempty (CardServer.Pronouns c)), (nonempty (CardServer.Department c)),
    (nonempty (CardServer.LandGrant1 c)), (nonempty (CardServer.LandGrant2 c)),
    (nonempty (CardServer.LandGrant3 c)), (nonempty (CardServer.LandGrant4 c)).
Qed.

(** ** C10: the card has the bounds of the background *)

(** C10.  In each of the three programs, when [GenerateCard] returns a nil
    error it returns an image (not nil) whose rectangle is the bounds of the
    background image decoded from [bgImagePath]; and the text drawing of
    each program leaves the rectangle of the image it draws on unchanged. *)
Theorem GenerateCard_bounds (L : Libs) :
  (forall bg rf bf c w r w',
     Batch.GenerateCard L bg rf bf c w = ((r, None), w') ->
     exists img pic, r = Some img /\ loads L (files w) bg pic /\ Rect img = pic_bounds pic) /\
  (forall bg rf bf itf c w r w',
     CardServer.GenerateCard L bg rf bf itf c w = ((r, None), w') ->
     exists img pic, r = Some img /\ loads L (files w) bg pic /\ Rect img = pic_bounds pic) /\
  (forall bg rf bf c w r w',
     FooterServer.GenerateCard L bg rf bf c w = ((r, None), w') ->
     exists img pic, r = Some img /\ loads L (files w) bg pic /\ Rect img = pic_bounds pic) /\
  (forall img f1 f2 f3 f4 f5 c, Rect (Batch.draw_fields img f1 f2 f3 f4 f5 c) = Rect img) /\
  (forall img f1 f2 f3 f4 c, Rect (CardServer.draw_fields img f1 f2 f3 f4 c) = Rect img) /\
  (forall img f1 f2 f3 f4 f5 c, Rect (FooterServer.draw_fields img f1 f2 f3 f4 f5 c) = Rect img).
Proof.
  repeat split.
  - intros * H. apply Batch_GenerateCard_ok in H as (pic & rfont & bfont & Hr & -> & _).
    exists (Batch_rendered pic rfont bfont c), pic. repeat split; [apply Hr|].
    unfold Batch_rendered. by rewrite Batch_draw_fields_Rect.
  - intros * H.
    apply CardServer_GenerateCard_ok in H as (pic & rfont & bfont & ifont & Hr & -> & _).
    exists (CardServer_rendered pic rfont bfont ifont c), pic. repeat split; [apply Hr|].
    unfold CardServer_rendered. by rewrite CardServer_draw_fields_Rect.
  - intros * H. apply FooterServer_GenerateCard_ok in H as (pic & rfont & bfont & Hr & -> & _).
    exists (FooterServer_rendered pic rfont bfont c), pic. repeat split; [apply Hr|].
    unfold FooterServer_rendered. by rewrite FooterServer_draw_fields_Rect.
  - apply Batch_draw_fields_Rect.
  - apply CardServer_draw_fields_Rect.
  - apply FooterServer_draw_fields_Rect.
Qed.

Lemma layout_texts f x y items :
  omap (fun c : Field * Drawer * string => if decide (fst (fst c) = f) then Some (snd c) else None)
    (layout x y items) = table_texts f items.
Proof.
  revert y. induction items as [|[l|n] items IH]; intros y; [reflexivity| |].
  - cbn [layout table_texts omap list_omap].
    destruct (optional l && negb (nonempty (value l))).
    + rewrite IH. unfold table_texts. by destruct (decide (site l = f)).
    + cbn [omap list_omap fst snd]. rewrite IH. unfold table_texts.
      by destruct (decide (site l = f)).
  - cbn [layout table_texts omap list_omap]. apply IH.
Qed.

Lemma formattedPhone_ten (p : string) :
  count_digits p = 10%nat ->
  exists a b c d e f g h i j,
    digitsOnly p = str3 a b c ++ str3 d e f ++ str4 g h i j /\
    formattedPhone p = "(" ++ str3 a b c ++ ") " ++ str3 d e f ++ "-" ++ str4 g h i j.
Proof.
  rewrite <- digitsOnly_length. unfold formattedPhone. intros H. rewrite H.
  destruct (digitsOnly p) as [|a [|b [|c [|d [|e [|f [|g [|h [|i [|j [|k s]]]]]]]]]]];
    try discriminate H.
  exists a, b, c, d, e, f, g, h, i, j. split; reflexivity.
Qed.

Lemma formattedPhone_other (p : string) : count_digits p <> 10%nat -> formattedPhone p = p.
Proof.
  rewrite <- digitsOnly_length. unfold formattedPhone. intros H.
  by destruct (Nat.eqb_spec (String.length (digitsOnly p)) 10).
Qed.

(** ** C1: the phone line *)

(** C1, as amended.  In the two servers the phone line shows the phone
    field reformatted when the field holds exactly ten digits: the line is
    (XXX) XXX-XXXX made of those digits in order (after the label "Phone: "
    in the card server); a field with another number of digits is shown as
    given.  The batch tool shows the phone field as given, whatever it
    holds. *)
Theorem phone_line (L : Libs) :
  (forall bg rf bf itf c w img w',
     CardServer.GenerateCard L bg rf bf itf c w = ((Some img, None), w') ->
     texts_at FPhone img = ["Phone: " ++ formattedPhone (CardServer.PhoneNumber c)]) /\
  (forall bg rf bf c w img w',
     FooterServer.GenerateCard L bg rf bf c w = ((Some img, None), w') ->
     texts_at FPhone img = [formattedPhone (FooterServer.PhoneNumber c)]) /\
  (forall bg rf bf c w img w',
     Batch.GenerateCard L bg rf bf c w = ((Some img, None), w') ->
     texts_at FPhone img = [Batch.PhoneNumber c]) /\
  (forall p, count_digits p = 10%nat ->
     exists a b c d e f g h i j,
       digitsOnly p = str3 a b c ++ str3 d e f ++ str4 g h i j /\
       formattedPhone p = "(" ++ str3 a b c ++ ") " ++ str3 d e f ++ "-" ++ str4 g h i j) /\
  (forall p, count_digits p <> 10%nat -> formattedPhone p = p).
Proof.
  repeat split.
  - intros * H.
    apply CardServer_GenerateCard_ok in H as (pic & rfont & bfont & ifont & _ & E & _).
    injection E as ->. unfold texts_at.
    by rewrite CardServer_draws_table, layout_texts.
  - intros * H. apply FooterServer_GenerateCard_ok in H as (pic & rfont & bfont & _ & E & _).
    injection E as ->. unfold texts_at.
    by rewrite FooterServer_draws_table, layout_texts.
  - intros * H. apply Batch_GenerateCard_ok in H as (pic & rfont & bfont & _ & E & _).
    injection E as ->. unfold texts_at.
    by rewrite Batch_draws_table, layout_texts.
  - apply formattedPhone_ten.
  - apply formattedPhone_other.
Qed.

Lemma optional_lines_In f v items :
  In (f, v) (optional_lines items) ->
  exists l, In (Text l) items /\ optional l = true /\ site l = f /\ value l = v.
Proof.
  induction items as [|[l|n] items IH]; cbn; [done| |].
  - destruct (optional l) eqn:Ho; cbn.
    + intros [E|H].
      * injection E as <- <-. exists l. auto.
      * destruct (IH H) as (l' & ? & ?). exists l'. auto.
    + intros H. destruct (IH H) as (l' & ? & ?). exists l'. auto.
  - intros H. destruct (IH H) as (l' & ? & ?). exists l'. auto.
Qed.

(** What a blank optional line means for a table whose sites are distinct. *)
Lemma blank_line_struck f x y items img :
  (forall l l', In (Text l) items -> In (Text l') items -> site l' = site l -> l' = l) ->
  draw_calls img = layout x y items ->
  In (f, "") (optional_lines items) ->
  texts_at f img = [] /\ draw_calls img = layout x y (without f items).
Proof.
  intros Hsites Hdraw Hin.
  destruct (optional_lines_In _ _ _ Hin) as (l0 & Hl0 & Ho & Hs & Hv).
  assert (H : forall l, In (Text l) items -> site l = f -> optional l = true /\ value l = "").
  { intros l Hl E. rewrite (Hsites l0 l Hl0 Hl) by congruence. auto. }
  split.
  - apply texts_at_none. rewrite Hdraw. by apply layout_none_at.
  - rewrite Hdraw. symmetry. by apply layout_without.
Qed.

(** ** C4: blank optional fields *)

(** C4.  When [GenerateCard] succeeds, the draw calls it issued are those
    of the program's table of lines, whose optional lines are the pronouns
    (in all three programs) and the department and the four land-grant
    lines (in the card server); and for every optional field that is the
    empty string no text is drawn for that field and the draw calls, with
    their coordinates, are those of the table from which the field's line
    is struck out. *)
Theorem blank_optional_fields (L : Libs) :
  (forall bg rf bf itf c w img w',
     CardServer.GenerateCard L bg rf bf itf c w = ((Some img, None), w') ->
     exists rfont bfont ifont,
       let lines := CardServer_lines rfont bfont ifont c in
       optional_lines lines
       = [(FPronouns, CardServer.Pronouns c); (FDepartment, CardServer.Department c);
          (FLandGrant1, CardServer.LandGrant1 c); (FLandGrant2, CardServer.LandGrant2 c);
          (FLandGrant3, CardServer.LandGrant3 c); (FLandGrant4, CardServer.LandGrant4 c)] /\
       draw_calls img = layout 50 100 lines /\
       forall f, In (f, "") (optional_lines lines) ->
         texts_at f img = [] /\ draw_calls img = layout 50 100 (without f lines)) /\
  (forall bg rf bf c w img w',
     FooterServer.GenerateCard L bg rf bf c w = ((Some img, None), w') ->
     exists rfont bfont,
       let lines := FooterServer_lines rfont bfont c in
       optional_lines lines = [(FPronouns, FooterServer.Pronouns c)] /\
       draw_calls img = layout 70 25 lines /\
       forall f, In (f, "") (optional_lines lines) ->
         texts_at f img = [] /\ draw_calls img = layout 70 25 (without f lines)) /\
  (forall bg rf bf c w img w',
     Batch.GenerateCard L bg rf bf c w = ((Some img, None), w') ->
     exists rfont bfont,
       let lines := Batch_lines rfont bfont c in
       optional_lines lines = [(FPronouns, Batch.Pronouns c)] /\
       draw_calls img = layout 70 25 lines /\
       forall f, In (f, "") (optional_lines lines) ->
         texts_at f img = [] /\ draw_calls img = layout 70 25 (without f lines)).
Proof.
  repeat split.
  - intros * H.
    apply CardServer_GenerateCard_ok in H as (pic & rfont & bfont & ifont & _ & E & _).
    injection E as ->. exists rfont, bfont, ifont. cbv zeta.
    split; [reflexivity|]. split; [apply CardServer_draws_table|].
    intros f Hf. eapply blank_line_struck; [| apply CardServer_draws_table | exact Hf].
    intros l l'. apply CardServer_sites.
  - intros * H. apply FooterServer_GenerateCard_ok in H as (pic & rfont & bfont & _ & E & _).
    injection E as ->. exists rfont, bfont. cbv zeta.
    split; [reflexivity|]. split; [apply FooterServer_draws_table|].
    intros f Hf. eapply blank_line_struck; [| apply FooterServer_draws_table | exact Hf].
    intros l l'. apply FooterServer_sites.
  - intros * H. apply Batch_GenerateCard_ok in H as (pic & rfont & bfont & _ & E & _).
    injection E as ->. exists rfont, bfont. cbv zeta.
    split; [reflexivity|]. split; [apply Batch_draws_table|].
    intros f Hf. eapply blank_line_struck; [| apply Batch_draws_table | exact Hf].
    intros l l'. apply Batch_sites.
Qed.

(** ** Reading the CSV file *)

Lemma readRecord_fields fpr raw : fst (fst (readRecord fpr raw)) = raw_fields raw.
Proof.
  unfold readRecord.
  destruct (0 <? fpr); [|destruct (fpr =? 0); reflexivity].
  by destruct (negb _ && negb _).
Qed.

Lemma readRecord_err fpr raw e :
  snd (fst (readRecord fpr raw)) = Some e -> exists ce, e = ErrCsv ce.
Proof.
  unfold readRecord.
  assert (H : option_map ErrCsv (raw_err raw) = Some e -> exists ce, e = ErrCsv ce).
  { destruct (raw_err raw); cbn; intros E; inversion E; eauto. }
  destruct (0 <? fpr); [|destruct (fpr =? 0); exact H].
  destruct (negb _ && negb _); cbn; [|exact H].
  intros E. inversion E. eauto.
Qed.

(** One turn of the loop is one [Read]: end of input leaves the loop, an
    error returns it, a record is skipped or appended. *)
Lemma read_loop_Read fpr rest cards :
  Batch.read_loop fpr rest cards =
  match Read {| FieldsPerRecord := fpr; pending := rest |} with
  | (_, Some EOF, _) => ret (cards, None)
  | (_, Some err, _) => ret ([], Some (ErrWrap "failed to read CSV record: %w" err))
  | (record, None, reader) =>
      if (List.length record <? 7)%nat
      then log_Printf "Skipping invalid record: %v (expected 7 fields, got %d)"
             [ARec record; AInt (Z.of_nat (List.length record))] ;;;
           Batch.read_loop (FieldsPerRecord reader) (pending reader) cards
      else Batch.read_loop (FieldsPerRecord reader) (pending reader)
             (cards ++ [Batch.card_of_record record])
  end.
Proof.
  destruct rest as [|raw rest]; [reflexivity|].
  unfold Read. cbn [pending FieldsPerRecord Batch.read_loop].
  pose proof (readRecord_err fpr raw) as He.
  destruct (readRecord fpr raw) as [[record [e|]] fpr']; [|reflexivity].
  destruct (He e eq_refl) as [ce ->]. reflexivity.
Qed.

(** A successful loop appends the cards of the long-enough records, in
    order. *)
Lemma read_loop_ok fpr rest cards w cards' w' :
  Batch.read_loop fpr rest cards w = ((cards', None), w') ->
  cards' = (cards ++ map Batch.card_of_record (List.filter long_enough (map raw_fields rest)))%list.
Proof.
  revert fpr cards w. induction rest as [|raw rest IH]; intros fpr cards w.
  - cbn. intros H. inversion H. by rewrite app_nil_r.
  - cbn [Batch.read_loop map List.filter].
    pose proof (readRecord_fields fpr raw) as Hf.
    destruct (readRecord fpr raw) as [[record [e|]] fpr']; cbn in Hf; subst record.
    + intros H. inversion H.
    + unfold long_enough. destruct (List.length (raw_fields raw) <? 7)%nat; cbn [negb].
      * unfold bind. rewrite log_Printf_run. apply IH.
      * intros H. apply IH in H. rewrite H. cbn [map]. by rewrite <- app_assoc.
Qed.

Lemma readCardsFromCSV_run L p w file :
  files w !! p = Some file ->
  Batch.readCardsFromCSV L p w =
  match csv_lex L file with
  | [] => (([], Some (ErrNew "CSV file is empty")), add_trace w [EvOpen p])
  | header :: rest =>
      let '(_, err, fpr) := readRecord 0 header in
      match err with
      | Some e => (([], Some (ErrWrap "failed to read CSV header: %w" e)), add_trace w [EvOpen p])
      | None => Batch.read_loop fpr rest [] (add_trace w [EvOpen p])
      end
  end.
Proof.
  intros F. unfold Batch.readCardsFromCSV, bind. rewrite os_Open_run, F.
  unfold csv_NewReader, Read. cbn [pending FieldsPerRecord].
  destruct (csv_lex L file) as [|header rest]; [reflexivity|].
  pose proof (readRecord_err 0 header) as He.
  destruct (readRecord 0 header) as [[record [e|]] fpr']; [|reflexivity].
  destruct (He e eq_refl) as [ce ->]. reflexivity.
Qed.

(** ** C7: the header row *)

(** C7.  [readCardsFromCSV] on a file that exists: when the file holds no
    record at all, the result is the error "CSV file is empty"; when it
    holds a first record and the call succeeds, the cards are made from the
    records after the first one only (those of at least seven fields, in
    order), so the first record never becomes a card. *)
Theorem header_discarded (L : Libs) (w : World) (p file : string) :
  files w !! p = Some file ->
  (csv_lex L file = [] ->
   fst (Batch.readCardsFromCSV L p w) = ([], Some (ErrNew "CSV file is empty"))) /\
  (forall header rest cards,
     csv_lex L file = header :: rest ->
     fst (Batch.readCardsFromCSV L p w) = (cards, None) ->
     cards = map Batch.card_of_record (List.filter long_enough (map raw_fields rest))).
Proof.
  intros F. rewrite (readCardsFromCSV_run L p w file F). split.
  - by intros ->.
  - intros header rest cards ->.
    destruct (readRecord 0 header) as [[record [e|]] fpr']; cbn; [intros H; inversion H|].
    destruct (Batch.read_loop fpr' rest [] (add_trace w [EvOpen p])) as [[cs e] w'] eqn:E.
    cbn. intros H. inversion H. subst. by apply read_loop_ok in E.
Qed.

(** ** The batch run *)

Lemma World_eq (a b : World) :
  files a = files b -> creatable a = creatable b -> logs a = logs b ->
  stdout a = stdout b -> trace a = trace b -> a = b.
Proof. destruct a, b; cbn; by intros -> -> -> -> ->. Qed.

Lemma png_size_ok_Rect a b : Rect a = Rect b -> png_size_ok a = png_size_ok b.
Proof. unfold png_size_ok. by intros ->. Qed.

Lemma Batch_ready_insert L fs pic rfont bfont c data :
  outputs_apart fs [c] ->
  Batch_ready L fs pic rfont bfont ->
  Batch_ready L (<[Batch.outputFileName c := data]> fs) pic rfont bfont.
Proof.
  intros Ha. destruct (Ha c (or_introl eq_refl)) as (N1 & N2 & N3).
  intros ((d1 & F1 & D1) & (d2 & F2 & D2) & (d3 & F3 & D3) & N).
  repeat split; try apply N.
  - exists d1. by rewrite files_insert_ne.
  - exists d2. by rewrite files_insert_ne.
  - exists d3. by rewrite files_insert_ne.
Qed.

Lemma outputs_apart_insert fs p d cards :
  outputs_apart (<[p := d]> fs) cards <-> outputs_apart fs cards.
Proof. reflexivity. Qed.

Lemma outputs_apart_cons fs c cards :
  outputs_apart fs (c :: cards) -> outputs_apart fs [c] /\ outputs_apart fs cards.
Proof.
  intros H. split; intros c' Hc'; apply H.
  - destruct Hc' as [->|[]]. by left.
  - by right.
Qed.

Lemma os_Create_run p w :
  creatable w p = true ->
  os_Create p w = (Ok p, {| files := <[p := ""]> (files w); creatable := creatable w;
                            logs := logs w; stdout := stdout w;
                            trace := trace w ++ [EvCreate p] |}).
Proof. intros H. unfold os_Create, bind, emit. cbn [creatable]. by rewrite H. Qed.

Lemma os_Create_fails p w :
  creatable w p = false ->
  os_Create p w = (Err (ErrPath "open" p), add_trace w [EvCreate p]).
Proof. intros H. unfold os_Create, bind, emit. cbn [creatable]. by rewrite H. Qed.

Lemma png_Encode_file_run L p m w :
  png_size_ok m = true ->
  png_Encode_file L p m w
  = (None, {| files := <[p := png_bytes L m]> (files w); creatable := creatable w;
              logs := logs w; stdout := stdout w;
              trace := trace w ++ [EvWrite p (png_bytes L m)] |}).
Proof. intros H. unfold png_Encode_file, png_Encode. by rewrite H. Qed.

Lemma png_Encode_file_fails L p m w :
  png_size_ok m = false -> png_Encode_file L p m w = (Some ErrPngSize, w).
Proof. intros H. unfold png_Encode_file, png_Encode. by rewrite H. Qed.

Lemma for_cards_step L pic rfont bfont c rest w :
  Batch_ready L (files w) pic rfont bfont ->
  png_size_ok (background pic) = true ->
  creatable w (Batch.outputFileName c) = true ->
  Batch.for_cards L (c :: rest) w = Batch.for_cards L rest (card_done L pic rfont bfont w c).
Proof.
  intros Hr Hs Hc. cbn [Batch.for_cards]. unfold bind at 1.
  rewrite (Batch_GenerateCard_ready _ _ _ _ _ _ _ _ _ Hr).
  unfold bind at 1. rewrite os_Create_run by exact Hc.
  unfold bind at 1. rewrite png_Encode_file_run
    by (rewrite <- Hs; apply png_size_ok_Rect; unfold Batch_rendered;
        apply Batch_draw_fields_Rect).
  unfold bind at 1, fmt_Printf.
  f_equal. apply World_eq; cbn [files creatable logs stdout trace card_done add_trace];
    try reflexivity.
  - by rewrite files_insert_insert.
  - by rewrite <- !app_assoc.
Qed.

Lemma for_cards_run L pic rfont bfont cards w :
  Batch_ready L (files w) pic rfont bfont ->
  png_size_ok (background pic) = true ->
  (forall c, In c cards -> creatable w (Batch.outputFileName c) = true) ->
  outputs_apart (files w) cards ->
  Batch.for_cards L cards w = (Return, foldl (card_done L pic rfont bfont) w cards).
Proof.
  revert w. induction cards as [|c cards IH]; intros w Hr Hs Hc Ha; [reflexivity|].
  apply outputs_apart_cons in Ha as [Ha1 Ha].
  rewrite (for_cards_step L pic rfont bfont) by (auto; apply Hc; by left).
  cbn [foldl]. apply IH; [by apply Batch_ready_insert | done | | exact Ha].
  intros c' Hc'. cbn. apply Hc. by right.
Qed.

Lemma exists_or_fatal_run path fmt k w :
  Batch.exists_or_fatal path fmt k w =
  match files w !! path with
  | Some _ => k (add_trace w [EvStat path])
  | None => (OsExit 1, add_log (add_trace w [EvStat path])
                         {| fatal := true; format := fmt; args := [AStr path] |})
  end.
Proof.
  unfold Batch.exists_or_fatal, bind. rewrite os_Stat_run.
  by destruct (files w !! path).
Qed.

(** The loop over the records looks at the reader only: its result does
    not depend on the world, of which it extends the log and nothing else. *)
Lemma read_loop_fst fpr rest cards w w' :
  fst (Batch.read_loop fpr rest cards w) = fst (Batch.read_loop fpr rest cards w').
Proof.
  revert fpr cards w w'. induction rest as [|raw rest IH]; intros fpr cards w w'; [reflexivity|].
  cbn [Batch.read_loop].
  destruct (readRecord fpr raw) as [[record [e|]] fpr']; [reflexivity|].
  destruct (List.length record <? 7)%nat; [|apply IH].
  unfold bind. rewrite !log_Printf_run. apply IH.
Qed.

Lemma read_loop_frame fpr rest cards w :
  let w' := snd (Batch.read_loop fpr rest cards w) in
  files w' = files w /\ creatable w' = creatable w /\ trace w' = trace w /\
  stdout w' = stdout w /\
  exists entries, logs w' = (logs w ++ entries)%list /\ Forall (fun e => fatal e = false) entries.
Proof.
  revert fpr cards w. induction rest as [|raw rest IH]; intros fpr cards w.
  - cbn. repeat split. exists []. by rewrite app_nil_r.
  - cbn [Batch.read_loop].
    destruct (readRecord fpr raw) as [[record [e|]] fpr'].
    + cbn. repeat split. exists []. by rewrite app_nil_r.
    + destruct (List.length record <? 7)%nat; [|apply IH].
      unfold bind. rewrite log_Printf_run.
      destruct (IH fpr' cards (add_log w
        {| fatal := false;
           format := "Skipping invalid record: %v (expected 7 fields, got %d)";
           args := [ARec record; AInt (Z.of_nat (List.length record))] |}))
        as (F & C & T & S & es & Hl & Hes).
      cbv zeta. rewrite F, C, T, S, Hl. repeat split.
      eexists (_ :: es). cbn [logs add_log]. rewrite <- app_assoc. split; [reflexivity|].
      by constructor.
Qed.

Lemma readCardsFromCSV_fst L p w w' :
  files w = files w' ->
  fst (Batch.readCardsFromCSV L p w) = fst (Batch.readCardsFromCSV L p w').
Proof.
  intros E. destruct (files w !! p) as [file|] eqn:F.
  - rewrite (readCardsFromCSV_run L p w file F).
    rewrite (readCardsFromCSV_run L p w' file) by (by rewrite <- E).
    destruct (csv_lex L file) as [|header rest]; [reflexivity|].
    destruct (readRecord 0 header) as [[record [e|]] fpr']; [reflexivity|].
    apply read_loop_fst.
  - unfold Batch.readCardsFromCSV, bind. rewrite !os_Open_run, <- E, F. reflexivity.
Qed.

Lemma readCardsFromCSV_frame L p w :
  let w' := snd (Batch.readCardsFromCSV L p w) in
  files w' = files w /\ creatable w' = creatable w /\ trace w' = (trace w ++ [EvOpen p])%list /\
  stdout w' = stdout w /\
  exists entries, logs w' = (logs w ++ entries)%list /\ Forall (fun e => fatal e = false) entries.
Proof.
  assert (Hnil : forall w0 : World, exists entries : list LogEntry,
             logs w0 = (logs w0 ++ entries)%list /\ Forall (fun e => fatal e = false) entries)
    by (intros w0; exists []; by rewrite app_nil_r).
  destruct (files w !! p) as [file|] eqn:F.
  - rewrite (readCardsFromCSV_run L p w file F).
    destruct (csv_lex L file) as [|header rest]; [cbn; repeat split; apply (Hnil w)|].
    destruct (readRecord 0 header) as [[record [e|]] fpr']; [cbn; repeat split; apply (Hnil w)|].
    apply (read_loop_frame fpr' rest [] (add_trace w [EvOpen p])).
  - unfold Batch.readCardsFromCSV, bind. rewrite !os_Open_run, F. cbn.
    repeat split; apply (Hnil w).
Qed.

(** With every record free of lexical errors and as long as the header,
    which has at least seven fields, every record becomes a card. *)
Lemma read_loop_uniform n rows cards w :
  (7 <= n)%nat ->
  (forall row, In row rows -> raw_err row = None /\ List.length (raw_fields row) = n) ->
  Batch.read_loop (Z.of_nat n) rows cards w
  = ((cards ++ map (fun row => Batch.card_of_record (raw_fields row)) rows, None)%list, w).
Proof.
  intros Hn. revert cards. induction rows as [|row rows IH]; intros cards H.
  - cbn. by rewrite app_nil_r.
  - destruct (H row (or_introl eq_refl)) as [He Hl].
    cbn [Batch.read_loop]. unfold readRecord. rewrite He, Hl.
    replace (0 <? Z.of_nat n) with true by (symmetry; apply Z.ltb_lt; lia).
    rewrite Z.eqb_refl. cbn [negb andb option_map].
    rewrite Hl.
    replace (n <? 7)%nat with false by (symmetry; apply Nat.ltb_ge; lia).
    rewrite IH by (intros r Hr; apply H; by right).
    cbn [map]. by rewrite <- app_assoc.
Qed.

(** [main] once its four files are known to exist. *)
Lemma main_checked L w d1 d2 d3 d4 :
  files w !! Batch.bgImagePath = Some d1 ->
  files w !! Batch.regularFontPath = Some d2 ->
  files w !! Batch.boldFontPath = Some d3 ->
  files w !! Batch.csvPath = Some d4 ->
  Batch.main L w =
  let '(cards, err, w1) := Batch.readCardsFromCSV L Batch.csvPath (add_trace w checked) in
  match err with
  | Some err =>
      (OsExit 1, add_log w1 {| fatal := true; format := "Error reading cards from CSV: %v";
                               args := [AErr err] |})
  | None =>
      if (List.length cards =? 0)%nat then (Return, add_log w1 no_cards)
      else Batch.for_cards L cards w1
  end.
Proof.
  intros F1 F2 F3 F4. unfold Batch.main.
  rewrite exists_or_fatal_run, F1.
  rewrite exists_or_fatal_run. cbn [files add_trace]. rewrite F2.
  rewrite exists_or_fatal_run. cbn [files add_trace]. rewrite F3.
  rewrite exists_or_fatal_run. cbn [files add_trace]. rewrite F4.
  unfold bind.
  replace (add_trace w checked) with
    {| files := files w; creatable := creatable w; logs := logs w; stdout := stdout w;
       trace := (((trace w ++ [EvStat Batch.bgImagePath]) ++ [EvStat Batch.regularFontPath]) ++
                 [EvStat Batch.boldFontPath]) ++ [EvStat Batch.csvPath] |}
    by (apply World_eq; cbn; try reflexivity; by rewrite <- !app_assoc).
  destruct (Batch.readCardsFromCSV L Batch.csvPath _) as [[cards [err|]] w1]; [reflexivity|].
  destruct (List.length cards =? 0)%nat; reflexivity.
Qed.

Lemma written_app a b : written (a ++ b) = (written a ++ written b)%list.
Proof. unfold written. apply omap_app. Qed.

Lemma created_app a b : created (a ++ b) = (created a ++ created b)%list.
Proof. unfold created. apply omap_app. Qed.

Lemma created_reads evs : Forall is_read evs -> created evs = [].
Proof. induction 1 as [|[] ? H ? IH]; cbn in *; try done. Qed.

Section Cards.
Context (L : Libs) (pic : Picture) (rfont bfont : Font).

Lemma cards_done_files cards w :
  files (foldl (card_done L pic rfont bfont) w cards)
  = foldl (put L pic rfont bfont) (files w) cards.
Proof. revert w. induction cards as [|c cards IH]; intros w; [reflexivity|]. cbn. by rewrite IH. Qed.

Lemma cards_done_written cards w :
  written (trace (foldl (card_done L pic rfont bfont) w cards))
  = (written (trace w)
     ++ map (fun c => (Batch.outputFileName c, Batch_png L pic rfont bfont c)) cards)%list.
Proof.
  revert w. induction cards as [|c cards IH]; intros w; cbn [foldl map].
  - by rewrite app_nil_r.
  - rewrite IH. cbn [trace card_done]. rewrite written_app. cbn. by rewrite <- app_assoc.
Qed.

Lemma cards_done_created cards w :
  created (trace (foldl (card_done L pic rfont bfont) w cards))
  = (created (trace w) ++ map Batch.outputFileName cards)%list.
Proof.
  revert w. induction cards as [|c cards IH]; intros w; cbn [foldl map].
  - by rewrite app_nil_r.
  - rewrite IH. cbn [trace card_done]. rewrite created_app. cbn. by rewrite <- app_assoc.
Qed.

Lemma put_locate cards fs : locate (foldl (put L pic rfont bfont) fs cards) = locate fs.
Proof. revert fs. induction cards as [|c cards IH]; intros fs; [reflexivity|]. cbn. by rewrite IH. Qed.

Lemma put_same_file cards fs a b :
  same_file (foldl (put L pic rfont bfont) fs cards) a b <-> same_file fs a b.
Proof. unfold same_file. by rewrite put_locate. Qed.

(** A file that is the output of none of the cards is left alone. *)
Lemma put_disk_other cards fs k :
  (forall c, In c cards -> locate fs (Batch.outputFileName c) <> k) ->
  disk (foldl (put L pic rfont bfont) fs cards) !! k = disk fs !! k.
Proof.
  revert fs. induction cards as [|c cards IH]; intros fs H; [reflexivity|].
  cbn [foldl]. rewrite IH by (intros c' Hc'; apply (H c'); by right).
  unfold put. rewrite disk_insert. apply lookup_insert_ne. apply H. by left.
Qed.

Lemma put_other cards fs p :
  (forall c, In c cards -> ~ same_file fs (Batch.outputFileName c) p) ->
  foldl (put L pic rfont bfont) fs cards !! p = fs !! p.
Proof.
  intros H. unfold lookup at 1 2, Files_lookup. rewrite put_locate.
  apply put_disk_other. intros c Hc. by apply H.
Qed.

(** A path holds the PNG of the last card whose output is the file it
    names. *)
Lemma put_last before c after fs p :
  same_file fs (Batch.outputFileName c) p ->
  (forall c', In c' after -> ~ same_file fs (Batch.outputFileName c') p) ->
  foldl (put L pic rfont bfont) fs (before ++ c :: after) !! p
  = Some (Batch_png L pic rfont bfont c).
Proof.
  intros Hc H. rewrite foldl_app. cbn [foldl].
  assert (Hl : forall a b,
            same_file (put L pic rfont bfont (foldl (put L pic rfont bfont) fs before) c) a b
            <-> same_file fs a b).
  { intros a b.
    change (same_file (foldl (put L pic rfont bfont) fs before) a b <-> same_file fs a b).
    apply put_same_file. }
  rewrite put_other by (intros c' Hc' E; apply (H c' Hc'); by apply Hl).
  unfold put at 1. apply files_insert_same. by apply put_same_file.
Qed.

Lemma put_distinct cards fs c :
  NoDup (map (fun c => locate fs (Batch.outputFileName c)) cards) -> In c cards ->
  foldl (put L pic rfont bfont) fs cards !! Batch.outputFileName c
  = Some (Batch_png L pic rfont bfont c).
Proof.
  intros Hnd Hc. apply in_split in Hc as (before & after & ->).
  apply put_last; [reflexivity|].
  intros c' Hc' E. rewrite map_app in Hnd. apply NoDup_app in Hnd as (_ & _ & Hnd).
  cbn [map] in Hnd. apply NoDup_cons in Hnd as [Hnot _]. apply Hnot.
  unfold same_file in E. rewrite <- E. apply list_elem_of_In.
  by apply (in_map (fun c => locate fs (Batch.outputFileName c))).
Qed.

Lemma put_size cards fs :
  NoDup (map (fun c => locate fs (Batch.outputFileName c)) cards) ->
  (forall c, In c cards -> fs !! Batch.outputFileName c = None) ->
  size (disk (foldl (put L pic rfont bfont) fs cards))
  = (size (disk fs) + List.length cards)%nat.
Proof.
  revert fs. induction cards as [|c cards IH]; intros fs Hnd Hfresh; cbn [foldl List.length].
  - lia.
  - cbn [map] in Hnd. apply NoDup_cons in Hnd as [Hnot Hnd].
    rewrite IH; [|exact Hnd|].
    + unfold put. rewrite disk_insert.
      rewrite map_size_insert_None by (apply (Hfresh c); by left). lia.
    + intros c' Hc'. unfold put. rewrite files_insert_ne; [apply Hfresh; by right|].
      intros E. apply Hnot. unfold same_file in E. rewrite E. apply list_elem_of_In.
      by apply (in_map (fun c => locate fs (Batch.outputFileName c))).
Qed.

End Cards.

Lemma readRecord_header header :
  raw_err header = None ->
  readRecord 0 header = (raw_fields header, None, Z.of_nat (List.length (raw_fields header))).
Proof. intros E. unfold readRecord. by rewrite E. Qed.

(** The batch run on a uniform CSV file with everything else in order. *)
Lemma main_uniform L w file header rows pic rfont bfont :
  Batch_ready L (files w) pic rfont bfont ->
  png_size_ok (background pic) = true ->
  files w !! Batch.csvPath = Some file ->
  csv_lex L file = header :: rows ->
  raw_err header = None ->
  (7 <= List.length (raw_fields header))%nat ->
  (forall row, In row rows ->
     raw_err row = None /\ List.length (raw_fields row) = List.length (raw_fields header)) ->
  (forall row, In row rows ->
     creatable w (Batch.outputFileName (Batch.card_of_record (raw_fields row))) = true) ->
  outputs_apart (files w) (map (fun row => Batch.card_of_record (raw_fields row)) rows) ->
  exists w',
    Batch.main L w = (Return, w') /\
    files w' = foldl (put L pic rfont bfont) (files w)
                 (map (fun row => Batch.card_of_record (raw_fields row)) rows) /\
    written (trace w')
    = (written (trace w)
       ++ map (fun c => (Batch.outputFileName c, Batch_png L pic rfont bfont c))
            (map (fun row => Batch.card_of_record (raw_fields row)) rows))%list.
Proof.
  intros Hr Hs F4 Hlex He Hn Hrows Hcreate Hapart.
  pose proof Hr as ((d1 & F1 & _) & (d2 & F2 & _) & (d3 & F3 & _) & _).
  rewrite (main_checked L w d1 d2 d3 file F1 F2 F3 F4).
  rewrite (readCardsFromCSV_run L _ _ file) by exact F4.
  rewrite Hlex, (readRecord_header header He).
  rewrite (read_loop_uniform _ rows [] _ Hn Hrows). cbn [app].
  set (cards := map (fun row => Batch.card_of_record (raw_fields row)) rows) in *.
  set (w1 := add_trace (add_trace w checked) [EvOpen Batch.csvPath]).
  assert (Hw1 : written (trace w1) = written (trace w)).
  { unfold w1. cbn [trace add_trace]. rewrite !written_app. cbn. by rewrite !app_nil_r. }
  assert (Hcards : forall c', In c' cards -> creatable w1 (Batch.outputFileName c') = true).
  { intros c' Hc'. unfold cards in Hc'. apply in_map_iff in Hc' as (row & <- & Hrow).
    by apply Hcreate. }
  destruct (List.length cards =? 0)%nat eqn:E0.
  - apply Nat.eqb_eq, nil_length_inv in E0. rewrite E0.
    eexists. split; [reflexivity|]. cbn [files trace add_log foldl map].
    split; [reflexivity|]. by rewrite Hw1, app_nil_r.
  - rewrite (for_cards_run L pic rfont bfont cards w1 Hr Hs Hcards Hapart).
    eexists. split; [reflexivity|]. split; [by rewrite cards_done_files|].
    by rewrite cards_done_written, Hw1.
Qed.

(** ** C3: one PNG file per row *)

(** C3, as amended.  Take a CSV file whose records are free of quoting
    errors and all have the number of fields of the header, at least seven;
    let background and fonts load, the image be of a size PNG accepts,
    every output name be one [os.Create] accepts, and no output name name
    the background or a font file.  Then the batch tool returns normally
    after writing one PNG per data row, in row order, each under the
    output name of its row, and touches no file but those the output names
    name.  When the output names of the rows name pairwise distinct files,
    each of these files holds the PNG of its own row at the end, and N rows
    whose files did not exist leave N more files than before.  (Rows whose
    output names name the same file, be it by the same name or by names
    such as "x" and "./x", overwrite one another.) *)
Theorem one_png_per_row (L : Libs) (w : World) (file : string) (header : RawRecord)
    (rows : list RawRecord) (pic : Picture) (rfont bfont : Font) :
  let cards := map (fun row => Batch.card_of_record (raw_fields row)) rows in
  let names := map Batch.outputFileName cards in
  let targets := map (locate (files w)) names in
  let w' := snd (Batch.main L w) in
  Batch_ready L (files w) pic rfont bfont ->
  png_size_ok (background pic) = true ->
  files w !! Batch.csvPath = Some file ->
  csv_lex L file = header :: rows ->
  raw_err header = None ->
  (7 <= List.length (raw_fields header))%nat ->
  (forall row, In row rows ->
     raw_err row = None /\ List.length (raw_fields row) = List.length (raw_fields header)) ->
  (forall name, In name names -> creatable w name = true) ->
  outputs_apart (files w) cards ->
  fst (Batch.main L w) = Return /\
  written (trace w')
  = (written (trace w)
     ++ map (fun c => (Batch.outputFileName c, Batch_png L pic rfont bfont c)) cards)%list /\
  locate (files w') = locate (files w) /\
  (forall target, ~ In target targets -> disk (files w') !! target = disk (files w) !! target) /\
  (forall p, (forall name, In name names -> ~ same_file (files w) name p) ->
             files w' !! p = files w !! p) /\
  (NoDup targets ->
     (forall c, In c cards ->
        files w' !! Batch.outputFileName c = Some (Batch_png L pic rfont bfont c)) /\
     ((forall name, In name names -> files w !! name = None) ->
      size (disk (files w')) = (size (disk (files w)) + List.length rows)%nat)).
Proof.
  intros cards names targets w' Hr Hs F4 Hlex He Hn Hrows Hcreate Hapart.
  assert (Hcreate' : forall row, In row rows ->
            creatable w (Batch.outputFileName (Batch.card_of_record (raw_fields row))) = true).
  { intros row Hrow. apply Hcreate. unfold names, cards. rewrite map_map.
    by apply (in_map (fun row => Batch.outputFileName (Batch.card_of_record (raw_fields row)))). }
  destruct (main_uniform L w file header rows pic rfont bfont Hr Hs F4 Hlex He Hn Hrows
              Hcreate' Hapart) as (w1 & Hmain & Hfiles & Hwritten).
  unfold w'. rewrite Hmain. cbn [fst snd]. fold cards in Hfiles, Hwritten.
  split; [reflexivity|]. split; [exact Hwritten|]. rewrite Hfiles.
  split; [apply put_locate|]. split; [|split].
  - intros k Hk. apply put_disk_other. intros c Hc E. apply Hk. rewrite <- E.
    unfold targets, names. rewrite map_map.
    by apply (in_map (fun c => locate (files w) (Batch.outputFileName c))).
  - intros p Hp. apply put_other. intros c Hc. apply Hp. unfold names. by apply in_map.
  - intros Hnd. unfold targets, names in Hnd. rewrite map_map in Hnd. split.
    + intros c Hc. by apply put_distinct.
    + intros Hfree. rewrite put_size; [|exact Hnd|].
      * unfold cards. by rewrite length_map.
      * intros c Hc. apply Hfree. unfold names. by apply in_map.
Qed.

(** ** C5: the output file names *)

Lemma outputFileName_spec (card : Batch.BusinessCard) :
  Batch.outputFileName card = underscores (Batch.Name card) ++ "_email_signature.png".
Proof. unfold Batch.outputFileName. by rewrite ReplaceAll_space. Qed.

Lemma reads_only_created w w' : reads_only w w' -> created (trace w') = created (trace w).
Proof.
  intros (evs & -> & H). cbn [trace add_trace].
  by rewrite created_app, (created_reads evs H), app_nil_r.
Qed.

(** The names the loop hands to [os.Create] are those of the cards it got
    to, in order: of all of them when it returns. *)
Lemma for_cards_created L cards w r :
  Batch.for_cards L cards w = r ->
  exists tried, tried `prefix_of` cards /\
    created (trace (snd r)) = (created (trace w) ++ map Batch.outputFileName tried)%list /\
    (fst r = Return -> tried = cards).
Proof.
  revert w r. induction cards as [|c cards IH]; intros w r E.
  - exists []. subst r. split; [done|]. cbn. by rewrite app_nil_r.
  - cbn [Batch.for_cards] in E. unfold bind at 1 in E.
    destruct (Batch_GenerateCard_tidy L Batch.bgImagePath Batch.regularFontPath
                Batch.boldFontPath c w) as [R G].
    destruct (Batch.GenerateCard L _ _ _ c w) as [[img e] w1]. cbn [fst snd] in R, G.
    apply reads_only_created in R.
    destruct e as [err|].
    { exists []. split; [apply prefix_nil|].
      destruct img; rewrite log_Fatalf_run in E; subst r; cbn [fst snd trace add_log map];
        rewrite R, app_nil_r; by split. }
    destruct img as [img|]; [|destruct G as [[[? G] _]|[_ [? G]]]; discriminate G].
    unfold bind at 1 in E.
    destruct (creatable w1 (Batch.outputFileName c)) eqn:Hc.
    2:{ rewrite os_Create_fails in E by exact Hc. rewrite log_Fatalf_run in E. subst r.
        exists [c]. split; [by apply prefix_cons, prefix_nil|].
        cbn [fst snd trace add_log add_trace map]. rewrite created_app, R. by split. }
    rewrite os_Create_run in E by exact Hc. unfold bind at 1 in E.
    destruct (png_size_ok img) eqn:Hs.
    2:{ rewrite png_Encode_file_fails in E by exact Hs. rewrite log_Fatalf_run in E. subst r.
        exists [c]. split; [by apply prefix_cons, prefix_nil|].
        cbn [fst snd trace add_log map]. rewrite created_app, R. by split. }
    rewrite png_Encode_file_run in E by exact Hs. unfold bind at 1, fmt_Printf in E.
    destruct (IH _ _ E) as (tried & Hp & Hd & Hr). exists (c :: tried).
    split; [by apply prefix_cons|]. rewrite Hd.
    cbn [trace files creatable logs stdout map]. rewrite !created_app, R. cbn.
    split; [by rewrite <- !app_assoc|]. intros H. by rewrite (Hr H).
Qed.

(** The same for [main]. *)
Lemma main_created L w :
  exists tried,
    tried `prefix_of` fst (fst (Batch.readCardsFromCSV L Batch.csvPath w)) /\
    created (trace (snd (Batch.main L w)))
    = (created (trace w) ++ map Batch.outputFileName tried)%list /\
    (fst (Batch.main L w) = Return ->
     tried = fst (fst (Batch.readCardsFromCSV L Batch.csvPath w))).
Proof.
  assert (Hnone : forall (cs : list Batch.BusinessCard) (r : Exit * World),
            created (trace (snd r)) = created (trace w) ->
            (fst r = Return -> cs = []) ->
            exists tried,
              tried `prefix_of` cs /\
              created (trace (snd r))
              = (created (trace w) ++ map Batch.outputFileName tried)%list /\
              (fst r = Return -> tried = cs)).
  { intros cs r E Hr. exists []. split; [apply prefix_nil|]. cbn. rewrite app_nil_r.
    split; [exact E|]. intros H. by rewrite (Hr H). }
  destruct (files w !! Batch.bgImagePath) as [d1|] eqn:F1.
  2:{ unfold Batch.main. rewrite exists_or_fatal_run, F1. apply Hnone; [|discriminate].
      cbn. rewrite created_app. cbn. by rewrite app_nil_r. }
  destruct (files w !! Batch.regularFontPath) as [d2|] eqn:F2.
  2:{ unfold Batch.main. rewrite exists_or_fatal_run, F1, exists_or_fatal_run.
      cbn [files add_trace]. rewrite F2. apply Hnone; [|discriminate].
      cbn. rewrite !created_app. cbn. by rewrite !app_nil_r. }
  destruct (files w !! Batch.boldFontPath) as [d3|] eqn:F3.
  2:{ unfold Batch.main. rewrite exists_or_fatal_run, F1, exists_or_fatal_run.
      cbn [files add_trace]. rewrite F2, exists_or_fatal_run. cbn [files add_trace].
      rewrite F3. apply Hnone; [|discriminate].
      cbn. rewrite !created_app. cbn. by rewrite !app_nil_r. }
  destruct (files w !! Batch.csvPath) as [d4|] eqn:F4.
  2:{ unfold Batch.main. rewrite exists_or_fatal_run, F1, exists_or_fatal_run.
      cbn [files add_trace]. rewrite F2, exists_or_fatal_run. cbn [files add_trace].
      rewrite F3, exists_or_fatal_run. cbn [files add_trace]. rewrite F4.
      apply Hnone; [|discriminate]. cbn. rewrite !created_app. cbn. by rewrite !app_nil_r. }
  rewrite (main_checked L w d1 d2 d3 d4 F1 F2 F3 F4).
  rewrite (readCardsFromCSV_fst L Batch.csvPath w (add_trace w checked)) by reflexivity.
  destruct (readCardsFromCSV_frame L Batch.csvPath (add_trace w checked))
    as (_ & _ & T & _).
  destruct (Batch.readCardsFromCSV L Batch.csvPath (add_trace w checked)) as [[cards e] w1].
  cbn [fst snd] in *.
  assert (T1 : created (trace w1) = created (trace w)).
  { rewrite T. cbn [trace add_trace]. rewrite !created_app. cbn. by rewrite !app_nil_r. }
  destruct e as [err|]; [apply Hnone; [exact T1 | discriminate]|].
  destruct (List.length cards =? 0)%nat eqn:E0.
  { apply Hnone; [exact T1|]. intros _. by apply Nat.eqb_eq, nil_length_inv in E0. }
  destruct (for_cards_created L cards w1 _ eq_refl) as (tried & Hp & Hd & Hr).
  exists tried. split; [exact Hp|]. rewrite Hd, T1. by split.
Qed.

(** [main] when the assets are in place and the CSV file is accepted. *)
Lemma main_ready L w pic rfont bfont :
  let cards := fst (fst (Batch.readCardsFromCSV L Batch.csvPath w)) in
  Batch_ready L (files w) pic rfont bfont ->
  png_size_ok (background pic) = true ->
  is_Some (files w !! Batch.csvPath) ->
  snd (fst (Batch.readCardsFromCSV L Batch.csvPath w)) = None ->
  (forall card, In card cards -> creatable w (Batch.outputFileName card) = true) ->
  outputs_apart (files w) cards ->
  exists w1,
    files w1 = files w /\ trace w1 = (trace w ++ checked ++ [EvOpen Batch.csvPath])%list /\
    Batch.main L w
    = (Return, if (List.length cards =? 0)%nat then add_log w1 no_cards
               else foldl (card_done L pic rfont bfont) w1 cards).
Proof.
  intros cards Hr Hs [d4 F4] He Hc Ha.
  pose proof Hr as ((d1 & F1 & _) & (d2 & F2 & _) & (d3 & F3 & _) & _).
  rewrite (main_checked L w d1 d2 d3 d4 F1 F2 F3 F4).
  unfold cards in *.
  rewrite (readCardsFromCSV_fst L Batch.csvPath w (add_trace w checked)) in * by reflexivity.
  destruct (readCardsFromCSV_frame L Batch.csvPath (add_trace w checked))
    as (F & C & T & _).
  destruct (Batch.readCardsFromCSV L Batch.csvPath (add_trace w checked)) as [[cs e] w1].
  cbn [fst snd files creatable trace add_trace] in *. subst e.
  exists w1. split; [exact F|]. split; [by rewrite T, <- app_assoc|].
  destruct (List.length cs =? 0)%nat; [reflexivity|].
  apply for_cards_run; [by rewrite F | exact Hs | | by rewrite F].
  intros c Hin. rewrite C. by apply Hc.
Qed.

(** C5.  The name built for a card (main.go 264-266) is its [Name] with
    every space turned into an underscore, followed by
    "_email_signature.png".  In every run of the batch tool the names
    handed to [os.Create] are, in order, these names of the cards read
    from the CSV file, as far as the run got, and of all the cards when
    [main] returns.  And when the assets are in place, the CSV file is
    accepted, every output name can be created and none names the
    background or a font, the run returns, having created a file under
    the name of every card and written the PNG of the card under that
    name. *)
Theorem output_file_names (L : Libs) (w : World) :
  let cards := fst (fst (Batch.readCardsFromCSV L Batch.csvPath w)) in
  let name := fun card => (underscores (Batch.Name card) ++ "_email_signature.png")%string in
  let w' := snd (Batch.main L w) in
  (forall card, Batch.outputFileName card = name card) /\
  (exists tried,
     tried `prefix_of` cards /\
     created (trace w') = (created (trace w) ++ map name tried)%list /\
     (fst (Batch.main L w) = Return -> tried = cards)) /\
  (forall pic rfont bfont,
     Batch_ready L (files w) pic rfont bfont ->
     png_size_ok (background pic) = true ->
     is_Some (files w !! Batch.csvPath) ->
     snd (fst (Batch.readCardsFromCSV L Batch.csvPath w)) = None ->
     (forall card, In card cards -> creatable w (name card) = true) ->
     outputs_apart (files w) cards ->
     fst (Batch.main L w) = Return /\
     created (trace w') = (created (trace w) ++ map name cards)%list /\
     written (trace w')
     = (written (trace w)
        ++ map (fun card => (name card, Batch_png L pic rfont bfont card)) cards)%list).
Proof.
  intros cards name w'.
  assert (Hname : forall card, Batch.outputFileName card = name card)
    by (intros card; apply outputFileName_spec).
  assert (Hnames : forall cs, map Batch.outputFileName cs = map name cs)
    by (intros cs; apply map_ext; exact Hname).
  split; [exact Hname|]. split.
  - destruct (main_created L w) as (tried & Hp & Hd & Hr).
    exists tried. split; [exact Hp|]. split; [by rewrite <- Hnames | exact Hr].
  - intros pic rfont bfont Hr Hs H4 He Hc Ha.
    destruct (main_ready L w pic rfont bfont Hr Hs H4 He) as (w1 & F & T & Hm);
      [intros card Hin; rewrite Hname; by apply Hc | exact Ha |].
    unfold w'. rewrite Hm. fold cards. cbn [fst snd].
    assert (Tc : created (trace w1) = created (trace w)).
    { rewrite T, !created_app. cbn. by rewrite !app_nil_r. }
    assert (Tw : written (trace w1) = written (trace w)).
    { rewrite T, !written_app. cbn. by rewrite !app_nil_r. }
    split; [reflexivity|].
    destruct (List.length cards =? 0)%nat eqn:E0.
    + apply Nat.eqb_eq, nil_length_inv in E0. rewrite E0. cbn [trace add_log map].
      by rewrite Tc, Tw, !app_nil_r.
    + rewrite cards_done_created, cards_done_written, Tc, Tw, <- Hnames. split; [reflexivity|].
      f_equal. apply map_ext. intros c. by rewrite Hname.
Qed.

(** ** Failures of the batch run *)

Lemma fatal_now w w1 fmt a :
  files w1 = files w -> written (trace w1) = written (trace w) ->
  (exists warnings, logs w1 = (logs w ++ warnings)%list /\
                    Forall (fun e => fatal e = false) warnings) ->
  fatal_exit w (log_Fatalf fmt a w1) /\ nothing_written w (log_Fatalf fmt a w1).
Proof.
  intros F T (ws & Hl & Hw). rewrite log_Fatalf_run. split.
  - split; [reflexivity|]. exists ws, {| fatal := true; format := fmt; args := a |}.
    cbn [snd logs add_log]. rewrite Hl, <- app_assoc. auto.
  - split; [exact F | exact T].
Qed.

Lemma no_warnings (w : World) :
  exists warnings, logs w = (logs w ++ warnings)%list /\
                   Forall (fun e => fatal e = false) warnings.
Proof. exists []. by rewrite app_nil_r. Qed.

Lemma written_reads evs : Forall is_read evs -> written evs = [].
Proof. induction 1 as [|[] ? H ? IH]; cbn in *; try done. Qed.

Lemma reads_only_frame w w' :
  reads_only w w' ->
  files w' = files w /\ creatable w' = creatable w /\ logs w' = logs w /\
  written (trace w') = written (trace w).
Proof.
  intros (evs & -> & H). cbn [files creatable logs trace add_trace].
  by rewrite written_app, (written_reads evs H), app_nil_r.
Qed.

(** A missing input file is fatal. *)
Lemma main_missing L w :
  files w !! Batch.bgImagePath = None \/ files w !! Batch.regularFontPath = None \/
  files w !! Batch.boldFontPath = None \/ files w !! Batch.csvPath = None ->
  fatal_exit w (Batch.main L w) /\ nothing_written w (Batch.main L w).
Proof.
  intros H. unfold Batch.main.
  rewrite exists_or_fatal_run.
  destruct (files w !! Batch.bgImagePath) as [d1|] eqn:F1.
  2:{ rewrite <- log_Fatalf_run. apply fatal_now; [done| |apply (no_warnings w)].
      cbn. rewrite written_app. cbn. by rewrite app_nil_r. }
  rewrite exists_or_fatal_run. cbn [files add_trace].
  destruct (files w !! Batch.regularFontPath) as [d2|] eqn:F2.
  2:{ rewrite <- log_Fatalf_run. apply fatal_now; [done| |apply (no_warnings w)].
      cbn. rewrite !written_app. cbn. by rewrite !app_nil_r. }
  rewrite exists_or_fatal_run. cbn [files add_trace].
  destruct (files w !! Batch.boldFontPath) as [d3|] eqn:F3.
  2:{ rewrite <- log_Fatalf_run. apply fatal_now; [done| |apply (no_warnings w)].
      cbn. rewrite !written_app. cbn. by rewrite !app_nil_r. }
  rewrite exists_or_fatal_run. cbn [files add_trace].
  destruct (files w !! Batch.csvPath) as [d4|] eqn:F4.
  2:{ rewrite <- log_Fatalf_run. apply fatal_now; [done| |apply (no_warnings w)].
      cbn. rewrite !written_app. cbn. by rewrite !app_nil_r. }
  by destruct H as [H|[H|[H|H]]].
Qed.

(** After the checks and the reading of the CSV file nothing is written
    yet, and the log holds warnings at most. *)
Lemma csv_read_frame L w :
  let w1 := snd (Batch.readCardsFromCSV L Batch.csvPath (add_trace w checked)) in
  files w1 = files w /\ creatable w1 = creatable w /\
  written (trace w1) = written (trace w) /\
  exists warnings, logs w1 = (logs w ++ warnings)%list /\
                   Forall (fun e => fatal e = false) warnings.
Proof.
  destruct (readCardsFromCSV_frame L Batch.csvPath (add_trace w checked))
    as (F & C & T & _ & Hl).
  cbv zeta. rewrite F, C, T. repeat split; [|exact Hl].
  cbn [trace add_trace]. rewrite !written_app. cbn. by rewrite !app_nil_r.
Qed.

(** A CSV file that cannot be read is fatal. *)
Lemma main_bad_csv L w d1 d2 d3 d4 err :
  files w !! Batch.bgImagePath = Some d1 ->
  files w !! Batch.regularFontPath = Some d2 ->
  files w !! Batch.boldFontPath = Some d3 ->
  files w !! Batch.csvPath = Some d4 ->
  snd (fst (Batch.readCardsFromCSV L Batch.csvPath w)) = Some err ->
  fatal_exit w (Batch.main L w) /\ nothing_written w (Batch.main L w).
Proof.
  intros F1 F2 F3 F4 He.
  rewrite (main_checked L w d1 d2 d3 d4 F1 F2 F3 F4).
  rewrite (readCardsFromCSV_fst L Batch.csvPath w (add_trace w checked)) in He by reflexivity.
  destruct (csv_read_frame L w) as (F & _ & T & Hl).
  destruct (Batch.readCardsFromCSV L Batch.csvPath (add_trace w checked)) as [[cards e] w1].
  cbn [fst snd] in *. subst e. rewrite <- log_Fatalf_run. by apply fatal_now.
Qed.

Lemma Batch_GenerateCard_undecodable L c w :
  undecodable L (files w) ->
  exists err w1,
    Batch.GenerateCard L Batch.bgImagePath Batch.regularFontPath Batch.boldFontPath c w
    = ((None, Some err), w1) /\ reads_only w w1.
Proof.
  intros Hu.
  destruct (Batch_GenerateCard_tidy L Batch.bgImagePath Batch.regularFontPath
              Batch.boldFontPath c w) as [R G].
  destruct (Batch.GenerateCard L _ _ _ c w) as [[r e] w1] eqn:E. cbn [fst snd] in R, G.
  destruct e as [err|].
  - destruct G as [[_ G]|[G _]]; [discriminate G|]. cbn in G. subst r. eauto.
  - exfalso. apply Batch_GenerateCard_inv in E as (pic & rfont & bfont & Hr).
    destruct Hr as ((d1 & F1 & D1) & (d2 & F2 & D2) & (d3 & F3 & D3) & _).
    destruct Hu as [(d & F & D)|[(d & F & D)|(d & F & D)]]; congruence.
Qed.

(** A background or a font that does not decode is fatal, once there is a
    card to draw. *)
Lemma main_undecodable L w d1 d2 d3 d4 card cards :
  files w !! Batch.bgImagePath = Some d1 ->
  files w !! Batch.regularFontPath = Some d2 ->
  files w !! Batch.boldFontPath = Some d3 ->
  files w !! Batch.csvPath = Some d4 ->
  fst (Batch.readCardsFromCSV L Batch.csvPath w) = (card :: cards, None) ->
  undecodable L (files w) ->
  fatal_exit w (Batch.main L w) /\ nothing_written w (Batch.main L w).
Proof.
  intros F1 F2 F3 F4 He Hu.
  rewrite (main_checked L w d1 d2 d3 d4 F1 F2 F3 F4).
  rewrite (readCardsFromCSV_fst L Batch.csvPath w (add_trace w checked)) in He by reflexivity.
  destruct (csv_read_frame L w) as (F & _ & T & Hl).
  destruct (Batch.readCardsFromCSV L Batch.csvPath (add_trace w checked)) as [[cs e] w1].
  cbn [fst snd] in *. injection He as -> ->. cbn [List.length Nat.eqb Batch.for_cards].
  rewrite <- F in Hu.
  destruct (Batch_GenerateCard_undecodable L card w1 Hu) as (err & w2 & E & R).
  apply reads_only_frame in R as (F' & _ & L' & T').
  unfold bind. rewrite E. apply fatal_now; [congruence | congruence |].
  rewrite L'. exact Hl.
Qed.

Lemma fatal_exit_from w w1 r :
  (exists warnings, logs w1 = (logs w ++ warnings)%list /\
                    Forall (fun e => fatal e = false) warnings) ->
  fatal_exit w1 r -> fatal_exit w r.
Proof.
  intros (ws & Hl & Hw) (E & ws' & entry & Hl' & Hf & Hw').
  split; [exact E|]. exists (ws ++ ws')%list, entry.
  rewrite Hl', Hl, <- !app_assoc. repeat split; [exact Hf|]. by apply Forall_app.
Qed.

(** The loop either gets through all its cards or ends in [log.Fatalf];
    it never goes on after a failure, and never panics. *)
Lemma for_cards_outcome L cards w r :
  Batch.for_cards L cards w = r ->
  (fst r = Return /\ logs (snd r) = logs w /\
   map fst (written (trace (snd r)))
   = (map fst (written (trace w)) ++ map Batch.outputFileName cards)%list) \/
  fatal_exit w r.
Proof.
  revert w r. induction cards as [|c cards IH]; intros w r E.
  - left. subst r. cbn. by rewrite app_nil_r.
  - cbn [Batch.for_cards] in E. unfold bind at 1 in E.
    destruct (Batch_GenerateCard_tidy L Batch.bgImagePath Batch.regularFontPath
                Batch.boldFontPath c w) as [R G].
    destruct (Batch.GenerateCard L _ _ _ c w) as [[img e] w1]. cbn [fst snd] in R, G.
    apply reads_only_frame in R as (F1 & C1 & L1 & T1).
    assert (Hfatal : forall fmt a w2, logs w2 = logs w -> fatal_exit w (log_Fatalf fmt a w2)).
    { intros fmt a w2 Hl. rewrite log_Fatalf_run. split; [reflexivity|].
      exists [], {| fatal := true; format := fmt; args := a |}. cbn. by rewrite Hl. }
    destruct e as [err|]; [right; destruct img; subst r; by apply Hfatal|].
    destruct img as [img|]; [|destruct G as [[[? G] _]|[_ [? G]]]; discriminate G].
    unfold bind at 1 in E.
    destruct (creatable w1 (Batch.outputFileName c)) eqn:Hc.
    2:{ rewrite os_Create_fails in E by exact Hc. right. subst r. by apply Hfatal. }
    rewrite os_Create_run in E by exact Hc. unfold bind at 1 in E.
    destruct (png_size_ok img) eqn:Hs.
    2:{ rewrite png_Encode_file_fails in E by exact Hs. right. subst r. by apply Hfatal. }
    rewrite png_Encode_file_run in E by exact Hs. unfold bind at 1, fmt_Printf in E.
    destruct (IH _ _ E) as [(Er & Hl & Hw)|Hf].
    + left. split; [exact Er|]. split; [by rewrite Hl|]. rewrite Hw.
      cbn [trace files creatable logs stdout map]. rewrite !written_app, !map_app, T1.
      cbn. by rewrite <- !app_assoc.
    + right. eapply fatal_exit_from; [|exact Hf]. exists []. cbn. by rewrite app_nil_r.
Qed.

(** Every run of the batch tool either ends in [log.Fatalf] or returns with
    a file written for every card that [readCardsFromCSV] returned. *)
Lemma main_outcome L w :
  fatal_exit w (Batch.main L w) \/
  clean_return w (fst (fst (Batch.readCardsFromCSV L Batch.csvPath w))) (Batch.main L w).
Proof.
  destruct (files w !! Batch.bgImagePath) as [d1|] eqn:F1;
    [|left; apply main_missing; auto].
  destruct (files w !! Batch.regularFontPath) as [d2|] eqn:F2;
    [|left; apply main_missing; auto].
  destruct (files w !! Batch.boldFontPath) as [d3|] eqn:F3;
    [|left; apply main_missing; auto].
  destruct (files w !! Batch.csvPath) as [d4|] eqn:F4;
    [|left; apply main_missing; auto].
  destruct (snd (fst (Batch.readCardsFromCSV L Batch.csvPath w))) as [err|] eqn:He;
    [left; by eapply main_bad_csv|].
  rewrite (main_checked L w d1 d2 d3 d4 F1 F2 F3 F4).
  rewrite (readCardsFromCSV_fst L Batch.csvPath w (add_trace w checked)) in * by reflexivity.
  destruct (csv_read_frame L w) as (F & _ & T & Hl).
  destruct (Batch.readCardsFromCSV L Batch.csvPath (add_trace w checked)) as [[cards e] w1].
  cbn [fst snd] in *. subst e.
  destruct (List.length cards =? 0)%nat eqn:E0.
  - right. apply Nat.eqb_eq, nil_length_inv in E0. subst cards.
    split; [reflexivity|]. cbn [snd logs trace add_log map]. split.
    + destruct Hl as (ws & Hl & Hw). exists (ws ++ [no_cards])%list.
      rewrite Hl, <- app_assoc. split; [reflexivity|]. apply Forall_app. split; [done|].
      by repeat constructor.
    + by rewrite T, app_nil_r.
  - destruct (for_cards_outcome L cards w1 _ eq_refl) as [(E & Hl' & Hw)|Hf].
    + right. split; [exact E|]. split; [by rewrite Hl'|]. by rewrite Hw, T.
    + left. by eapply fatal_exit_from.
Qed.

(** ** The handlers *)

(** An error response on a writer nothing was sent on: the status is the
    code given, the body the message and a newline, as plain text. *)
Lemma http_Error_fresh rw msg code :
  sent rw = None ->
  status (http_Error rw msg code) = Some code /\
  body (http_Error rw msg code) = body rw ++ msg ++ nl /\
  sent_header (http_Error rw msg code) "Content-Type" = Some "text/plain; charset=utf-8".
Proof.
  intros H. unfold http_Error, Write, WriteHeader, Header_Set, Header_Del, status, sent_header.
  cbn [sent header body]. rewrite H. cbn [sent header body fmap option_fmap option_map fst snd].
  repeat split. cbn. rewrite lookup_insert_ne by done. apply lookup_insert_eq.
Qed.

Lemma png_headers_sent name rw : sent (png_headers name rw) = sent rw.
Proof. reflexivity. Qed.

Lemma png_headers_body name rw : body (png_headers name rw) = body rw.
Proof. reflexivity. Qed.

(** The PNG written on a writer nothing was sent on. *)
Lemma Write_png name rw data :
  sent rw = None ->
  status (Write data (png_headers name rw)) = Some StatusOK /\
  sent_header (Write data (png_headers name rw)) "Content-Type" = Some "image/png" /\
  sent_header (Write data (png_headers name rw)) "Content-Disposition" = Some (attachment name) /\
  body (Write data (png_headers name rw)) = body rw ++ data.
Proof.
  intros H. unfold Write, WriteHeader, png_headers, Header_Set, status, sent_header.
  cbn [sent header body]. rewrite H. cbn [sent header body fmap option_fmap option_map fst snd].
  repeat split; cbn.
  - rewrite lookup_insert_ne by done. apply lookup_insert_eq.
  - apply lookup_insert_eq.
Qed.

Lemma png_headers_stops name rw : stops (png_headers name rw) = stops rw.
Proof. reflexivity. Qed.

(** Once the status is fixed, an error response leaves it, and the
    headers sent, as they are. *)
Lemma http_Error_late rw msg code s :
  sent rw = Some s -> sent (http_Error rw msg code) = Some s.
Proof.
  intros H. destruct rw as [h se b st]. cbn in H. subst se. reflexivity.
Qed.

Lemma Write_sent data rw :
  sent (Write data rw)
  = Some (match sent rw with Some s => s | None => (StatusOK, header rw) end).
Proof. destruct rw as [h [s|] b st]; reflexivity. Qed.

(** The three ways [png.Encode] on a response writer ends. *)
Lemma png_Encode_response_cases L rw m :
  (png_size_ok m = false /\ png_Encode_response L rw m = (rw, Some ErrPngSize)) \/
  (png_size_ok m = true /\ stops rw (png_bytes L m) = None /\
   png_Encode_response L rw m = (Write (png_bytes L m) rw, None)) \/
  (png_size_ok m = true /\ exists n,
     stops rw (png_bytes L m) = Some n /\
     png_Encode_response L rw m = (Write (substring 0 n (png_bytes L m)) rw, Some ErrWrite)).
Proof.
  unfold png_Encode_response, png_Encode. destruct (png_size_ok m); [|by left].
  right. destruct (stops rw (png_bytes L m)) as [n|]; [right | left]; eauto.
Qed.

Lemma ParseForm_run r w :
  ParseForm r w =
  (match Form r with
   | Some _ => (r, None)
   | None => ({| Method := Method r; form_data := form_data r;
                 Form := Some (fst (form_data r)) |}, snd (form_data r))
   end, add_trace w [EvParseForm]).
Proof. reflexivity. Qed.

Lemma not_POST r : Method r <> "POST" -> negb (String.eqb (Method r) "POST") = true.
Proof. intros H. apply negb_true_iff. by apply String.eqb_neq. Qed.

Lemma is_POST r : Method r = "POST" -> negb (String.eqb (Method r) "POST") = false.
Proof. intros ->. reflexivity. Qed.

Section Handlers.
Context (L : Libs).

Lemma CardServer_not_POST rw r w :
  Method r <> "POST" ->
  CardServer.cardHandler L rw r w
  = (Responded (http_Error rw "Method not allowed" StatusMethodNotAllowed) r, w).
Proof. intros H. unfold CardServer.cardHandler. by rewrite (not_POST r H). Qed.

Lemma FooterServer_not_POST rw r w :
  Method r <> "POST" ->
  FooterServer.cardHandler L rw r w
  = (Responded (http_Error rw "Method not allowed" StatusMethodNotAllowed) r, w).
Proof. intros H. unfold FooterServer.cardHandler. by rewrite (not_POST r H). Qed.

Lemma CardServer_bad_form rw r w r1 e w1 :
  Method r = "POST" -> ParseForm r w = ((r1, Some e), w1) ->
  CardServer.cardHandler L rw r w
  = (Responded (http_Error rw "Failed to parse form data" StatusBadRequest) r1, w1).
Proof.
  intros Hm Hp. unfold CardServer.cardHandler. rewrite (is_POST r Hm).
  unfold bind. by rewrite Hp.
Qed.

Lemma FooterServer_bad_form rw r w r1 e w1 :
  Method r = "POST" -> ParseForm r w = ((r1, Some e), w1) ->
  FooterServer.cardHandler L rw r w
  = (Responded (http_Error rw "Failed to parse form data" StatusBadRequest) r1, w1).
Proof.
  intros Hm Hp. unfold FooterServer.cardHandler. rewrite (is_POST r Hm).
  unfold bind. by rewrite Hp.
Qed.

Lemma CardServer_generate_failed rw r w r1 w1 o e w2 :
  Method r = "POST" -> ParseForm r w = ((r1, None), w1) ->
  CardServer.GenerateCard L CardServer.bgImagePath CardServer.regularFontPath
    CardServer.boldFontPath CardServer.italicFontPath (CardServer.card_of_form r1) w1
  = ((o, Some e), w2) ->
  CardServer.cardHandler L rw r w
  = (Responded (http_Error rw "Failed to generate business card image"
                  StatusInternalServerError) r1,
     add_log w2 (generate_failed e)).
Proof.
  intros Hm Hp Hg. unfold CardServer.cardHandler. rewrite (is_POST r Hm).
  unfold bind. rewrite Hp, Hg. by destruct o.
Qed.

Lemma FooterServer_generate_failed rw r w r1 w1 o e w2 :
  Method r = "POST" -> ParseForm r w = ((r1, None), w1) ->
  FooterServer.GenerateCard L FooterServer.bgImagePath FooterServer.regularFontPath
    FooterServer.boldFontPath (FooterServer.card_of_form r1) w1
  = ((o, Some e), w2) ->
  FooterServer.cardHandler L rw r w
  = (Responded (http_Error rw "Failed to generate business card image"
                  StatusInternalServerError) r1,
     add_log w2 (generate_failed e)).
Proof.
  intros Hm Hp Hg. unfold FooterServer.cardHandler. rewrite (is_POST r Hm).
  unfold bind. rewrite Hp, Hg. by destruct o.
Qed.

Lemma CardServer_encoded rw r w r1 w1 img w2 :
  Method r = "POST" -> ParseForm r w = ((r1, None), w1) ->
  CardServer.GenerateCard L CardServer.bgImagePath CardServer.regularFontPath
    CardServer.boldFontPath CardServer.italicFontPath (CardServer.card_of_form r1) w1
  = ((Some img, None), w2) ->
  CardServer.cardHandler L rw r w
  = match png_Encode_response L (png_headers "emailsignature.png" rw) img with
    | (rw', None) => (Responded rw' r1, w2)
    | (rw', Some e) => (Responded (http_Error rw' "Failed to encode PNG image"
                                     StatusInternalServerError) r1,
                        add_log w2 (encode_failed e))
    end.
Proof.
  intros Hm Hp Hg. unfold CardServer.cardHandler. rewrite (is_POST r Hm).
  unfold bind. rewrite Hp, Hg. unfold png_headers, attachment. cbv zeta.
  by destruct (png_Encode_response L _ img) as [rw' [e|]].
Qed.

Lemma FooterServer_encoded rw r w r1 w1 img w2 :
  Method r = "POST" -> ParseForm r w = ((r1, None), w1) ->
  FooterServer.GenerateCard L FooterServer.bgImagePath FooterServer.regularFontPath
    FooterServer.boldFontPath (FooterServer.card_of_form r1) w1
  = ((Some img, None), w2) ->
  FooterServer.cardHandler L rw r w
  = match png_Encode_response L (png_headers "EmailSignature.png" rw) img with
    | (rw', None) => (Responded rw' r1, w2)
    | (rw', Some e) => (Responded (http_Error rw' "Failed to encode PNG image"
                                     StatusInternalServerError) r1,
                        add_log w2 (encode_failed e))
    end.
Proof.
  intros Hm Hp Hg. unfold FooterServer.cardHandler. rewrite (is_POST r Hm).
  unfold bind. rewrite Hp, Hg. unfold png_headers, attachment. cbv zeta.
  by destruct (png_Encode_response L _ img) as [rw' [e|]].
Qed.

End Handlers.

(** ** C6: the PNG response *)


(** ** C9: requests that are not POST *)

(** C9.  For a request whose method is not POST both handlers return at
    once with the error response "Method not allowed", status 405: the
    world is as before (no form was parsed, no file was opened, nothing was
    logged) and so is the request. *)
Theorem method_not_allowed (L : Libs) (rw : ResponseWriter) (r : Request) (w : World) :
  Method r <> "POST" ->
  CardServer.cardHandler L rw r w
  = (Responded (http_Error rw "Method not allowed" 405) r, w) /\
  FooterServer.cardHandler L rw r w
  = (Responded (http_Error rw "Method not allowed" 405) r, w) /\
  (sent rw = None ->
   status (http_Error rw "Method not allowed" 405) = Some 405 /\
   body (http_Error rw "Method not allowed" 405) = body rw ++ "Method not allowed" ++ nl).
Proof.
  intros H. split; [by apply CardServer_not_POST|]. split; [by apply FooterServer_not_POST|].
  intros Hs. destruct (http_Error_fresh rw "Method not allowed" 405 Hs) as (S1 & S2 & _).
  by split.
Qed.

(** ** Failures, as the programs surface them *)

(** X21.  The batch tool: a missing input file, a CSV file that
    [readCardsFromCSV] rejects, and a background or font that does not
    decode when there is a card to draw, each end the run in [log.Fatalf]
    (exit status 1, the fatal entry last in the log) with nothing written;
    and every run either ends in [log.Fatalf] or returns having written a
    file for every card read, so no failure is passed over.  The servers, on
    a writer on which nothing was sent yet: a form that does not parse is
    answered with status 400 before any file is opened; a failure of
    [GenerateCard], and an image of a size [png.Encode] refuses, are
    answered with status 500; in each of these cases the body is the error
    message alone and the failure is logged once where the code logs it.
    When a write of the encoding fails, the failure is logged, but the
    status is 200 and the headers are those of the PNG: they went out with
    the first write, and the error response comes too late to change
    them. *)
Theorem failures (L : Libs) :
  (forall w,
     files w !! Batch.bgImagePath = None \/ files w !! Batch.regularFontPath = None \/
     files w !! Batch.boldFontPath = None \/ files w !! Batch.csvPath = None ->
     fatal_exit w (Batch.main L w) /\ nothing_written w (Batch.main L w)) /\
  (forall w d1 d2 d3 d4 err,
     files w !! Batch.bgImagePath = Some d1 ->
     files w !! Batch.regularFontPath = Some d2 ->
     files w !! Batch.boldFontPath = Some d3 ->
     files w !! Batch.csvPath = Some d4 ->
     snd (fst (Batch.readCardsFromCSV L Batch.csvPath w)) = Some err ->
     fatal_exit w (Batch.main L w) /\ nothing_written w (Batch.main L w)) /\
  (forall w d1 d2 d3 d4 card cards,
     files w !! Batch.bgImagePath = Some d1 ->
     files w !! Batch.regularFontPath = Some d2 ->
     files w !! Batch.boldFontPath = Some d3 ->
     files w !! Batch.csvPath = Some d4 ->
     fst (Batch.readCardsFromCSV L Batch.csvPath w) = (card :: cards, None) ->
     undecodable L (files w) ->
     fatal_exit w (Batch.main L w) /\ nothing_written w (Batch.main L w)) /\
  (forall w,
     fatal_exit w (Batch.main L w) \/
     clean_return w (fst (fst (Batch.readCardsFromCSV L Batch.csvPath w))) (Batch.main L w)) /\
  (forall rw r w r1 e w1,
     Method r = "POST" -> sent rw = None ->
     ParseForm r w = ((r1, Some e), w1) ->
     exists rw',
       CardServer.cardHandler L rw r w = (Responded rw' r1, w1) /\
       FooterServer.cardHandler L rw r w = (Responded rw' r1, w1) /\
       status rw' = Some 400 /\ body rw' = body rw ++ "Failed to parse form data" ++ nl /\
       w1 = add_trace w [EvParseForm]) /\
  (forall rw r w r1 w1 o e w2,
     Method r = "POST" -> sent rw = None ->
     ParseForm r w = ((r1, None), w1) ->
     CardServer.GenerateCard L CardServer.bgImagePath CardServer.regularFontPath
       CardServer.boldFontPath CardServer.italicFontPath (CardServer.card_of_form r1) w1
     = ((o, Some e), w2) ->
     exists rw',
       CardServer.cardHandler L rw r w = (Responded rw' r1, add_log w2 (generate_failed e)) /\
       status rw' = Some 500 /\
       body rw' = body rw ++ "Failed to generate business card image" ++ nl) /\
  (forall rw r w r1 w1 o e w2,
     Method r = "POST" -> sent rw = None ->
     ParseForm r w = ((r1, None), w1) ->
     FooterServer.GenerateCard L FooterServer.bgImagePath FooterServer.regularFontPath
       FooterServer.boldFontPath (FooterServer.card_of_form r1) w1
     = ((o, Some e), w2) ->
     exists rw',
       FooterServer.cardHandler L rw r w = (Responded rw' r1, add_log w2 (generate_failed e)) /\
       status rw' = Some 500 /\
       body rw' = body rw ++ "Failed to generate business card image" ++ nl) /\
  (forall rw r w r1 w1 img w2 e,
     Method r = "POST" -> sent rw = None ->
     ParseForm r w = ((r1, None), w1) ->
     CardServer.GenerateCard L CardServer.bgImagePath CardServer.regularFontPath
       CardServer.boldFontPath CardServer.italicFontPath (CardServer.card_of_form r1) w1
     = ((Some img, None), w2) ->
     png_Encode L img = Err e ->
     exists rw',
       CardServer.cardHandler L rw r w = (Responded rw' r1, add_log w2 (encode_failed e)) /\
       status rw' = Some 500 /\ body rw' = body rw ++ "Failed to encode PNG image" ++ nl) /\
  (forall rw r w r1 w1 img w2 e,
     Method r = "POST" -> sent rw = None ->
     ParseForm r w = ((r1, None), w1) ->
     FooterServer.GenerateCard L FooterServer.bgImagePath FooterServer.regularFontPath
       FooterServer.boldFontPath (FooterServer.card_of_form r1) w1
     = ((Some img, None), w2) ->
     png_Encode L img = Err e ->
     exists rw',
       FooterServer.cardHandler L rw r w = (Responded rw' r1, add_log w2 (encode_failed e)) /\
       status rw' = Some 500 /\ body rw' = body rw ++ "Failed to encode PNG image" ++ nl) /\
  (forall rw r w r1 w1 img w2 data n,
     Method r = "POST" -> sent rw = None ->
     ParseForm r w = ((r1, None), w1) ->
     CardServer.GenerateCard L CardServer.bgImagePath CardServer.regularFontPath
       CardServer.boldFontPath CardServer.italicFontPath (CardServer.card_of_form r1) w1
     = ((Some img, None), w2) ->
     png_Encode L img = Ok data -> stops rw data = Some n ->
     exists rw',
       CardServer.cardHandler L rw r w
       = (Responded rw' r1, add_log w2 (encode_failed ErrWrite)) /\
       status rw' = Some 200 /\ sent_header rw' "Content-Type" = Some "image/png") /\
  (forall rw r w r1 w1 img w2 data n,
     Method r = "POST" -> sent rw = None ->
     ParseForm r w = ((r1, None), w1) ->
     FooterServer.GenerateCard L FooterServer.bgImagePath FooterServer.regularFontPath
       FooterServer.boldFontPath (FooterServer.card_of_form r1) w1
     = ((Some img, None), w2) ->
     png_Encode L img = Ok data -> stops rw data = Some n ->
     exists rw',
       FooterServer.cardHandler L rw r w
       = (Responded rw' r1, add_log w2 (encode_failed ErrWrite)) /\
       status rw' = Some 200 /\ sent_header rw' "Content-Type" = Some "image/png").
Proof.
  split; [apply main_missing|]. split; [apply main_bad_csv|].
  split; [apply main_undecodable|]. split; [apply main_outcome|].
  split; [|split; [|split; [|split; [|split; [|split]]]]].
  - intros * Hm Hs Hp. eexists.
    rewrite (CardServer_bad_form L rw r w r1 e w1 Hm Hp).
    rewrite (FooterServer_bad_form L rw r w r1 e w1 Hm Hp).
    destruct (http_Error_fresh rw "Failed to parse form data" StatusBadRequest Hs)
      as (S1 & S2 & _).
    repeat split; try done. rewrite ParseForm_run in Hp. by inversion Hp.
  - intros * Hm Hs Hp Hg. eexists.
    rewrite (CardServer_generate_failed L rw r w r1 w1 o e w2 Hm Hp Hg).
    destruct (http_Error_fresh rw "Failed to generate business card image"
                StatusInternalServerError Hs) as (S1 & S2 & _).
    by repeat split.
  - intros * Hm Hs Hp Hg. eexists.
    rewrite (FooterServer_generate_failed L rw r w r1 w1 o e w2 Hm Hp Hg).
    destruct (http_Error_fresh rw "Failed to generate business card image"
                StatusInternalServerError Hs) as (S1 & S2 & _).
    by repeat split.
  - intros * Hm Hs Hp Hg He. eexists.
    rewrite (CardServer_encoded L rw r w r1 w1 img w2 Hm Hp Hg).
    unfold png_Encode_response. rewrite He.
    destruct (http_Error_fresh (png_headers "emailsignature.png" rw)
                "Failed to encode PNG image" StatusInternalServerError Hs) as (S1 & S2 & _).
    by repeat split.
  - intros * Hm Hs Hp Hg He. eexists.
    rewrite (FooterServer_encoded L rw r w r1 w1 img w2 Hm Hp Hg).
    unfold png_Encode_response. rewrite He.
    destruct (http_Error_fresh (png_headers "EmailSignature.png" rw)
                "Failed to encode PNG image" StatusInternalServerError Hs) as (S1 & S2 & _).
    by repeat split.
  - intros * Hm Hs Hp Hg He Hw. eexists.
    rewrite (CardServer_encoded L rw r w r1 w1 img w2 Hm Hp Hg).
    unfold png_Encode_response. rewrite He, png_headers_stops, Hw.
    split; [reflexivity|].
    destruct (Write_png "emailsignature.png" rw (substring 0 n data) Hs) as (S1 & S2 & _).
    unfold status, sent_header in *.
    destruct (sent (Write (substring 0 n data) (png_headers "emailsignature.png" rw)))
      as [s|] eqn:E; [|discriminate].
    by rewrite (http_Error_late _ _ _ s E).
  - intros * Hm Hs Hp Hg He Hw. eexists.
    rewrite (FooterServer_encoded L rw r w r1 w1 img w2 Hm Hp Hg).
    unfold png_Encode_response. rewrite He, png_headers_stops, Hw.
    split; [reflexivity|].
    destruct (Write_png "EmailSignature.png" rw (substring 0 n data) Hs) as (S1 & S2 & _).
    unfold status, sent_header in *.
    destruct (sent (Write (substring 0 n data) (png_headers "EmailSignature.png" rw)))
      as [s|] eqn:E; [|discriminate].
    by rewrite (http_Error_late _ _ _ s E).
Qed.

(** ** C2: short rows *)

(** Once the header has fixed the field count, a record of another length
    ends the loop with [ErrFieldCount], whatever came before it and whatever
    follows: the test on its length is never reached. *)
Lemma read_loop_wrong_count n before row after cards w :
  (0 < n)%nat ->
  (forall r, In r before -> raw_err r = None /\ List.length (raw_fields r) = n) ->
  raw_err row = None -> List.length (raw_fields row) <> n ->
  fst (Batch.read_loop (Z.of_nat n) (before ++ row :: after) cards w)
  = ([], Some (ErrWrap "failed to read CSV record: %w" (ErrCsv ErrFieldCount))).
Proof.
  intros Hn Hb He Hl. revert cards w.
  induction before as [|r before IH]; intros cards w.
  - cbn [app Batch.read_loop]. unfold readRecord. rewrite He.
    replace (0 <? Z.of_nat n) with true by (symmetry; apply Z.ltb_lt; lia).
    replace (Z.of_nat (List.length (raw_fields row)) =? Z.of_nat n) with false
      by (symmetry; apply Z.eqb_neq; lia).
    reflexivity.
  - destruct (Hb r (or_introl eq_refl)) as [Er Lr].
    assert (Hb' : forall r', In r' before ->
                    raw_err r' = None /\ List.length (raw_fields r') = n)
      by (intros r' Hr'; apply Hb; by right).
    cbn [app Batch.read_loop]. unfold readRecord. rewrite Er, Lr.
    replace (0 <? Z.of_nat n) with true by (symmetry; apply Z.ltb_lt; lia).
    rewrite Z.eqb_refl. cbn [negb andb option_map]. rewrite Lr.
    destruct (n <? 7)%nat; [|by apply IH].
    unfold bind. rewrite log_Printf_run. by apply IH.
Qed.

(** The test on the length only ever fires when the header itself has
    fewer than seven fields: then every record has the header's length, is
    skipped with a warning, and no card is returned. *)
Lemma read_loop_all_short n rows cards w :
  (0 < n < 7)%nat ->
  (forall r, In r rows -> raw_err r = None /\ List.length (raw_fields r) = n) ->
  Batch.read_loop (Z.of_nat n) rows cards w
  = ((cards, None),
     {| files := files w; creatable := creatable w;
        logs := logs w ++ map (fun r => skipped (raw_fields r)) rows;
        stdout := stdout w; trace := trace w |}).
Proof.
  intros Hn. revert w. induction rows as [|r rows IH]; intros w H.
  - cbn. unfold ret. f_equal. apply World_eq; cbn; try reflexivity. by rewrite app_nil_r.
  - destruct (H r (or_introl eq_refl)) as [Er Lr].
    cbn [Batch.read_loop]. unfold readRecord. rewrite Er, Lr.
    replace (0 <? Z.of_nat n) with true by (symmetry; apply Z.ltb_lt; lia).
    rewrite Z.eqb_refl. cbn [negb andb option_map]. rewrite Lr.
    replace (n <? 7)%nat with true by (symmetry; apply Nat.ltb_lt; lia).
    unfold bind. rewrite log_Printf_run, IH by (intros r' Hr'; apply H; by right).
    f_equal. apply World_eq; cbn [files creatable logs stdout trace add_log map];
      try reflexivity.
    unfold skipped. rewrite Lr. by rewrite <- app_assoc.
Qed.

(** * Further properties of the code *)

(** ** The phone number *)

Lemma digit_bytes_all_digits (s : string) : all_digits (digit_bytes s) = true.
Proof.
  induction s as [|c s IH]; [reflexivity|].
  cbn [digit_bytes]. destruct (is_digit c) eqn:E; [|exact IH].
  cbn [all_digits]. by rewrite E, IH.
Qed.

Lemma digit_bytes_fixed (s : string) : all_digits s = true -> digit_bytes s = s.
Proof.
  induction s as [|c s IH]; [reflexivity|].
  cbn [all_digits digit_bytes]. intros [Hc Hs]%andb_true_iff.
  by rewrite Hc, IH.
Qed.

Lemma digit_bytes_app (a b : string) : digit_bytes (a ++ b) = digit_bytes a ++ digit_bytes b.
Proof.
  induction a as [|c a IH]; [reflexivity|].
  simpl. destruct (is_digit c); simpl; by rewrite IH.
Qed.

Lemma all_digits_app (a b : string) : all_digits (a ++ b) = all_digits a && all_digits b.
Proof.
  induction a as [|c a IH]; [reflexivity|].
  simpl. by rewrite IH, andb_assoc.
Qed.

(** X1.  The digit filter of the two servers ([strings.Map] with the
    function that keeps the runes '0'..'9') returns exactly the ASCII digit
    bytes of its argument, in order, for every byte string, well-formed
    UTF-8 or not: no byte of a multi-byte or invalid encoding is taken for a
    digit, and none hides a digit that follows.  The result consists of
    digits only, and filtering it again changes nothing. *)
Theorem digitsOnly_is_digit_filter (s : string) :
  digitsOnly s = digit_bytes s /\
  String.length (digitsOnly s) = count_digits s /\
  all_digits (digitsOnly s) = true /\
  digitsOnly (digitsOnly s) = digitsOnly s.
Proof.
  split; [apply digitsOnly_bytes|]. split; [apply digitsOnly_length|].
  rewrite !digitsOnly_bytes. split; [apply digit_bytes_all_digits|].
  apply digit_bytes_fixed, digit_bytes_all_digits.
Qed.

(** X2.  Formatting a phone number keeps its digits, in order; a formatted
    number of ten digits is fourteen bytes long; and formatting is
    idempotent: a number that went through [formattedPhone] once comes out
    of it unchanged. *)
Theorem formattedPhone_idempotent (p : string) :
  digit_bytes (formattedPhone p) = digit_bytes p /\
  formattedPhone (formattedPhone p) = formattedPhone p /\
  (count_digits p = 10%nat -> String.length (formattedPhone p) = 14%nat).
Proof.
  assert (Hd : digit_bytes (formattedPhone p) = digit_bytes p).
  { destruct (Nat.eq_dec (count_digits p) 10) as [H|H];
      [|by rewrite formattedPhone_other].
    destruct (formattedPhone_ten p H) as (a & b & c & d & e & f & g & h & i & j & HD & HF).
    rewrite digitsOnly_bytes in HD. rewrite HF, HD.
    pose proof (digit_bytes_all_digits p) as Ha. rewrite HD in Ha.
    rewrite !all_digits_app in Ha.
    apply andb_true_iff in Ha as [H1 [H2 H3]%andb_true_iff].
    rewrite !digit_bytes_app.
    rewrite (digit_bytes_fixed _ H1), (digit_bytes_fixed _ H2), (digit_bytes_fixed _ H3).
    reflexivity. }
  split; [exact Hd|]. split.
  - unfold formattedPhone at 1. rewrite digitsOnly_bytes, Hd.
    unfold formattedPhone. rewrite digitsOnly_bytes.
    by destruct (String.length (digit_bytes p) =? 10)%nat.
  - intros H.
    destruct (formattedPhone_ten p H) as (a & b & c & d & e & f & g & h & i & j & _ & ->).
    reflexivity.
Qed.

(** ** The output file name *)

Lemma map_bytes_length f s : String.length (map_bytes f s) = String.length s.
Proof. induction s as [|c s IH]; cbn; [done | by rewrite IH]. Qed.

Lemma length_append (a b : string) :
  String.length (a ++ b) = (String.length a + String.length b)%nat.
Proof. induction a as [|c a IH]; simpl; [done | by rewrite IH]. Qed.

Lemma contains_byte_app c (a b : string) :
  contains_byte c (a ++ b) = contains_byte c a || contains_byte c b.
Proof. induction a as [|d a IH]; simpl; [done | by rewrite IH, orb_assoc]. Qed.

Lemma underscores_no_space s : contains_byte " " (underscores s) = false.
Proof.
  induction s as [|c s IH]; [reflexivity|].
  unfold underscores in *. cbn [map_bytes contains_byte]. rewrite IH, orb_false_r.
  destruct (Ascii.eqb_spec c " ") as [->|N]; [reflexivity|].
  apply Ascii.eqb_neq. congruence.
Qed.

Lemma underscores_fixed s : contains_byte " " s = false -> underscores s = s.
Proof.
  induction s as [|c s IH]; [reflexivity|].
  unfold underscores in *. cbn [map_bytes contains_byte].
  intros [Hc Hs]%orb_false_iff. rewrite IH by exact Hs.
  rewrite Ascii.eqb_sym in Hc. by rewrite Hc.
Qed.

Lemma underscores_prefix s pre :
  contains_byte " " pre = false -> HasPrefix s pre = true -> HasPrefix (underscores s) pre = true.
Proof.
  revert s. induction pre as [|c pre IH]; intros s; [intros; apply HasPrefix_empty|].
  cbn [contains_byte]. intros [Hc Hp]%orb_false_iff.
  destruct s as [|d s]; [discriminate|].
  unfold underscores in *. cbn [HasPrefix map_bytes].
  destruct (Ascii.eqb_spec c d) as [<-|]; [|discriminate].
  rewrite Ascii.eqb_sym in Hc. rewrite Hc, Ascii.eqb_refl. by apply IH.
Qed.

Lemma HasPrefix_app s t pre : HasPrefix s pre = true -> HasPrefix (s ++ t) pre = true.
Proof.
  revert s. induction pre as [|c pre IH]; intros s; [intros; apply HasPrefix_empty|].
  destruct s as [|d s]; [discriminate|]. simpl.
  destruct (Ascii.eqb c d); [apply IH | discriminate].
Qed.

(** X3.  The output file name of a card holds no space, is twenty bytes
    longer than the name, and is the name itself followed by
    "_email_signature.png" when the name holds no space.  Nothing but
    spaces is replaced: a name that starts with a directory prefix such as
    "../" gives a file name that starts with it too.  And no output name is
    the path of one of the four input files. *)
Theorem outputFileName_shape (card : Batch.BusinessCard) :
  contains_byte " " (Batch.outputFileName card) = false /\
  String.length (Batch.outputFileName card) = (String.length (Batch.Name card) + 20)%nat /\
  (contains_byte " " (Batch.Name card) = false ->
   Batch.outputFileName card = Batch.Name card ++ "_email_signature.png") /\
  (forall pre, contains_byte " " pre = false -> HasPrefix (Batch.Name card) pre = true ->
               HasPrefix (Batch.outputFileName card) pre = true) /\
  ~ In (Batch.outputFileName card)
       [Batch.bgImagePath; Batch.regularFontPath; Batch.boldFontPath; Batch.csvPath].
Proof.
  rewrite outputFileName_spec. repeat split.
  - by rewrite contains_byte_app, underscores_no_space.
  - unfold underscores. by rewrite length_append, map_bytes_length.
  - intros H. by rewrite underscores_fixed.
  - intros pre Hp Hs. by apply HasPrefix_app, underscores_prefix.
  - intros H.
    pose proof (HasSuffix_app (underscores (Batch.Name card)) "_email_signature.png") as S.
    cbn [In] in H. destruct H as [E|[E|[E|[E|[]]]]]; rewrite <- E in S; discriminate S.
Qed.

(** ** drawText *)

Lemma fixed_I_exact (i : Z) : - 2 ^ 25 <= i < 2 ^ 25 -> fixed_I i = 64 * i.
Proof.
  intros H. unfold fixed_I, wrap32. rewrite Z.shiftl_mul_pow2 by lia.
  change (2 ^ 6) with 64. change (2 ^ 25) with 33554432 in H.
  change (2 ^ 31) with 2147483648. change (2 ^ 32) with 4294967296.
  rewrite Z.mod_small by lia. lia.
Qed.

(** X4.  [drawText] issues exactly one [DrawString], after everything
    painted before, and leaves the rectangle of the image alone.  For
    coordinates that fit the 26.6 fixed-point format the dot is put at 64
    times the pixel coordinates, so the pixel position is recovered by
    dividing by 64. *)
Theorem drawText_one_call (site : Field) (img : RGBA) (f : Face) (text : string)
    (x y : Z) (c : Color) :
  - 2 ^ 25 <= x < 2 ^ 25 -> - 2 ^ 25 <= y < 2 ^ 25 ->
  let img' := drawText site img f text x y c in
  Rect img' = Rect img /\
  Pix img'
  = (Pix img ++ [PaintString site {| Src := c; face := f;
                                     Dot := {| X := 64 * x; Y := 64 * y |} |} text])%list /\
  draw_calls img'
  = (draw_calls img ++ [(site, {| Src := c; face := f;
                                  Dot := {| X := 64 * x; Y := 64 * y |} |}, text)])%list /\
  baselines img' = (baselines img ++ [(site, y)])%list.
Proof.
  intros Hx Hy img'. unfold img', drawText, baselines, draw_calls. cbn [Rect Pix].
  rewrite (fixed_I_exact x Hx), (fixed_I_exact y Hy).
  split; [reflexivity|]. split; [reflexivity|].
  rewrite omap_app. cbn [omap list_omap]. split; [reflexivity|].
  rewrite map_app. cbn [map fst snd Dot Y]. do 2 f_equal.
  rewrite Z.mul_comm. by rewrite Z.div_mul.
Qed.

(** ** Reading the cards *)

Lemma add_logs_nil w : add_logs w [] = w.
Proof. destruct w; unfold add_logs; cbn. by rewrite app_nil_r. Qed.

Lemma add_log_logs w e es : add_logs (add_log w e) es = add_logs w (e :: es).
Proof. unfold add_logs, add_log; cbn. by rewrite <- app_assoc. Qed.

Lemma readRecord_fixed (n : nat) (row : RawRecord) :
  (0 < n)%nat ->
  readRecord (Z.of_nat n) row
  = (raw_fields row, option_map ErrCsv (row_error n row), Z.of_nat n).
Proof.
  intros Hn. unfold readRecord, row_error.
  replace (0 <? Z.of_nat n) with true by (symmetry; apply Z.ltb_lt; lia).
  destruct (raw_err row) as [e|]; cbn [option_map].
  - rewrite bool_decide_eq_true_2 by eauto. by rewrite andb_false_r.
  - rewrite bool_decide_eq_false_2 by (intros [? ?]; discriminate).
    destruct (Nat.eqb_spec (List.length (raw_fields row)) n) as [E|E].
    + rewrite E, Z.eqb_refl. reflexivity.
    + replace (Z.of_nat (List.length (raw_fields row)) =? Z.of_nat n) with false
        by (symmetry; apply Z.eqb_neq; lia).
      reflexivity.
Qed.

Lemma row_error_None n row :
  row_error n row = None -> raw_err row = None /\ List.length (raw_fields row) = n.
Proof.
  unfold row_error. destruct (raw_err row); [discriminate|].
  destruct (Nat.eqb_spec (List.length (raw_fields row)) n); [auto | discriminate].
Qed.

(** The loop under a field count fixed at [n]. *)
Lemma read_loop_fixed (n : nat) (rows : list RawRecord) cards w :
  (0 < n)%nat ->
  Batch.read_loop (Z.of_nat n) rows cards w
  = (match snd (accepted n rows) with
     | Some e => ([], Some (ErrWrap "failed to read CSV record: %w" (ErrCsv e)))
     | None =>
         ((cards ++ if (n <? 7)%nat then []
                    else map (fun row => Batch.card_of_record (raw_fields row)) rows)%list,
          None)
     end,
     add_logs w (if (n <? 7)%nat
                 then map (fun row => skipped (raw_fields row)) (fst (accepted n rows))
                 else [])).
Proof.
  intros Hn. revert cards w. induction rows as [|row rows IH]; intros cards w.
  - cbn [Batch.read_loop accepted fst snd map]. unfold ret.
    destruct (n <? 7)%nat; by rewrite add_logs_nil, app_nil_r.
  - cbn [Batch.read_loop accepted]. rewrite (readRecord_fixed n row Hn).
    destruct (row_error n row) as [e|] eqn:E; cbn [option_map].
    + cbn [fst snd map]. unfold ret. destruct (n <? 7)%nat; by rewrite add_logs_nil.
    + apply row_error_None in E as [_ El]. rewrite El.
      destruct (accepted n rows) as [ok bad] eqn:Ea. cbn [fst snd] in *.
      destruct (n <? 7)%nat eqn:E7.
      * unfold bind. rewrite log_Printf_run, IH. cbn [map]. rewrite add_log_logs.
        unfold skipped at 2. rewrite El. reflexivity.
      * rewrite IH. destruct bad; [reflexivity|].
        cbn [map]. by rewrite <- app_assoc.
Qed.

(** X5.  [readCardsFromCSV] on a file whose first record has no quoting
    error.  The first record fixes the number of fields, n.  The first data
    record with a quoting error or with a number of fields other than n
    ends the call with the error "failed to read CSV record" and no card at
    all; when there is none, every data record becomes a card if n is at
    least seven, and none does if n is below seven.  So the call never
    returns some rows and skips others.  Warnings are logged only if n is
    below seven, one for each record accepted. *)
Theorem readCardsFromCSV_all_or_nothing (L : Libs) (w : World) (p file : string)
    (header : RawRecord) (rows : list RawRecord) :
  files w !! p = Some file ->
  csv_lex L file = header :: rows ->
  raw_err header = None ->
  raw_fields header <> [] ->
  let n := List.length (raw_fields header) in
  fst (Batch.readCardsFromCSV L p w)
  = match snd (accepted n rows) with
    | Some e => ([], Some (ErrWrap "failed to read CSV record: %w" (ErrCsv e)))
    | None =>
        (if (n <? 7)%nat then []
         else map (fun row => Batch.card_of_record (raw_fields row)) rows, None)
    end /\
  logs (snd (Batch.readCardsFromCSV L p w))
  = (logs w ++ if (n <? 7)%nat
               then map (fun row => skipped (raw_fields row)) (fst (accepted n rows))
               else [])%list.
Proof.
  intros F Hlex He Hne n.
  assert (Hn : (0 < n)%nat) by (unfold n; destruct (raw_fields header); [done | cbn; lia]).
  rewrite (readCardsFromCSV_run L p w file F), Hlex, (readRecord_header header He).
  fold n. rewrite (read_loop_fixed n rows [] _ Hn). cbn [fst snd app]. split; reflexivity.
Qed.

(** What the loop logs, in general: a warning for each record of fewer
    than seven fields it got to; on success each record is a card or a
    warning. *)
Lemma read_loop_accounts fpr rest cards w :
  exists short,
    snd (Batch.read_loop fpr rest cards w) = add_logs w (map skipped short) /\
    Forall (fun record => (List.length record < 7)%nat) short /\
    (snd (fst (Batch.read_loop fpr rest cards w)) = None ->
     (List.length (fst (fst (Batch.read_loop fpr rest cards w))) + List.length short
      = List.length cards + List.length rest)%nat).
Proof.
  revert fpr cards w. induction rest as [|raw rest IH]; intros fpr cards w.
  - exists []. cbn [Batch.read_loop map fst snd]. unfold ret. cbn [fst snd].
    rewrite add_logs_nil. split; [reflexivity|]. split; [constructor|]. intros _. cbn. lia.
  - cbn [Batch.read_loop].
    pose proof (readRecord_fields fpr raw) as Hf.
    destruct (readRecord fpr raw) as [[record [e|]] fpr']; cbn [fst] in Hf; subst record.
    + exists []. cbn [map fst snd]. unfold ret. cbn [fst snd].
      rewrite add_logs_nil. split; [reflexivity|]. split; [constructor | discriminate].
    + destruct (Nat.ltb_spec (List.length (raw_fields raw)) 7) as [H7|H7].
      * unfold bind. rewrite log_Printf_run.
        match goal with |- context [Batch.read_loop fpr' rest cards ?w1] =>
          destruct (IH fpr' cards w1) as (short & Hw & Hs & Hc) end.
        exists (raw_fields raw :: short). rewrite Hw, add_log_logs.
        split; [reflexivity|]. split; [by constructor|].
        intros H. specialize (Hc H). cbn [List.length]. lia.
      * destruct (IH fpr' (cards ++ [Batch.card_of_record (raw_fields raw)])%list w)
          as (short & Hw & Hs & Hc).
        exists short. split; [exact Hw|]. split; [exact Hs|].
        intros H. specialize (Hc H). rewrite length_app in Hc. cbn [List.length] in *. lia.
Qed.

(** The warnings of a call: one for each record of fewer than seven
    fields it got to. *)
Lemma readCardsFromCSV_warnings L p w :
  exists short,
    logs (snd (Batch.readCardsFromCSV L p w)) = (logs w ++ map skipped short)%list /\
    Forall (fun record => (List.length record < 7)%nat) short /\
    (snd (fst (Batch.readCardsFromCSV L p w)) = None ->
     exists file header rows,
       files w !! p = Some file /\ csv_lex L file = header :: rows /\
       (List.length (fst (fst (Batch.readCardsFromCSV L p w))) + List.length short
        = List.length rows)%nat).
Proof.
  destruct (files w !! p) as [file|] eqn:F.
  - rewrite (readCardsFromCSV_run L p w file F).
    destruct (csv_lex L file) as [|header rows] eqn:Hlex.
    { exists []. cbn. rewrite app_nil_r. repeat split; [constructor | discriminate]. }
    destruct (readRecord 0 header) as [[record [e|]] fpr'].
    { exists []. cbn. rewrite app_nil_r. repeat split; [constructor | discriminate]. }
    destruct (read_loop_accounts fpr' rows [] (add_trace w [EvOpen p])) as (short & Hw & Hs & Hc).
    rewrite Hw. cbn [logs add_logs add_trace].
    exists short. split; [reflexivity|]. split; [exact Hs|].
    intros H. exists file, header, rows. split; [reflexivity|]. split; [exact Hlex|].
    exact (Hc H).
  - unfold Batch.readCardsFromCSV, bind. rewrite os_Open_run, F.
    exists []. cbn. rewrite app_nil_r. repeat split; [constructor | discriminate].
Qed.

(** X6.  [readCardsFromCSV] changes no file and prints nothing; it opens
    the path it is given, once, and nothing else; the only log entries it
    adds are "Skipping invalid record" warnings, each for a record of fewer
    than seven fields.  When it succeeds every data record is accounted
    for: the number of cards returned and the number of warnings add up to
    the number of records after the header. *)
Theorem readCardsFromCSV_accounts (L : Libs) (p : string) (w : World) :
  let r := Batch.readCardsFromCSV L p w in
  files (snd r) = files w /\ creatable (snd r) = creatable w /\ stdout (snd r) = stdout w /\
  trace (snd r) = (trace w ++ [EvOpen p])%list /\
  exists short,
    logs (snd r) = (logs w ++ map skipped short)%list /\
    Forall (fun record => (List.length record < 7)%nat) short /\
    (snd (fst r) = None ->
     exists file header rows,
       files w !! p = Some file /\ csv_lex L file = header :: rows /\
       (List.length (fst (fst r)) + List.length short = List.length rows)%nat).
Proof.
  cbv zeta. destruct (readCardsFromCSV_frame L p w) as (F & C & T & S & _).
  split; [exact F|]. split; [exact C|]. split; [exact S|]. split; [exact T|].
  apply readCardsFromCSV_warnings.
Qed.

Lemma read_loop_error fpr rest cards w cs err :
  fst (Batch.read_loop fpr rest cards w) = (cs, Some err) ->
  cs = [] /\ exists e, err = ErrWrap "failed to read CSV record: %w" (ErrCsv e).
Proof.
  revert fpr cards w. induction rest as [|raw rest IH]; intros fpr cards w.
  - cbn. intros H; inversion H.
  - cbn [Batch.read_loop].
    pose proof (readRecord_err fpr raw) as He.
    destruct (readRecord fpr raw) as [[record [e|]] fpr'].
    + destruct (He e eq_refl) as [ce ->]. cbn. intros H. inversion H. eauto.
    + destruct (List.length record <? 7)%nat; [|apply IH].
      unfold bind. rewrite log_Printf_run. apply IH.
Qed.

(** X7.  The errors of [readCardsFromCSV] are four: the file cannot be
    opened; the file holds no record ("CSV file is empty"); the first
    record has a quoting error ("failed to read CSV header"); a later
    record is rejected ("failed to read CSV record").  With each of them
    the list of cards returned is nil, whatever was read before.  A first
    record without quoting error is accepted as the header whatever it
    holds. *)
Theorem readCardsFromCSV_errors (L : Libs) (p : string) (w : World) :
  match fst (Batch.readCardsFromCSV L p w) with
  | (cards, None) =>
      exists file header rows,
        files w !! p = Some file /\ csv_lex L file = header :: rows /\ raw_err header = None
  | (cards, Some err) =>
      cards = [] /\
      ((files w !! p = None /\
        err = ErrWrap "failed to open CSV file: %w" (ErrPath "open" p)) \/
       (exists file, files w !! p = Some file /\ csv_lex L file = [] /\
                     err = ErrNew "CSV file is empty") \/
       (exists file header rows e,
          files w !! p = Some file /\ csv_lex L file = header :: rows /\
          raw_err header = Some e /\
          err = ErrWrap "failed to read CSV header: %w" (ErrCsv e)) \/
       (exists file header rows e,
          files w !! p = Some file /\ csv_lex L file = header :: rows /\
          raw_err header = None /\
          err = ErrWrap "failed to read CSV record: %w" (ErrCsv e)))
  end.
Proof.
  destruct (files w !! p) as [file|] eqn:F.
  - rewrite (readCardsFromCSV_run L p w file F).
    destruct (csv_lex L file) as [|header rows] eqn:Hlex.
    { cbn. split; [reflexivity|]. right. left. eauto. }
    destruct (raw_err header) as [e|] eqn:He.
    + unfold readRecord. rewrite He. cbn. split; [reflexivity|]. right. right. left.
      exists file, header, rows, e. auto.
    + rewrite (readRecord_header header He).
      destruct (fst (Batch.read_loop _ rows [] (add_trace w [EvOpen p]))) as [cs [err|]] eqn:E.
      * apply read_loop_error in E as [-> [e ->]]. split; [reflexivity|].
        right. right. right. exists file, header, rows, e. auto.
      * exists file, header, rows. auto.
  - unfold Batch.readCardsFromCSV, bind. rewrite os_Open_run, F. cbn.
    split; [reflexivity|]. left. auto.
Qed.

(** ** GenerateCard: when it succeeds, what it reads, how it fails *)

(** X8.  Whether [GenerateCard] succeeds is decided by the assets alone:
    it returns a nil error exactly when the background decodes, the fonts
    parse and the faces can be made.  What the card holds plays no part:
    empty, blank or overlong fields never make it fail. *)
Theorem GenerateCard_succeeds_iff (L : Libs) :
  (forall bg rf bf c w,
     snd (fst (Batch.GenerateCard L bg rf bf c w)) = None <->
     exists pic rfont bfont, ready2 L (files w) bg rf bf pic rfont bfont) /\
  (forall bg rf bf itf c w,
     snd (fst (CardServer.GenerateCard L bg rf bf itf c w)) = None <->
     exists pic rfont bfont ifont, ready3 L (files w) bg rf bf itf pic rfont bfont ifont) /\
  (forall bg rf bf c w,
     snd (fst (FooterServer.GenerateCard L bg rf bf c w)) = None <->
     exists pic rfont bfont, ready2 L (files w) bg rf bf pic rfont bfont).
Proof.
  split; [|split].
  - intros *. split.
    + destruct (Batch.GenerateCard L bg rf bf c w) as [[r e] w'] eqn:E. cbn. intros ->.
      by apply Batch_GenerateCard_inv in E.
    + intros (pic & rfont & bfont & Hr).
      by rewrite (Batch_GenerateCard_ready _ _ _ _ _ _ _ _ _ Hr).
  - intros *. split.
    + destruct (CardServer.GenerateCard L bg rf bf itf c w) as [[r e] w'] eqn:E. cbn. intros ->.
      by apply CardServer_GenerateCard_inv in E.
    + intros (pic & rfont & bfont & ifont & Hr).
      by rewrite (CardServer_GenerateCard_ready _ _ _ _ _ _ _ _ _ _ _ Hr).
  - intros *. split.
    + destruct (FooterServer.GenerateCard L bg rf bf c w) as [[r e] w'] eqn:E. cbn. intros ->.
      by apply FooterServer_GenerateCard_inv in E.
    + intros (pic & rfont & bfont & Hr).
      by rewrite (FooterServer_GenerateCard_ready _ _ _ _ _ _ _ _ _ Hr).
Qed.

Ltac stop_with tac :=
  erewrite try_Err; [|tac]; cbn [snd]; rewrite ?add_trace_app; reflexivity.
Ltac stop_open F :=
  stop_with ltac:(rewrite os_Open_run; cbn [files add_trace]; rewrite ?F; reflexivity).
Ltac stop_read F :=
  stop_with ltac:(rewrite ReadFile_run; cbn [files add_trace]; rewrite ?F; reflexivity).
Ltac stop_pure := stop_with ltac:(rewrite pure_result_run; reflexivity).
Ltac go_pure := erewrite try_Ok; [| rewrite pure_result_run; reflexivity].

(** Once the assets are read the world is left alone. *)
Ltac faces :=
  unfold opentype_NewFace;
  repeat match goal with
    | |- context [newFace_ok ?L ?f ?o] =>
        destruct (newFace_ok L f o);
        [erewrite try_Ok; [|reflexivity] | stop_with ltac:(reflexivity)]
    end;
  unfold ret; cbn [snd]; rewrite ?add_trace_app; reflexivity.

(** X9.  All [GenerateCard] does to the world is read, and the assets
    alone decide what it reads: it opens the background; it reads the
    regular font if the background is there and decodes; it reads the bold
    font if the regular font is there and parses (and, in the card server,
    the italic font if the bold font is there and parses).  So it reads
    the assets in this order, each at most once, nothing after the first
    one that is missing or does not decode, and all of them when it
    succeeds.  Files, log and standard output are as before. *)
Theorem GenerateCard_reads_in_order (L : Libs) :
  (forall bg rf bf c w,
     snd (Batch.GenerateCard L bg rf bf c w)
     = add_trace w (asset_reads2 L (files w) bg rf bf)) /\
  (forall bg rf bf itf c w,
     snd (CardServer.GenerateCard L bg rf bf itf c w)
     = add_trace w (asset_reads3 L (files w) bg rf bf itf)) /\
  (forall bg rf bf c w,
     snd (FooterServer.GenerateCard L bg rf bf c w)
     = add_trace w (asset_reads2 L (files w) bg rf bf)).
Proof.
  split; [|split]; intros *.
  - unfold Batch.GenerateCard, asset_reads2.
    destruct (files w !! bg) as [d1|] eqn:F1; cbn [mbind option_bind]; [|stop_open F1].
    run_open F1. destruct (image_Decode L d1) as [pic|]; [|stop_pure].
    go_pure. cbv zeta.
    destruct (files w !! rf) as [d2|] eqn:F2; cbn [mbind option_bind]; [|stop_read F2].
    run_read F2. destruct (opentype_Parse L d2) as [rfont|]; [|stop_pure].
    go_pure.
    destruct (files w !! bf) as [d3|] eqn:F3; [|stop_read F3].
    run_read F3. destruct (opentype_Parse L d3) as [bfont|]; [|stop_pure].
    go_pure. faces.
  - unfold CardServer.GenerateCard, asset_reads3.
    destruct (files w !! bg) as [d1|] eqn:F1; cbn [mbind option_bind]; [|stop_open F1].
    run_open F1. destruct (image_Decode L d1) as [pic|]; [|stop_pure].
    go_pure. cbv zeta.
    destruct (files w !! rf) as [d2|] eqn:F2; cbn [mbind option_bind]; [|stop_read F2].
    run_read F2. destruct (opentype_Parse L d2) as [rfont|]; [|stop_pure].
    go_pure.
    destruct (files w !! bf) as [d3|] eqn:F3; cbn [mbind option_bind]; [|stop_read F3].
    run_read F3. destruct (opentype_Parse L d3) as [bfont|]; [|stop_pure].
    go_pure.
    destruct (files w !! itf) as [d4|] eqn:F4; [|stop_read F4].
    run_read F4. destruct (opentype_Parse L d4) as [ifont|]; [|stop_pure].
    go_pure. faces.
  - unfold FooterServer.GenerateCard, asset_reads2.
    destruct (files w !! bg) as [d1|] eqn:F1; cbn [mbind option_bind]; [|stop_open F1].
    run_open F1. destruct (image_Decode L d1) as [pic|]; [|stop_pure].
    go_pure. cbv zeta.
    destruct (files w !! rf) as [d2|] eqn:F2; cbn [mbind option_bind]; [|stop_read F2].
    run_read F2. destruct (opentype_Parse L d2) as [rfont|]; [|stop_pure].
    go_pure.
    destruct (files w !! bf) as [d3|] eqn:F3; [|stop_read F3].
    run_read F3. destruct (opentype_Parse L d3) as [bfont|]; [|stop_pure].
    go_pure. faces.
Qed.

Ltac fail_with tac :=
  erewrite try_Err; [reflexivity | tac].
Ltac fail_open F :=
  fail_with ltac:(rewrite os_Open_run; cbn [files add_trace]; rewrite F; reflexivity).
Ltac fail_read F :=
  fail_with ltac:(rewrite ReadFile_run; cbn [files add_trace]; rewrite F; reflexivity).
Ltac fail_pure D := fail_with ltac:(rewrite pure_result_run, D; reflexivity).
Ltac fail_face N := fail_with ltac:(rewrite NewFace_run, N; reflexivity).

(** X10.  The error [GenerateCard] returns is that of the first step that
    fails, in the order: open the background, decode it, read and parse
    the regular font, read and parse the bold font (in the card server:
    then the italic font), make the faces.  So a missing background is
    reported even when the fonts are missing too.  In the batch tool and
    in the footer server a failure to make the title face is reported as
    "failed to create mid font face", like that of the face before it. *)
Theorem GenerateCard_first_failure (L : Libs) :
  (forall bg rf bf c w,
     first_failure2 L (files w) bg rf bf (fst (Batch.GenerateCard L bg rf bf c w))) /\
  (forall bg rf bf itf c w,
     first_failure3 L (files w) bg rf bf itf (fst (CardServer.GenerateCard L bg rf bf itf c w))) /\
  (forall bg rf bf c w,
     first_failure2 L (files w) bg rf bf (fst (FooterServer.GenerateCard L bg rf bf c w))).
Proof.
  split; [|split].
  - intros *. unfold first_failure2, failed, Batch.GenerateCard.
    split; [intros F1; by fail_open F1|].
    split; [intros d1 F1 D1; run_open F1; by fail_pure D1|].
    intros pic (d1 & F1 & D1).
    split; [intros F2; run_open F1; run_pure D1; cbv zeta; by fail_read F2|].
    split; [intros d2 F2 D2; run_open F1; run_pure D1; cbv zeta; run_read F2; by fail_pure D2|].
    intros rfont (d2 & F2 & D2).
    split; [intros F3; run_open F1; run_pure D1; cbv zeta; run_read F2; run_pure D2;
            by fail_read F3|].
    split; [intros d3 F3 D3; run_open F1; run_pure D1; cbv zeta; run_read F2; run_pure D2;
            run_read F3; by fail_pure D3|].
    intros bfont (d3 & F3 & D3).
    repeat split; intros;
      run_open F1; run_pure D1; cbv zeta; run_read F2; run_pure D2; run_read F3; run_pure D3;
      fold (opts 20) (opts 14) (opts 15) (opts 13);
      repeat match goal with N : newFace_ok _ _ _ = true |- _ => run_face N; clear N end;
      match goal with N : newFace_ok _ _ _ = false |- _ => by fail_face N end.
  - intros *. unfold first_failure3, failed, CardServer.GenerateCard.
    split; [intros F1; by fail_open F1|].
    split; [intros d1 F1 D1; run_open F1; by fail_pure D1|].
    intros pic (d1 & F1 & D1).
    split; [intros F2; run_open F1; run_pure D1; cbv zeta; by fail_read F2|].
    split; [intros d2 F2 D2; run_open F1; run_pure D1; cbv zeta; run_read F2; by fail_pure D2|].
    intros rfont (d2 & F2 & D2).
    split; [intros F3; run_open F1; run_pure D1; cbv zeta; run_read F2; run_pure D2;
            by fail_read F3|].
    split; [intros d3 F3 D3; run_open F1; run_pure D1; cbv zeta; run_read F2; run_pure D2;
            run_read F3; by fail_pure D3|].
    intros bfont (d3 & F3 & D3).
    split; [intros F4; run_open F1; run_pure D1; cbv zeta; run_read F2; run_pure D2;
            run_read F3; run_pure D3; by fail_read F4|].
    split; [intros d4 F4 D4; run_open F1; run_pure D1; cbv zeta; run_read F2; run_pure D2;
            run_read F3; run_pure D3; run_read F4; by fail_pure D4|].
    intros ifont (d4 & F4 & D4).
    repeat split; intros;
      run_open F1; run_pure D1; cbv zeta; run_read F2; run_pure D2; run_read F3; run_pure D3;
      run_read F4; run_pure D4;
      fold (opts 36) (opts 28) (opts 24) (opts 18);
      repeat match goal with N : newFace_ok _ _ _ = true |- _ => run_face N; clear N end;
      match goal with N : newFace_ok _ _ _ = false |- _ => by fail_face N end.
  - intros *. unfold first_failure2, failed, FooterServer.GenerateCard.
    split; [intros F1; by fail_open F1|].
    split; [intros d1 F1 D1; run_open F1; by fail_pure D1|].
    intros pic (d1 & F1 & D1).
    split; [intros F2; run_open F1; run_pure D1; cbv zeta; by fail_read F2|].
    split; [intros d2 F2 D2; run_open F1; run_pure D1; cbv zeta; run_read F2; by fail_pure D2|].
    intros rfont (d2 & F2 & D2).
    split; [intros F3; run_open F1; run_pure D1; cbv zeta; run_read F2; run_pure D2;
            by fail_read F3|].
    split; [intros d3 F3 D3; run_open F1; run_pure D1; cbv zeta; run_read F2; run_pure D2;
            run_read F3; by fail_pure D3|].
    intros bfont (d3 & F3 & D3).
    repeat split; intros;
      run_open F1; run_pure D1; cbv zeta; run_read F2; run_pure D2; run_read F3; run_pure D3;
      fold (opts 20) (opts 14) (opts 15) (opts 13);
      repeat match goal with N : newFace_ok _ _ _ = true |- _ => run_face N; clear N end;
      match goal with N : newFace_ok _ _ _ = false |- _ => by fail_face N end.
Qed.

(** ** What is drawn, and where *)

(** X11.  On the image [GenerateCard] returns the background is painted
    first and once, and after it come the text lines alone.  All lines
    start in the same column (70 in the batch tool and the footer server,
    50 in the card server); their baselines increase strictly in the order
    drawn, so no two lines share a baseline, and lie between 25 and 125
    (between 100 and 477 in the card server), whatever the card holds. *)
Theorem lines_run_top_to_bottom (L : Libs) :
  (forall bg rf bf c w img w',
     Batch.GenerateCard L bg rf bf c w = ((Some img, None), w') ->
     exists pic,
       loads L (files w) bg pic /\
       Pix img = PaintSrc pic (pic_bounds pic) {| X := 0; Y := 0 |}
                 :: map paint_of (draw_calls img) /\
       Forall (fun d => column d = 70) (draw_calls img) /\
       increasing (map snd (baselines img)) = true /\
       Forall (fun b => 25 <= snd b <= 125) (baselines img)) /\
  (forall bg rf bf itf c w img w',
     CardServer.GenerateCard L bg rf bf itf c w = ((Some img, None), w') ->
     exists pic,
       loads L (files w) bg pic /\
       Pix img = PaintSrc pic (pic_bounds pic) {| X := 0; Y := 0 |}
                 :: map paint_of (draw_calls img) /\
       Forall (fun d => column d = 50) (draw_calls img) /\
       increasing (map snd (baselines img)) = true /\
       Forall (fun b => 100 <= snd b <= 477) (baselines img)) /\
  (forall bg rf bf c w img w',
     FooterServer.GenerateCard L bg rf bf c w = ((Some img, None), w') ->
     exists pic,
       loads L (files w) bg pic /\
       Pix img = PaintSrc pic (pic_bounds pic) {| X := 0; Y := 0 |}
                 :: map paint_of (draw_calls img) /\
       Forall (fun d => column d = 70) (draw_calls img) /\
       increasing (map snd (baselines img)) = true /\
       Forall (fun b => 25 <= snd b <= 125) (baselines img)).
Proof.
  split; [|split].
  - intros * H. apply Batch_GenerateCard_ok in H as (pic & rfont & bfont & Hr & E & _).
    injection E as ->. exists pic. split; [apply Hr|].
    unfold Batch_rendered, Batch.draw_fields.
    destruct (nonempty (Batch.Pronouns c));
      (split; [reflexivity|]);
      (split; [repeat constructor|]);
      (split; [reflexivity|]);
      vm_compute; repeat constructor; discriminate.
  - intros * H.
    apply CardServer_GenerateCard_ok in H as (pic & rfont & bfont & ifont & Hr & E & _).
    injection E as ->. exists pic. split; [apply Hr|].
    unfold CardServer_rendered, CardServer.draw_fields.
    destruct (nonempty (CardServer.Pronouns c)), (nonempty (CardServer.Department c)),
      (nonempty (CardServer.LandGrant1 c)), (nonempty (CardServer.LandGrant2 c)),
      (nonempty (CardServer.LandGrant3 c)), (nonempty (CardServer.LandGrant4 c));
      (split; [reflexivity|]);
      (split; [repeat constructor|]);
      (split; [reflexivity|]);
      vm_compute; repeat constructor; discriminate.
  - intros * H. apply FooterServer_GenerateCard_ok in H as (pic & rfont & bfont & Hr & E & _).
    injection E as ->. exists pic. split; [apply Hr|].
    unfold FooterServer_rendered, FooterServer.draw_fields.
    destruct (nonempty (FooterServer.Pronouns c));
      (split; [reflexivity|]);
      (split; [repeat constructor|]);
      (split; [reflexivity|]);
      vm_compute; repeat constructor; discriminate.
Qed.

Lemma draw_calls_length x y items :
  List.length (layout x y items)
  = List.length (List.filter (fun i => match i with
                                       | Text l => negb (optional l && negb (nonempty (value l)))
                                       | Gap _ => false
                                       end) items).
Proof.
  revert y. induction items as [|[l|n] items IH]; intros y; cbn [layout List.filter];
    [reflexivity| |apply IH].
  destruct (optional l && negb (nonempty (value l))); cbn [negb List.length]; by rewrite IH.
Qed.

Lemma table_texts_cons f g opt v label fc col adv items :
  table_texts f (line g opt v label fc col adv :: items)
  = ((if decide (g = f) then if opt && negb (nonempty v) then [] else [(label ++ v)%string] else [])
     ++ table_texts f items)%list.
Proof.
  unfold table_texts, line. cbn [omap list_omap site optional value text].
  destruct (decide (g = f)); [destruct (opt && _)|]; reflexivity.
Qed.

Lemma table_texts_gap f n items : table_texts f (Gap n :: items) = table_texts f items.
Proof. reflexivity. Qed.

Ltac decide_fields :=
  repeat match goal with
    | |- context [decide (?a = ?b)] =>
        first [ rewrite (decide_True (P := a = b)) by reflexivity
              | rewrite (decide_False (P := a = b)) by discriminate ]
    end.

Ltac field_text :=
  repeat first [rewrite table_texts_cons | rewrite table_texts_gap]; decide_fields;
  unfold if_given, table_texts; cbn [app andb negb omap list_omap];
  first [ reflexivity
        | match goal with |- context [nonempty ?v] => by destruct (nonempty v) end ].

Ltac count_lines :=
  unfold line, given;
  cbn [List.filter site optional value text andb negb List.length];
  repeat match goal with |- context [nonempty ?v] => destruct (nonempty v) end;
  reflexivity.

(** X12.  Which text each field gives, when [GenerateCard] succeeds (the
    phone line apart).  The batch tool and the footer server draw name,
    title, company, address and e-mail as they are, once each, blank or
    not, and the pronouns if they are not blank.  The card server draws the
    name as it is, the title, company, address and e-mail after the labels
    "Title: ", "Company: ", "Address: " and "Email: ", once each, blank or
    not; and, if not blank, the pronouns and the four land-grant lines as
    they are and the department after "Department: ".  The number of lines
    drawn, the phone line among them, is six plus the number of optional
    fields that are not blank. *)
Theorem field_texts (L : Libs) :
  (forall bg rf bf c w img w',
     Batch.GenerateCard L bg rf bf c w = ((Some img, None), w') ->
     texts_at FName img = [Batch.Name c] /\
     texts_at FPronouns img = if_given "" (Batch.Pronouns c) /\
     texts_at FTitle img = [Batch.Title c] /\
     texts_at FCompany img = [Batch.Company c] /\
     texts_at FAddress img = [Batch.Address c] /\
     texts_at FEmail img = [Batch.Email c] /\
     List.length (draw_calls img) = (6 + given [Batch.Pronouns c])%nat) /\
  (forall bg rf bf itf c w img w',
     CardServer.GenerateCard L bg rf bf itf c w = ((Some img, None), w') ->
     texts_at FName img = [CardServer.Name c] /\
     texts_at FPronouns img = if_given "" (CardServer.Pronouns c) /\
     texts_at FTitle img = ["Title: " ++ CardServer.Title c] /\
     texts_at FCompany img = ["Company: " ++ CardServer.Company c] /\
     texts_at FDepartment img = if_given "Department: " (CardServer.Department c) /\
     texts_at FAddress img = ["Address: " ++ CardServer.Address c] /\
     texts_at FEmail img = ["Email: " ++ CardServer.Email c] /\
     texts_at FLandGrant1 img = if_given "" (CardServer.LandGrant1 c) /\
     texts_at FLandGrant2 img = if_given "" (CardServer.LandGrant2 c) /\
     texts_at FLandGrant3 img = if_given "" (CardServer.LandGrant3 c) /\
     texts_at FLandGrant4 img = if_given "" (CardServer.LandGrant4 c) /\
     List.length (draw_calls img)
     = (6 + given [CardServer.Pronouns c; CardServer.Department c; CardServer.LandGrant1 c;
                   CardServer.LandGrant2 c; CardServer.LandGrant3 c;
                   CardServer.LandGrant4 c])%nat) /\
  (forall bg rf bf c w img w',
     FooterServer.GenerateCard L bg rf bf c w = ((Some img, None), w') ->
     texts_at FName img = [FooterServer.Name c] /\
     texts_at FPronouns img = if_given "" (FooterServer.Pronouns c) /\
     texts_at FTitle img = [FooterServer.Title c] /\
     texts_at FCompany img = [FooterServer.Company c] /\
     texts_at FAddress img = [FooterServer.Address c] /\
     texts_at FEmail img = [FooterServer.Email c] /\
     List.length (draw_calls img) = (6 + given [FooterServer.Pronouns c])%nat).
Proof.
  split; [|split].
  - intros * H. apply Batch_GenerateCard_ok in H as (pic & rfont & bfont & _ & E & _).
    injection E as ->. unfold texts_at.
    rewrite Batch_draws_table, !layout_texts, draw_calls_length.
    unfold Batch_lines. repeat (split; [field_text|]). count_lines.
  - intros * H.
    apply CardServer_GenerateCard_ok in H as (pic & rfont & bfont & ifont & _ & E & _).
    injection E as ->. unfold texts_at.
    rewrite CardServer_draws_table, !layout_texts, draw_calls_length.
    unfold CardServer_lines. repeat (split; [field_text|]). count_lines.
  - intros * H. apply FooterServer_GenerateCard_ok in H as (pic & rfont & bfont & _ & E & _).
    injection E as ->. unfold texts_at.
    rewrite FooterServer_draws_table, !layout_texts, draw_calls_length.
    unfold FooterServer_lines. repeat (split; [field_text|]). count_lines.
Qed.

(** ** The handlers, whatever the request *)

Lemma ParseForm_keeps r w r1 e w1 :
  ParseForm r w = ((r1, e), w1) ->
  Method r1 = Method r /\ form_data r1 = form_data r /\ w1 = add_trace w [EvParseForm].
Proof.
  rewrite ParseForm_run. destruct (Form r); intros H; inversion H; subst; auto.
Qed.

Lemma parsed_frame w w2 :
  reads_only (add_trace w [EvParseForm]) w2 ->
  files w2 = files w /\ creatable w2 = creatable w /\ stdout w2 = stdout w /\
  logs w2 = logs w /\ created (trace w2) = created (trace w) /\
  written (trace w2) = written (trace w).
Proof.
  intros (evs & -> & H). cbn [files creatable stdout logs trace add_trace].
  rewrite !created_app, !written_app, (created_reads evs H), (written_reads evs H).
  cbn. by rewrite !app_nil_r.
Qed.

(** An error response after a write: the status is that of the write. *)
Lemma http_Error_after_Write data rw msg code :
  sent rw = None -> status (http_Error (Write data rw) msg code) = Some StatusOK.
Proof.
  intros H. unfold status.
  rewrite (http_Error_late _ msg code _ (Write_sent data rw)). by rewrite H.
Qed.

Ltac answer_frame :=
  eexists _, _; cbn [fst snd]; split; [reflexivity|];
  repeat (split; [first [assumption | reflexivity]|]).

(** X13.  Whatever the request and the state of the files, each handler,
    given a response writer on which nothing was sent yet, ends with a
    response and never panics; it changes no file, creates and writes none
    and prints nothing, and leaves the method and the form data of the
    request as they are.  The status is 405, with nothing logged, exactly
    when the method is not POST.  For POST it is 400 with nothing logged,
    or 500 with one entry logged (the failure of [GenerateCard], or the
    image size [png.Encode] refuses), or 200: with nothing logged, or,
    when a write of the PNG failed, with that failure logged. *)
Theorem cardHandler_answers (L : Libs) (rw : ResponseWriter) (r : Request) (w : World) :
  sent rw = None ->
  answered w r (CardServer.cardHandler L rw r w) /\
  answered w r (FooterServer.cardHandler L rw r w).
Proof.
  intros Hs.
  destruct (ParseForm r w) as [[r1 pe] w1] eqn:Hp.
  pose proof (ParseForm_keeps _ _ _ _ _ Hp) as (Hm1 & Hf1 & Hw1).
  assert (Hparsed : files w1 = files w /\ creatable w1 = creatable w /\ stdout w1 = stdout w /\
                    logs w1 = logs w /\ created (trace w1) = created (trace w) /\
                    written (trace w1) = written (trace w)).
  { apply parsed_frame. rewrite Hw1. apply reads_only_refl. }
  destruct Hparsed as (F1 & C1 & S1 & L1 & Tc1 & Tw1).
  split.
  - destruct (String.eqb_spec (Method r) "POST") as [Hm|Hm].
    2:{ rewrite (CardServer_not_POST L rw r w Hm). answer_frame. left.
        destruct (http_Error_fresh rw "Method not allowed" StatusMethodNotAllowed Hs) as (St & _).
        by repeat split. }
    destruct pe as [e|].
    { rewrite (CardServer_bad_form L rw r w r1 e w1 Hm Hp). answer_frame.
      right. split; [exact Hm|]. left.
      destruct (http_Error_fresh rw "Failed to parse form data" StatusBadRequest Hs) as (St & _).
      by split. }
    destruct (CardServer_GenerateCard_tidy L CardServer.bgImagePath CardServer.regularFontPath
                CardServer.boldFontPath CardServer.italicFontPath (CardServer.card_of_form r1) w1)
      as [R G].
    destruct (CardServer.GenerateCard L _ _ _ _ (CardServer.card_of_form r1) w1)
      as [[o ge] w2] eqn:Hg. cbn [fst snd] in R, G.
    rewrite Hw1 in R. apply parsed_frame in R as (F2 & C2 & S2 & L2 & Tc2 & Tw2).
    destruct ge as [e|].
    { rewrite (CardServer_generate_failed L rw r w r1 w1 o e w2 Hm Hp Hg). answer_frame.
      right. split; [exact Hm|]. right. left.
      destruct (http_Error_fresh rw "Failed to generate business card image"
                  StatusInternalServerError Hs) as (St & _).
      split; [exact St|]. exists e. cbn [logs add_log]. by rewrite L2. }
    destruct o as [img|]; [|destruct G as [[[? G] _]|[_ [? G]]]; discriminate G].
    rewrite (CardServer_encoded L rw r w r1 w1 img w2 Hm Hp Hg).
    destruct (png_Encode_response_cases L (png_headers "emailsignature.png" rw) img)
      as [(_ & ->)|[(_ & _ & ->)|(_ & n & _ & ->)]]; answer_frame;
      (right; split; [exact Hm|]).
    + right. right. left.
      destruct (http_Error_fresh (png_headers "emailsignature.png" rw)
                  "Failed to encode PNG image" StatusInternalServerError Hs) as (St & _).
      split; [exact St|]. cbn [logs add_log]. by rewrite L2.
    + do 4 right. split; [|exact L2].
      by destruct (Write_png "emailsignature.png" rw (png_bytes L img) Hs) as (St & _).
    + do 3 right. left. split; [by apply http_Error_after_Write|].
      cbn [logs add_log]. by rewrite L2.
  - destruct (String.eqb_spec (Method r) "POST") as [Hm|Hm].
    2:{ rewrite (FooterServer_not_POST L rw r w Hm). answer_frame. left.
        destruct (http_Error_fresh rw "Method not allowed" StatusMethodNotAllowed Hs) as (St & _).
        by repeat split. }
    destruct pe as [e|].
    { rewrite (FooterServer_bad_form L rw r w r1 e w1 Hm Hp). answer_frame.
      right. split; [exact Hm|]. left.
      destruct (http_Error_fresh rw "Failed to parse form data" StatusBadRequest Hs) as (St & _).
      by split. }
    destruct (FooterServer_GenerateCard_tidy L FooterServer.bgImagePath
                FooterServer.regularFontPath FooterServer.boldFontPath
                (FooterServer.card_of_form r1) w1) as [R G].
    destruct (FooterServer.GenerateCard L _ _ _ (FooterServer.card_of_form r1) w1)
      as [[o ge] w2] eqn:Hg. cbn [fst snd] in R, G.
    rewrite Hw1 in R. apply parsed_frame in R as (F2 & C2 & S2 & L2 & Tc2 & Tw2).
    destruct ge as [e|].
    { rewrite (FooterServer_generate_failed L rw r w r1 w1 o e w2 Hm Hp Hg). answer_frame.
      right. split; [exact Hm|]. right. left.
      destruct (http_Error_fresh rw "Failed to generate business card image"
                  StatusInternalServerError Hs) as (St & _).
      split; [exact St|]. exists e. cbn [logs add_log]. by rewrite L2. }
    destruct o as [img|]; [|destruct G as [[[? G] _]|[_ [? G]]]; discriminate G].
    rewrite (FooterServer_encoded L rw r w r1 w1 img w2 Hm Hp Hg).
    destruct (png_Encode_response_cases L (png_headers "EmailSignature.png" rw) img)
      as [(_ & ->)|[(_ & _ & ->)|(_ & n & _ & ->)]]; answer_frame;
      (right; split; [exact Hm|]).
    + right. right. left.
      destruct (http_Error_fresh (png_headers "EmailSignature.png" rw)
                  "Failed to encode PNG image" StatusInternalServerError Hs) as (St & _).
      split; [exact St|]. cbn [logs add_log]. by rewrite L2.
    + do 4 right. split; [|exact L2].
      by destruct (Write_png "EmailSignature.png" rw (png_bytes L img) Hs) as (St & _).
    + do 3 right. left. split; [by apply http_Error_after_Write|].
      cbn [logs add_log]. by rewrite L2.
Qed.

(** ** A POST request with the assets in place *)

Lemma FormValue_absent r w key :
  Form r = None -> fst (form_data r) !! key = None ->
  FormValue (fst (fst (ParseForm r w))) key = "".
Proof. intros HF Hk. rewrite ParseForm_run, HF. unfold FormValue. cbn. by rewrite Hk. Qed.

(** X14.  With the assets of a server in place, a background of a size
    PNG accepts and a connection on which no write of the PNG fails, every
    POST request whose form parses is answered with status 200 and the PNG
    of the card made from the form values, whatever these are; the handler
    has parsed the form and read each asset once, in order.  A request
    that leaves out the key of an optional field gets a card without the
    line of that field. *)
Theorem post_gets_card (L : Libs) (rw : ResponseWriter) (r : Request) (w : World) :
  Method r = "POST" -> sent rw = None -> Form r = None -> snd (form_data r) = None ->
  let r1 := fst (fst (ParseForm r w)) in
  (forall pic rfont bfont ifont,
     ready3 L (files w) CardServer.bgImagePath CardServer.regularFontPath
       CardServer.boldFontPath CardServer.italicFontPath pic rfont bfont ifont ->
     png_size_ok (background pic) = true ->
     let img := CardServer_rendered pic rfont bfont ifont (CardServer.card_of_form r1) in
     let rw' := Write (png_bytes L img) (png_headers "emailsignature.png" rw) in
     stops rw (png_bytes L img) = None ->
     CardServer.cardHandler L rw r w
     = (Responded rw' r1,
        add_trace w [EvParseForm; EvOpen CardServer.bgImagePath;
                     EvReadFile CardServer.regularFontPath; EvReadFile CardServer.boldFontPath;
                     EvReadFile CardServer.italicFontPath]) /\
     status rw' = Some 200 /\ body rw' = body rw ++ png_bytes L img /\
     (forall key f, In (key, f) optional_keys ->
                    fst (form_data r) !! key = None -> texts_at f img = [])) /\
  (forall pic rfont bfont,
     ready2 L (files w) FooterServer.bgImagePath FooterServer.regularFontPath
       FooterServer.boldFontPath pic rfont bfont ->
     png_size_ok (background pic) = true ->
     let img := FooterServer_rendered pic rfont bfont (FooterServer.card_of_form r1) in
     let rw' := Write (png_bytes L img) (png_headers "EmailSignature.png" rw) in
     stops rw (png_bytes L img) = None ->
     FooterServer.cardHandler L rw r w
     = (Responded rw' r1,
        add_trace w [EvParseForm; EvOpen FooterServer.bgImagePath;
                     EvReadFile FooterServer.regularFontPath;
                     EvReadFile FooterServer.boldFontPath]) /\
     status rw' = Some 200 /\ body rw' = body rw ++ png_bytes L img /\
     (fst (form_data r) !! "pronouns" = None -> texts_at FPronouns img = [])).
Proof.
  intros Hm Hs HF He r1.
  assert (Hp : ParseForm r w = ((r1, None), add_trace w [EvParseForm])).
  { unfold r1. rewrite ParseForm_run, HF, He. reflexivity. }
  assert (Habsent : forall key, fst (form_data r) !! key = None -> FormValue r1 key = "").
  { intros key Hk. unfold r1. by apply FormValue_absent. }
  split.
  - intros pic rfont bfont ifont Hr Hsize img rw' Hw.
    assert (Hg := CardServer_GenerateCard_ready L _ _ _ _ (CardServer.card_of_form r1)
                    (add_trace w [EvParseForm]) pic rfont bfont ifont Hr).
    rewrite (CardServer_encoded L rw r w r1 _ _ _ Hm Hp Hg).
    fold img. unfold png_Encode_response, png_Encode.
    replace (png_size_ok img) with true
      by (rewrite <- Hsize; apply png_size_ok_Rect; unfold img, CardServer_rendered;
          symmetry; apply CardServer_draw_fields_Rect).
    rewrite png_headers_stops, Hw.
    destruct (Write_png "emailsignature.png" rw (png_bytes L img) Hs) as (St & _ & _ & Bd).
    split; [by rewrite add_trace_app|]. split; [exact St|]. split; [exact Bd|].
    intros key f Hin Hk. specialize (Habsent key Hk).
    destruct (blank_line_struck f 50 100
                (CardServer_lines rfont bfont ifont (CardServer.card_of_form r1)) img) as [Hn _];
      [intros l l'; apply CardServer_sites | apply CardServer_draws_table | | exact Hn].
    unfold optional_keys in Hin. cbn [In] in Hin.
    unfold CardServer_lines, line, optional_lines, CardServer.card_of_form.
    cbn [omap list_omap optional site value CardServer.Pronouns CardServer.Department
           CardServer.LandGrant1 CardServer.LandGrant2 CardServer.LandGrant3
           CardServer.LandGrant4 In].
    destruct Hin as [E|[E|[E|[E|[E|[E|[]]]]]]]; injection E as <- <-; rewrite Habsent; auto 10.
  - intros pic rfont bfont Hr Hsize img rw' Hw.
    assert (Hg := FooterServer_GenerateCard_ready L _ _ _ (FooterServer.card_of_form r1)
                    (add_trace w [EvParseForm]) pic rfont bfont Hr).
    rewrite (FooterServer_encoded L rw r w r1 _ _ _ Hm Hp Hg).
    fold img. unfold png_Encode_response, png_Encode.
    replace (png_size_ok img) with true
      by (rewrite <- Hsize; apply png_size_ok_Rect; unfold img, FooterServer_rendered;
          symmetry; apply FooterServer_draw_fields_Rect).
    rewrite png_headers_stops, Hw.
    destruct (Write_png "EmailSignature.png" rw (png_bytes L img) Hs) as (St & _ & _ & Bd).
    split; [by rewrite add_trace_app|]. split; [exact St|]. split; [exact Bd|].
    intros Hk. specialize (Habsent "pronouns" Hk).
    destruct (blank_line_struck FPronouns 70 25
                (FooterServer_lines rfont bfont (FooterServer.card_of_form r1)) img) as [Hn _];
      [intros l l'; apply FooterServer_sites | apply FooterServer_draws_table | | exact Hn].
    unfold FooterServer_lines, line, optional_lines, FooterServer.card_of_form.
    cbn [omap list_omap optional site value FooterServer.Pronouns In].
    rewrite Habsent. auto.
Qed.

(** ** The batch run, step by step *)

(** X15.  [main] looks for its input files in the order background,
    regular font, bold font, CSV file, and stops at the first one that is
    missing: the fatal entry names that file, with the message of its
    check, and the files after it are not looked at. *)
Theorem main_first_missing (L : Libs) (w : World) :
  (files w !! Batch.bgImagePath = None ->
   Batch.main L w
   = (OsExit 1, add_log (add_trace w [EvStat Batch.bgImagePath])
                  (missing "Background image file does not exist: %s" Batch.bgImagePath))) /\
  (is_Some (files w !! Batch.bgImagePath) ->
   files w !! Batch.regularFontPath = None ->
   Batch.main L w
   = (OsExit 1, add_log (add_trace w [EvStat Batch.bgImagePath; EvStat Batch.regularFontPath])
                  (missing "Regular font file does not exist: %s" Batch.regularFontPath))) /\
  (is_Some (files w !! Batch.bgImagePath) ->
   is_Some (files w !! Batch.regularFontPath) ->
   files w !! Batch.boldFontPath = None ->
   Batch.main L w
   = (OsExit 1, add_log (add_trace w [EvStat Batch.bgImagePath; EvStat Batch.regularFontPath;
                                      EvStat Batch.boldFontPath])
                  (missing "Bold font file does not exist: %s" Batch.boldFontPath))) /\
  (is_Some (files w !! Batch.bgImagePath) ->
   is_Some (files w !! Batch.regularFontPath) ->
   is_Some (files w !! Batch.boldFontPath) ->
   files w !! Batch.csvPath = None ->
   Batch.main L w
   = (OsExit 1, add_log (add_trace w checked)
                  (missing "CSV file does not exist: %s" Batch.csvPath))).
Proof.
  unfold Batch.main, missing, checked. repeat split.
  - intros F1. by rewrite exists_or_fatal_run, F1.
  - intros [d1 F1] F2. rewrite exists_or_fatal_run, F1, exists_or_fatal_run.
    cbn [files add_trace]. rewrite F2. by rewrite add_trace_app.
  - intros [d1 F1] [d2 F2] F3. rewrite exists_or_fatal_run, F1, exists_or_fatal_run.
    cbn [files add_trace]. rewrite F2, exists_or_fatal_run. cbn [files add_trace].
    rewrite F3. by rewrite !add_trace_app.
  - intros [d1 F1] [d2 F2] [d3 F3] F4. rewrite exists_or_fatal_run, F1, exists_or_fatal_run.
    cbn [files add_trace]. rewrite F2, exists_or_fatal_run. cbn [files add_trace].
    rewrite F3, exists_or_fatal_run. cbn [files add_trace]. rewrite F4.
    by rewrite !add_trace_app.
Qed.

(** X16.  When the four input files exist and [readCardsFromCSV] returns
    no card and no error (the CSV file holds a header only, or every
    record was skipped), [main] logs "No cards found in the CSV file."
    after the warnings and returns normally.  It has looked at the four
    files and opened the CSV file, and nothing else: background and fonts
    are never opened, no file is created or changed, nothing is printed. *)
Theorem main_no_cards (L : Libs) (w : World) :
  is_Some (files w !! Batch.bgImagePath) ->
  is_Some (files w !! Batch.regularFontPath) ->
  is_Some (files w !! Batch.boldFontPath) ->
  is_Some (files w !! Batch.csvPath) ->
  fst (Batch.readCardsFromCSV L Batch.csvPath w) = ([], None) ->
  let w' := snd (Batch.main L w) in
  fst (Batch.main L w) = Return /\
  files w' = files w /\ stdout w' = stdout w /\
  trace w' = (trace w ++ checked ++ [EvOpen Batch.csvPath])%list /\
  exists short, logs w' = (logs w ++ map skipped short ++ [no_cards])%list.
Proof.
  intros [d1 F1] [d2 F2] [d3 F3] [d4 F4] He.
  rewrite (main_checked L w d1 d2 d3 d4 F1 F2 F3 F4).
  rewrite (readCardsFromCSV_fst L Batch.csvPath w (add_trace w checked)) in He by reflexivity.
  destruct (readCardsFromCSV_frame L Batch.csvPath (add_trace w checked)) as (F & _ & T & S & _).
  destruct (readCardsFromCSV_warnings L Batch.csvPath (add_trace w checked)) as (short & Hl & _).
  destruct (Batch.readCardsFromCSV L Batch.csvPath (add_trace w checked)) as [[cards e] w1].
  cbn [fst snd] in *. injection He as -> ->. cbn [List.length Nat.eqb snd fst].
  split; [reflexivity|]. cbn [files stdout trace logs add_log].
  split; [exact F|]. split; [exact S|]. split; [rewrite T; cbn [trace add_trace]; by rewrite <- app_assoc|].
  exists short. by rewrite Hl, <- app_assoc.
Qed.

(** What the loop over the cards has done when it ends, however it ends. *)
Lemma for_cards_progress L cards w r :
  Batch.for_cards L cards w = r ->
  exists done,
    done `prefix_of` cards /\
    map fst (written (trace (snd r)))
    = (map fst (written (trace w)) ++ map Batch.outputFileName done)%list /\
    stdout (snd r) = (stdout w ++ map success_line done)%list /\
    (fst r = Return -> done = cards) /\
    locate (files (snd r)) = locate (files w) /\
    (forall k, (forall c, In c cards -> locate (files w) (Batch.outputFileName c) <> k) ->
               disk (files (snd r)) !! k = disk (files w) !! k).
Proof.
  revert w r. induction cards as [|c cards IH]; intros w r E.
  - exists []. subst r. cbn. rewrite !app_nil_r. auto 10.
  - cbn [Batch.for_cards] in E. unfold bind at 1 in E.
    destruct (Batch_GenerateCard_tidy L Batch.bgImagePath Batch.regularFontPath
                Batch.boldFontPath c w) as [R G].
    destruct (Batch.GenerateCard L _ _ _ c w) as [[img e] w1]. cbn [fst snd] in R, G.
    destruct R as (evs & -> & Hevs).
    assert (Hstop : forall fmt a w2,
              written (trace w2) = written (trace w) -> stdout w2 = stdout w ->
              locate (files w2) = locate (files w) ->
              (forall k, locate (files w) (Batch.outputFileName c) <> k ->
                         disk (files w2) !! k = disk (files w) !! k) ->
              log_Fatalf fmt a w2 = r ->
              exists done,
                done `prefix_of` c :: cards /\
                map fst (written (trace (snd r)))
                = (map fst (written (trace w)) ++ map Batch.outputFileName done)%list /\
                stdout (snd r) = (stdout w ++ map success_line done)%list /\
                (fst r = Return -> done = c :: cards) /\
                locate (files (snd r)) = locate (files w) /\
                (forall k, (forall c', In c' (c :: cards) ->
                                       locate (files w) (Batch.outputFileName c') <> k) ->
                           disk (files (snd r)) !! k = disk (files w) !! k)).
    { intros fmt a w2 Tw S Lo F <-. exists []. rewrite log_Fatalf_run.
      cbn [fst snd trace stdout files add_log map]. rewrite Tw, S, !app_nil_r.
      split; [apply prefix_nil|]. repeat split; [discriminate | exact Lo |].
      intros k Hk. apply F. apply Hk. by left. }
    assert (Tw1 : written (trace (add_trace w evs)) = written (trace w)).
    { cbn [trace add_trace]. by rewrite written_app, (written_reads evs Hevs), app_nil_r. }
    destruct e as [err|]; [destruct img; by refine (Hstop _ _ _ _ _ _ _ E)|].
    destruct img as [img|]; [|destruct G as [[[? G] _]|[_ [? G]]]; discriminate G].
    unfold bind at 1 in E.
    destruct (creatable (add_trace w evs) (Batch.outputFileName c)) eqn:Hc.
    2:{ rewrite os_Create_fails in E by exact Hc.
        refine (Hstop _ _ _ _ _ _ _ E); [|reflexivity|reflexivity|intros; reflexivity].
        cbn [trace add_trace]. rewrite !written_app, (written_reads evs Hevs). cbn.
        by rewrite !app_nil_r. }
    rewrite os_Create_run in E by exact Hc. unfold bind at 1 in E.
    destruct (png_size_ok img) eqn:Hs.
    2:{ rewrite png_Encode_file_fails in E by exact Hs.
        refine (Hstop _ _ _ _ _ _ _ E).
        - cbn [trace add_trace]. rewrite !written_app, (written_reads evs Hevs). cbn.
          by rewrite !app_nil_r.
        - reflexivity.
        - reflexivity.
        - intros k Hk. cbn [files add_trace]. rewrite disk_insert.
          by apply lookup_insert_ne. }
    rewrite png_Encode_file_run in E by exact Hs. unfold bind at 1, fmt_Printf in E.
    destruct (IH _ _ E) as (done & Hp & Hw & Hso & Hr & Hl & Hf). exists (c :: done).
    split; [by apply prefix_cons|]. rewrite Hw, Hso, Hl.
    cbn [trace files creatable logs stdout map add_trace] in *.
    split; [rewrite !written_app, !map_app, (written_reads evs Hevs); cbn;
            by rewrite <- !app_assoc|].
    split; [by rewrite <- app_assoc|].
    split; [intros H; by rewrite (Hr H)|].
    split; [reflexivity|].
    intros k Hnk. rewrite Hf by (intros c' Hc'; apply (Hnk c'); by right).
    rewrite !disk_insert, !lookup_insert_ne by (apply (Hnk c); by left). reflexivity.
Qed.

(** [main] is one of: a fatal end before the loop, in which nothing but
    the log and the record of calls has changed; the return for no cards;
    the loop over the cards read. *)
Lemma main_before_loop L w :
  (stdout (snd (Batch.main L w)) = stdout w /\
   files (snd (Batch.main L w)) = files w /\
   written (trace (snd (Batch.main L w))) = written (trace w) /\
   (fst (Batch.main L w) = Return ->
    fst (fst (Batch.readCardsFromCSV L Batch.csvPath w)) = [])) \/
  (exists w1, stdout w1 = stdout w /\ files w1 = files w /\
              written (trace w1) = written (trace w) /\
              Batch.main L w
              = Batch.for_cards L (fst (fst (Batch.readCardsFromCSV L Batch.csvPath w))) w1).
Proof.
  assert (Hmiss : files w !! Batch.bgImagePath = None \/ files w !! Batch.regularFontPath = None \/
                  files w !! Batch.boldFontPath = None \/ files w !! Batch.csvPath = None ->
                  stdout (snd (Batch.main L w)) = stdout w /\
                  fst (Batch.main L w) <> Return).
  { intros H. unfold Batch.main. rewrite exists_or_fatal_run.
    destruct (files w !! Batch.bgImagePath) as [d1|] eqn:F1; [|split; [reflexivity | discriminate]].
    rewrite exists_or_fatal_run. cbn [files add_trace].
    destruct (files w !! Batch.regularFontPath) as [d2|] eqn:F2;
      [|split; [reflexivity | discriminate]].
    rewrite exists_or_fatal_run. cbn [files add_trace].
    destruct (files w !! Batch.boldFontPath) as [d3|] eqn:F3;
      [|split; [reflexivity | discriminate]].
    rewrite exists_or_fatal_run. cbn [files add_trace].
    destruct (files w !! Batch.csvPath) as [d4|] eqn:F4;
      [|split; [reflexivity | discriminate]].
    by destruct H as [H|[H|[H|H]]]. }
  assert (Hleft : files w !! Batch.bgImagePath = None \/ files w !! Batch.regularFontPath = None \/
                  files w !! Batch.boldFontPath = None \/ files w !! Batch.csvPath = None ->
                  stdout (snd (Batch.main L w)) = stdout w /\
                  files (snd (Batch.main L w)) = files w /\
                  written (trace (snd (Batch.main L w))) = written (trace w) /\
                  (fst (Batch.main L w) = Return ->
                   fst (fst (Batch.readCardsFromCSV L Batch.csvPath w)) = [])).
  { intros H. destruct (Hmiss H) as [S N]. destruct (main_missing L w H) as [_ [F T]].
    repeat split; try assumption. intros E. contradiction. }
  destruct (files w !! Batch.bgImagePath) as [d1|] eqn:F1; [|left; apply Hleft; auto].
  destruct (files w !! Batch.regularFontPath) as [d2|] eqn:F2; [|left; apply Hleft; auto].
  destruct (files w !! Batch.boldFontPath) as [d3|] eqn:F3; [|left; apply Hleft; auto].
  destruct (files w !! Batch.csvPath) as [d4|] eqn:F4; [|left; apply Hleft; auto].
  clear Hmiss Hleft.
  rewrite (main_checked L w d1 d2 d3 d4 F1 F2 F3 F4).
  rewrite (readCardsFromCSV_fst L Batch.csvPath w (add_trace w checked)) by reflexivity.
  destruct (readCardsFromCSV_frame L Batch.csvPath (add_trace w checked))
    as (F & _ & T & S & _).
  destruct (Batch.readCardsFromCSV L Batch.csvPath (add_trace w checked)) as [[cards e] w1].
  cbn [fst snd] in *.
  assert (Tw : written (trace w1) = written (trace w)).
  { rewrite T. cbn [trace add_trace]. rewrite !written_app. cbn. by rewrite !app_nil_r. }
  destruct e as [err|]; [left; cbn; repeat split; try assumption; discriminate|].
  destruct (List.length cards =? 0)%nat eqn:E0.
  - left. apply Nat.eqb_eq, nil_length_inv in E0. subst cards. cbn. by repeat split.
  - right. exists w1. by repeat split.
Qed.

(** X17.  In every run of the batch tool the cards are taken in the order
    read, and the run stops at the first failure: the files written are
    those of the cards of a first part of the list, in order; the lines
    "Successfully generated business card: ..." printed are those of the
    same cards, one for each file written and nothing else; and when
    [main] returns normally that part is the whole list. *)
Theorem success_lines (L : Libs) (w : World) :
  let cards := fst (fst (Batch.readCardsFromCSV L Batch.csvPath w)) in
  let w' := snd (Batch.main L w) in
  exists done,
    done `prefix_of` cards /\
    map fst (written (trace w'))
    = (map fst (written (trace w)) ++ map Batch.outputFileName done)%list /\
    stdout w' = (stdout w ++ map success_line done)%list /\
    (fst (Batch.main L w) = Return -> done = cards).
Proof.
  cbv zeta. destruct (main_before_loop L w) as [(S & F & T & Hr)|(w1 & S & F & T & ->)].
  - exists []. rewrite S, T, !app_nil_r. split; [apply prefix_nil|].
    repeat split. intros E. by rewrite (Hr E).
  - destruct (for_cards_progress L (fst (fst (Batch.readCardsFromCSV L Batch.csvPath w))) w1
                _ eq_refl) as (done & Hp & Hw & Hso & Hr & _).
    exists done. rewrite Hw, Hso, T, S. auto.
Qed.

(** X18.  The only files a run of the batch tool can create or change are
    those that the output names of the cards it read name: every other
    file holds in the end what it held before (or is still missing), so
    that a path that names none of these files reads as it did before.
    What a path names is the same after the run. *)
Theorem main_touches_outputs_only (L : Libs) (w : World) :
  let cards := fst (fst (Batch.readCardsFromCSV L Batch.csvPath w)) in
  let w' := snd (Batch.main L w) in
  locate (files w') = locate (files w) /\
  (forall file, (forall c, In c cards -> locate (files w) (Batch.outputFileName c) <> file) ->
                disk (files w') !! file = disk (files w) !! file) /\
  (forall p, (forall c, In c cards -> ~ same_file (files w) (Batch.outputFileName c) p) ->
             files w' !! p = files w !! p).
Proof.
  cbv zeta.
  assert (H : locate (files (snd (Batch.main L w))) = locate (files w) /\
              forall file,
                (forall c, In c (fst (fst (Batch.readCardsFromCSV L Batch.csvPath w))) ->
                           locate (files w) (Batch.outputFileName c) <> file) ->
                disk (files (snd (Batch.main L w))) !! file = disk (files w) !! file).
  { destruct (main_before_loop L w) as [(_ & F & _)|(w1 & _ & F & _ & ->)].
    - by rewrite F.
    - destruct (for_cards_progress L (fst (fst (Batch.readCardsFromCSV L Batch.csvPath w))) w1
                  _ eq_refl) as (done & _ & _ & _ & _ & Hl & Hf).
      rewrite F in Hl, Hf. split; [exact Hl | exact Hf]. }
  destruct H as [Hl Hf]. split; [exact Hl|]. split; [exact Hf|].
  intros p Hp. unfold lookup, Files_lookup. rewrite Hl. apply Hf.
  intros c Hc. by apply Hp.
Qed.

Section MoreCards.
Context (L : Libs) (pic : Picture) (rfont bfont : Font).

Lemma cards_done_trace cards w :
  trace (foldl (card_done L pic rfont bfont) w cards)
  = (trace w ++ List.concat (map (card_events L pic rfont bfont) cards))%list.
Proof.
  revert w. induction cards as [|c cards IH]; intros w; cbn [foldl map List.concat].
  - by rewrite app_nil_r.
  - rewrite IH. cbn [trace card_done]. unfold card_events at 2. by rewrite <- app_assoc.
Qed.

End MoreCards.

(** The batch run on a uniform CSV file with everything else in order:
    the world it ends in. *)
Lemma main_uniform_world L w file header rows pic rfont bfont :
  Batch_ready L (files w) pic rfont bfont ->
  png_size_ok (background pic) = true ->
  files w !! Batch.csvPath = Some file ->
  csv_lex L file = header :: rows ->
  raw_err header = None ->
  (7 <= List.length (raw_fields header))%nat ->
  rows <> [] ->
  (forall row, In row rows ->
     raw_err row = None /\ List.length (raw_fields row) = List.length (raw_fields header)) ->
  (forall row, In row rows ->
     creatable w (Batch.outputFileName (Batch.card_of_record (raw_fields row))) = true) ->
  outputs_apart (files w) (map (fun row => Batch.card_of_record (raw_fields row)) rows) ->
  Batch.main L w
  = (Return, foldl (card_done L pic rfont bfont)
               (add_trace w (checked ++ [EvOpen Batch.csvPath]))
               (map (fun row => Batch.card_of_record (raw_fields row)) rows)).
Proof.
  intros Hr Hs F4 Hlex He Hn Hne Hrows Hcreate Hapart.
  pose proof Hr as ((d1 & F1 & _) & (d2 & F2 & _) & (d3 & F3 & _) & _).
  rewrite (main_checked L w d1 d2 d3 file F1 F2 F3 F4).
  rewrite (readCardsFromCSV_run L _ _ file) by exact F4.
  rewrite Hlex, (readRecord_header header He).
  rewrite (read_loop_uniform _ rows [] _ Hn Hrows). cbn [app].
  rewrite add_trace_app.
  destruct rows as [|row rows]; [done|]. cbn [map List.length Nat.eqb].
  rewrite <- (map_cons (fun row => Batch.card_of_record (raw_fields row))).
  apply for_cards_run; [exact Hr | exact Hs | | exact Hapart].
  intros c' Hc'. apply in_map_iff in Hc' as (r & <- & Hrow). by apply Hcreate.
Qed.

(** X19.  When the output names of several rows of a CSV file name the
    same file (the names are the same, or differ as "x" and "./x" do),
    the file holds in the end the PNG of the last of these rows, and reads
    so under each of the names: each row overwrites what an earlier row
    has written there.  (The CSV file is uniform, with a header of at least
    seven fields; the assets load, every output name can be created and
    none names the background or a font.) *)
Theorem last_row_wins (L : Libs) (w : World) (file : string) (header : RawRecord)
    (before : list RawRecord) (row : RawRecord) (after : list RawRecord)
    (pic : Picture) (rfont bfont : Font) :
  let rows := (before ++ row :: after)%list in
  let card := fun r => Batch.card_of_record (raw_fields r) in
  Batch_ready L (files w) pic rfont bfont ->
  png_size_ok (background pic) = true ->
  files w !! Batch.csvPath = Some file ->
  csv_lex L file = header :: rows ->
  raw_err header = None ->
  (7 <= List.length (raw_fields header))%nat ->
  (forall r, In r rows ->
     raw_err r = None /\ List.length (raw_fields r) = List.length (raw_fields header)) ->
  (forall r, In r rows -> creatable w (Batch.outputFileName (card r)) = true) ->
  outputs_apart (files w) (map card rows) ->
  (forall r, In r after ->
     ~ same_file (files w) (Batch.outputFileName (card r)) (Batch.outputFileName (card row))) ->
  fst (Batch.main L w) = Return /\
  (forall p, same_file (files w) (Batch.outputFileName (card row)) p ->
             files (snd (Batch.main L w)) !! p = Some (Batch_png L pic rfont bfont (card row))).
Proof.
  intros rows card Hr Hs F4 Hlex He Hn Hrows Hcreate Hapart Hlast.
  rewrite (main_uniform_world L w file header rows pic rfont bfont Hr Hs F4 Hlex He Hn)
    by (try assumption; unfold rows; by destruct before).
  split; [reflexivity|]. intros p Hp. cbn [snd]. rewrite cards_done_files.
  unfold rows. rewrite map_app. cbn [map]. cbn [files add_trace].
  apply put_last; [exact Hp|].
  intros c' Hc' E. apply in_map_iff in Hc' as (r & <- & Hin). apply (Hlast r Hin).
  unfold same_file in *. etransitivity; [exact E | symmetry; exact Hp].
Qed.

(** X20.  The calls of a run that goes through (a uniform CSV file with at
    least one row, the assets loading, every output name creatable and
    none naming the background or a font): the four checks, the CSV file
    opened, and then for each card, in order, the background opened, the
    regular and the bold font read, the output file created and the PNG
    written.  So background and fonts are opened and read again for every
    card. *)
Theorem assets_read_per_card (L : Libs) (w : World) (file : string) (header : RawRecord)
    (rows : list RawRecord) (pic : Picture) (rfont bfont : Font) :
  Batch_ready L (files w) pic rfont bfont ->
  png_size_ok (background pic) = true ->
  files w !! Batch.csvPath = Some file ->
  csv_lex L file = header :: rows ->
  raw_err header = None ->
  (7 <= List.length (raw_fields header))%nat ->
  rows <> [] ->
  (forall row, In row rows ->
     raw_err row = None /\ List.length (raw_fields row) = List.length (raw_fields header)) ->
  (forall row, In row rows ->
     creatable w (Batch.outputFileName (Batch.card_of_record (raw_fields row))) = true) ->
  outputs_apart (files w) (map (fun row => Batch.card_of_record (raw_fields row)) rows) ->
  trace (snd (Batch.main L w))
  = (trace w ++ checked ++ [EvOpen Batch.csvPath]
     ++ List.concat (map (fun row => card_events L pic rfont bfont
                                  (Batch.card_of_record (raw_fields row))) rows))%list.
Proof.
  intros Hr Hs F4 Hlex He Hn Hne Hrows Hcreate Hapart.
  rewrite (main_uniform_world L w file header rows pic rfont bfont Hr Hs F4 Hlex He Hn Hne
             Hrows Hcreate Hapart).
  cbn [snd]. rewrite cards_done_trace. cbn [trace add_trace].
  rewrite <- !app_assoc, map_map. reflexivity.
Qed.

(** ** The examples *)

Import Demo.

Example ada_baselines :
  baselines (Batch_rendered pic regular bold ada_card)
  = [(FName, 25); (FPronouns, 45); (FTitle, 59); (FCompany, 84); (FAddress, 99);
     (FPhone, 112); (FEmail, 125)].
Proof. reflexivity. Qed.

Example alan_baselines :
  baselines (Batch_rendered pic regular bold alan_card)
  = [(FName, 25); (FTitle, 45); (FCompany, 70); (FAddress, 85); (FPhone, 98); (FEmail, 111)].
Proof. reflexivity. Qed.

Example card_server_baselines :
  baselines (CardServer_rendered pic regular bold regular (CardServer.card_of_form ada_post))
  = [(FName, 100); (FTitle, 151); (FCompany, 189); (FAddress, 227); (FPhone, 261);
     (FEmail, 295)].
Proof. reflexivity. Qed.

(** A row longer than the header is rejected like a shorter one. *)
Example long_row_is_fatal :
  map (fun r => List.length (raw_fields r)) (csv_lex libs long_row) = [7; 8]%nat /\
  fst (Batch.readCardsFromCSV libs Batch.csvPath (world long_row))
  = ([], Some (ErrWrap "failed to read CSV record: %w" (ErrCsv ErrFieldCount))) /\
  fst (Batch.main libs (world long_row)) = OsExit 1.
Proof. vm_compute. repeat split. Qed.

(** Under a header of two fields the rows of two fields are skipped. *)
Example short_header_rows_skipped :
  fst (Batch.readCardsFromCSV libs Batch.csvPath (world short_header)) = ([], None) /\
  logs (snd (Batch.readCardsFromCSV libs Batch.csvPath (world short_header)))
  = [skipped ["Grace Hopper"; "she/her"]; skipped ["Alan Turing"; ""]] /\
  fst (Batch.main libs (world short_header)) = Return.
Proof. vm_compute. repeat split. Qed.

Example two_rows_names :
  created (trace (snd (Batch.main libs (world two_rows))))
  = ["Ada_Lovelace_email_signature.png"; "Alan_Turing_email_signature.png"].
Proof. reflexivity. Qed.

(** C2, at the failing input.  The CSV file has a header of seven fields, a
    row of seven, a row of two and another row of seven.  The row of two is
    not skipped: [Read] rejects it with [ErrFieldCount], [readCardsFromCSV]
    returns that error and no card, and [main] ends in [log.Fatalf] without
    having written a file, not even for the row before it. *)
Theorem short_row_is_fatal :
  map (fun r => List.length (raw_fields r)) (csv_lex libs short_row) = [7; 7; 2; 7]%nat /\
  fst (Batch.readCardsFromCSV libs Batch.csvPath (world short_row))
  = ([], Some (ErrWrap "failed to read CSV record: %w" (ErrCsv ErrFieldCount))) /\
  fst (Batch.main libs (world short_row)) = OsExit 1 /\
  logs (snd (Batch.main libs (world short_row)))
  = [{| fatal := true; format := "Error reading cards from CSV: %v";
        args := [AErr (ErrWrap "failed to read CSV record: %w" (ErrCsv ErrFieldCount))] |}] /\
  written (trace (snd (Batch.main libs (world short_row)))) = [].
Proof. vm_compute. repeat split. Qed.

(** C1 fails for the batch tool: a phone field of exactly ten digits is
    drawn as given, not as (555) 123-4567. *)
Lemma batch_phone_as_given :
  count_digits (Batch.PhoneNumber ada_card) = 10%nat /\
  exists img,
    fst (Batch.GenerateCard libs Batch.bgImagePath Batch.regularFontPath Batch.boldFontPath
           ada_card (world "")) = (Some img, None) /\
    texts_at FPhone img = ["5551234567"] /\
    texts_at FPhone img <> ["(555) 123-4567"].
Proof.
  split; [reflexivity|]. eexists. split; [vm_compute; reflexivity|].
  split; [reflexivity | discriminate].
Qed.

(** C3 fails when two rows share a name: the CSV file is valid, both data
    rows have seven fields, the run succeeds, and one PNG file is left, not
    two; the second row has overwritten the file of the first. *)
Lemma same_name_one_file :
  map (fun r => List.length (raw_fields r)) (csv_lex libs same_name) = [7; 7; 7]%nat /\
  fst (Batch.main libs (world same_name)) = Return /\
  map fst (written (trace (snd (Batch.main libs (world same_name)))))
  = ["Ada_Lovelace_email_signature.png"; "Ada_Lovelace_email_signature.png"] /\
  size (disk (files (snd (Batch.main libs (world same_name)))))
  = (size (disk (files (world same_name))) + 1)%nat /\
  size (disk (files (snd (Batch.main libs (world same_name)))))
  <> (size (disk (files (world same_name))) + 2)%nat.
Proof. vm_compute. repeat split. discriminate. Qed.

(** The same happens when the names differ and name one file: "./x" is
    the file "x". *)
Example dot_slash_one_file :
  map fst (written (trace (snd (Batch.main libs (world dot_slash)))))
  = ["Ada_Lovelace_email_signature.png"; "./Ada_Lovelace_email_signature.png"] /\
  size (disk (files (snd (Batch.main libs (world dot_slash)))))
  = (size (disk (files (world dot_slash))) + 1)%nat /\
  files (snd (Batch.main libs (world dot_slash))) !! "Ada_Lovelace_email_signature.png"
  = files (snd (Batch.main libs (world dot_slash))) !! "./Ada_Lovelace_email_signature.png".
Proof. vm_compute. repeat split. Qed.

(** C8, at the failing input.  A POST request that parses, with the assets
    of the servers in place, on a connection that is lost while the PNG is
    sent.  The first write of [png.Encode] has fixed status 200 and the
    headers of the PNG; the write that fails makes [png.Encode] return an
    error; the handler logs it and calls [http.Error] with status 500,
    which comes too late: the response has status 200, not 500, and
    Content-Type "image/png". *)
Theorem lost_connection_gets_200 :
  exists rw1 rw2,
    CardServer.cardHandler libs lost_connection ada_post server_world
    = (Responded rw1 (parsed ada_post),
       add_log (add_trace server_world
                  [EvParseForm; EvOpen CardServer.bgImagePath;
                   EvReadFile CardServer.regularFontPath; EvReadFile CardServer.boldFontPath;
                   EvReadFile CardServer.italicFontPath])
         (encode_failed ErrWrite)) /\
    status rw1 = Some 200 /\ status rw1 <> Some 500 /\
    sent_header rw1 "Content-Type" = Some "image/png" /\
    FooterServer.cardHandler libs lost_connection ada_post server_world
    = (Responded rw2 (parsed ada_post),
       add_log (add_trace server_world
                  [EvParseForm; EvOpen FooterServer.bgImagePath;
                   EvReadFile FooterServer.regularFontPath;
                   EvReadFile FooterServer.boldFontPath])
         (encode_failed ErrWrite)) /\
    status rw2 = Some 200 /\ status rw2 <> Some 500.
Proof. eexists _, _. vm_compute. repeat split; discriminate. Qed.

Lemma GenerateCard_bounds_witness :
  exists img pic,
    fst (fst (Batch.GenerateCard libs Batch.bgImagePath Batch.regularFontPath
                Batch.boldFontPath ada_card (world ""))) = Some img /\
    loads libs (files (world "")) Batch.bgImagePath pic /\
    Rect img = pic_bounds pic.
Proof.
  apply (proj1 (GenerateCard_bounds libs) Batch.bgImagePath Batch.regularFontPath
           Batch.boldFontPath ada_card (world "") _
           (snd (Batch.GenerateCard libs Batch.bgImagePath Batch.regularFontPath
                   Batch.boldFontPath ada_card (world "")))).
  vm_compute. reflexivity.
Defined.

Lemma phone_line_witness :
  exists img,
    fst (CardServer.GenerateCard libs CardServer.bgImagePath CardServer.regularFontPath
           CardServer.boldFontPath CardServer.italicFontPath
           (CardServer.card_of_form ada_post) server_world) = (Some img, None) /\
    count_digits (CardServer.PhoneNumber (CardServer.card_of_form ada_post)) = 10%nat /\
    texts_at FPhone img = ["Phone: (555) 123-4567"].
Proof.
  eexists. split; [vm_compute; reflexivity|]. split; [reflexivity|].
  erewrite (proj1 (phone_line libs) CardServer.bgImagePath CardServer.regularFontPath
              CardServer.boldFontPath CardServer.italicFontPath
              (CardServer.card_of_form ada_post) server_world);
    [reflexivity | vm_compute; reflexivity].
Defined.

Lemma blank_optional_fields_witness :
  exists img,
    fst (Batch.GenerateCard libs Batch.bgImagePath Batch.regularFontPath Batch.boldFontPath
           alan_card (world "")) = (Some img, None) /\
    Batch.Pronouns alan_card = "" /\
    texts_at FPronouns img = [] /\
    map (fun c => snd c) (draw_calls img)
    = ["Alan Turing"; "Fellow"; "Kings"; "1 Parade"; "555-0100"; "alan@example.org"].
Proof.
  eexists. split; [vm_compute; reflexivity|]. split; [reflexivity|].
  edestruct (proj2 (proj2 (blank_optional_fields libs)) Batch.bgImagePath
               Batch.regularFontPath Batch.boldFontPath alan_card (world ""))
    as (rfont & bfont & Hopt & Hdraw & Hblank); [vm_compute; reflexivity|].
  cbv zeta in Hopt, Hblank. rewrite Hopt in Hblank.
  destruct (Hblank FPronouns (or_introl eq_refl)) as [Hnone _].
  split; [exact Hnone | reflexivity].
Defined.

Lemma header_discarded_witness :
  fst (Batch.readCardsFromCSV libs Batch.csvPath (world ""))
  = ([], Some (ErrNew "CSV file is empty")) /\
  fst (Batch.readCardsFromCSV libs Batch.csvPath (world two_rows))
  = ([ada_card; alan_card], None).
Proof.
  split.
  - apply (header_discarded libs (world "") Batch.csvPath "" eq_refl). reflexivity.
  - assert (E : fst (Batch.readCardsFromCSV libs Batch.csvPath (world two_rows))
                = (fst (fst (Batch.readCardsFromCSV libs Batch.csvPath (world two_rows))), None))
      by (vm_compute; reflexivity).
    pose proof (proj2 (header_discarded libs (world two_rows) Batch.csvPath two_rows eq_refl)
                  {| raw_fields := split "," header; raw_err := None |}
                  (plain_csv (ada ++ nl ++ alan ++ nl)) _ eq_refl E) as H.
    rewrite E, H. reflexivity.
Defined.

Lemma one_png_per_row_witness :
  fst (Batch.main libs (world two_rows)) = Return /\
  map fst (written (trace (snd (Batch.main libs (world two_rows)))))
  = ["Ada_Lovelace_email_signature.png"; "Alan_Turing_email_signature.png"] /\
  size (disk (files (snd (Batch.main libs (world two_rows)))))
  = (size (disk (files (world two_rows))) + 2)%nat.
Proof.
  destruct (one_png_per_row libs (world two_rows) two_rows
              {| raw_fields := split "," header; raw_err := None |}
              (plain_csv (ada ++ nl ++ alan ++ nl)) pic regular bold)
    as (H1 & H2 & _ & _ & _ & H6).
  - unfold Batch_ready, ready2, loads, parses.
    repeat split; try (eexists; split; reflexivity).
  - reflexivity.
  - reflexivity.
  - reflexivity.
  - reflexivity.
  - vm_compute. lia.
  - intros row Hrow. vm_compute in Hrow. destruct Hrow as [<-|[<-|[]]]; split; reflexivity.
  - reflexivity.
  - intros c Hc. vm_compute in Hc.
    destruct Hc as [<-|[<-|[]]]; repeat split; intros E; vm_compute in E; discriminate E.
  - split; [exact H1|]. split; [rewrite H2; reflexivity|].
    destruct H6 as [_ H6].
    + vm_compute. apply NoDup_cons. split; [|apply NoDup_singleton].
      intros H%list_elem_of_singleton. discriminate H.
    + rewrite H6; [reflexivity|].
      intros p Hp. vm_compute in Hp. destruct Hp as [<-|[<-|[]]]; reflexivity.
Defined.

Lemma output_file_names_witness :
  fst (fst (Batch.readCardsFromCSV libs Batch.csvPath (world two_rows))) = [ada_card; alan_card] /\
  Batch.Name ada_card = "Ada Lovelace" /\ Batch.Name alan_card = "Alan Turing" /\
  fst (Batch.main libs (world two_rows)) = Return /\
  created (trace (snd (Batch.main libs (world two_rows))))
  = ["Ada_Lovelace_email_signature.png"; "Alan_Turing_email_signature.png"].
Proof.
  split; [reflexivity|]. split; [reflexivity|]. split; [reflexivity|].
  destruct (output_file_names libs (world two_rows)) as (_ & _ & H).
  destruct (H pic regular bold) as (H1 & H2 & _).
  - unfold Batch_ready, ready2, loads, parses.
    repeat split; try (eexists; split; reflexivity).
  - reflexivity.
  - by eexists.
  - reflexivity.
  - reflexivity.
  - intros c Hc. vm_compute in Hc.
    destruct Hc as [<-|[<-|[]]]; repeat split; intros E; vm_compute in E; discriminate E.
  - split; [exact H1|]. rewrite H2. reflexivity.
Defined.


Lemma method_not_allowed_witness :
  CardServer.cardHandler libs new_response get server_world
  = (Responded (http_Error new_response "Method not allowed" 405) get, server_world) /\
  FooterServer.cardHandler libs new_response get server_world
  = (Responded (http_Error new_response "Method not allowed" 405) get, server_world) /\
  status (http_Error new_response "Method not allowed" 405) = Some 405.
Proof.
  destruct (method_not_allowed libs new_response get server_world) as (H1 & H2 & H3);
    [discriminate|].
  split; [exact H1|]. split; [exact H2|]. by destruct (H3 eq_refl).
Defined.

Lemma failures_witness :
  fatal_exit no_files (Batch.main libs no_files) /\
  exists rw',
    CardServer.cardHandler libs new_response bad_post server_world
    = (Responded rw' (parsed bad_post), add_trace server_world [EvParseForm]) /\
    status rw' = Some 400.
Proof.
  split.
  - apply (proj1 (failures libs) no_files). left. reflexivity.
  - edestruct (proj1 (proj2 (proj2 (proj2 (proj2 (failures libs)))))
                 new_response bad_post server_world)
      as (rw' & H1 & _ & S1 & _); [reflexivity | reflexivity | reflexivity |].
    exists rw'. by split.
Defined.

(** ** Further examples *)

Lemma drawText_one_call_witness :
  baselines (drawText FName (background pic) (mkFace bold 20) "Ada" 70 25
               {| R := 242; G := 103; B := 34; A := 255 |})
  = [(FName, 25)].
Proof.
  destruct (drawText_one_call FName (background pic) (mkFace bold 20) "Ada" 70 25
              {| R := 242; G := 103; B := 34; A := 255 |}) as (_ & _ & _ & H);
    [lia | lia |].
  rewrite H. reflexivity.
Defined.

Lemma readCardsFromCSV_all_or_nothing_witness :
  fst (Batch.readCardsFromCSV libs Batch.csvPath (world short_row))
  = ([], Some (ErrWrap "failed to read CSV record: %w" (ErrCsv ErrFieldCount))) /\
  logs (snd (Batch.readCardsFromCSV libs Batch.csvPath (world short_row))) = [] /\
  fst (Batch.readCardsFromCSV libs Batch.csvPath (world short_header)) = ([], None) /\
  logs (snd (Batch.readCardsFromCSV libs Batch.csvPath (world short_header)))
  = [skipped ["Grace Hopper"; "she/her"]; skipped ["Alan Turing"; ""]].
Proof.
  destruct (readCardsFromCSV_all_or_nothing libs (world short_row) Batch.csvPath short_row
              {| raw_fields := split "," header; raw_err := None |}
              (plain_csv (ada ++ nl ++ "Grace Hopper,she/her" ++ nl ++ alan ++ nl)))
    as [H1 H2]; [reflexivity | reflexivity | reflexivity | discriminate |].
  destruct (readCardsFromCSV_all_or_nothing libs (world short_header) Batch.csvPath short_header
              {| raw_fields := ["name"; "pronouns"]; raw_err := None |}
              (plain_csv ("Grace Hopper,she/her" ++ nl ++ "Alan Turing," ++ nl)))
    as [H3 H4]; [reflexivity | reflexivity | reflexivity | discriminate |].
  rewrite H1, H2, H3, H4. repeat split.
Defined.

Lemma lines_run_top_to_bottom_witness :
  exists img,
    fst (CardServer.GenerateCard libs CardServer.bgImagePath CardServer.regularFontPath
           CardServer.boldFontPath CardServer.italicFontPath
           (CardServer.card_of_form ada_post) server_world) = (Some img, None) /\
    Forall (fun d => column d = 50) (draw_calls img) /\
    map snd (baselines img) = [100; 151; 189; 227; 261; 295].
Proof.
  eexists. split; [vm_compute; reflexivity|].
  edestruct (proj1 (proj2 (lines_run_top_to_bottom libs)) CardServer.bgImagePath
               CardServer.regularFontPath CardServer.boldFontPath CardServer.italicFontPath
               (CardServer.card_of_form ada_post) server_world)
    as (p & _ & _ & Hc & _); [vm_compute; reflexivity|].
  split; [exact Hc | reflexivity].
Defined.

Lemma field_texts_witness :
  exists img,
    fst (CardServer.GenerateCard libs CardServer.bgImagePath CardServer.regularFontPath
           CardServer.boldFontPath CardServer.italicFontPath
           (CardServer.card_of_form ada_post) server_world) = (Some img, None) /\
    texts_at FName img = ["Ada Lovelace"] /\
    texts_at FTitle img = ["Title: "] /\
    texts_at FDepartment img = [] /\
    List.length (draw_calls img) = 6%nat.
Proof.
  eexists. split; [vm_compute; reflexivity|].
  edestruct (proj1 (proj2 (field_texts libs)) CardServer.bgImagePath
               CardServer.regularFontPath CardServer.boldFontPath CardServer.italicFontPath
               (CardServer.card_of_form ada_post) server_world)
    as (H1 & _ & H3 & _ & H5 & _ & _ & _ & _ & _ & _ & H12); [vm_compute; reflexivity|].
  rewrite H1, H3, H5, H12. repeat split.
Defined.

Lemma cardHandler_answers_witness :
  answered server_world ada_post (CardServer.cardHandler libs new_response ada_post server_world) /\
  answered server_world get (FooterServer.cardHandler libs new_response get server_world).
Proof.
  split.
  - apply (cardHandler_answers libs new_response ada_post server_world). reflexivity.
  - apply (cardHandler_answers libs new_response get server_world). reflexivity.
Defined.

Lemma post_gets_card_witness :
  exists rw',
    fst (CardServer.cardHandler libs new_response ada_post server_world)
    = Responded rw' (parsed ada_post) /\
    status rw' = Some 200 /\
    texts_at FPronouns
      (CardServer_rendered pic regular bold {| font_src := "OTTO italic" |}
         (CardServer.card_of_form (parsed ada_post))) = [].
Proof.
  destruct (post_gets_card libs new_response ada_post server_world) as [H _];
    [reflexivity | reflexivity | reflexivity | reflexivity |].
  destruct (H pic regular bold {| font_src := "OTTO italic" |}) as (Hh & St & _ & Hk).
  - unfold ready3, loads, parses. repeat split; try (eexists; split; reflexivity).
  - reflexivity.
  - reflexivity.
  - eexists. rewrite Hh. split; [reflexivity|]. split; [exact St|].
    apply (Hk "pronouns" FPronouns); [left; reflexivity | reflexivity].
Defined.

Lemma main_no_cards_witness :
  fst (Batch.main libs (world short_header)) = Return /\
  logs (snd (Batch.main libs (world short_header)))
  = [skipped ["Grace Hopper"; "she/her"]; skipped ["Alan Turing"; ""]; no_cards] /\
  trace (snd (Batch.main libs (world short_header))) = (checked ++ [EvOpen Batch.csvPath])%list.
Proof.
  destruct (main_no_cards libs (world short_header)) as (H1 & _ & _ & H4 & _);
    [by eexists | by eexists | by eexists | by eexists | reflexivity |].
  split; [exact H1|]. split; [reflexivity | exact H4].
Defined.

Lemma last_row_wins_witness :
  Batch.outputFileName ada_card = "Ada_Lovelace_email_signature.png" /\
  Batch.outputFileName (Batch.card_of_record (split "," dot_ada))
  = "./Ada_Lovelace_email_signature.png" /\
  files (snd (Batch.main libs (world dot_slash))) !! "Ada_Lovelace_email_signature.png"
  = Some (Batch_png libs pic regular bold (Batch.card_of_record (split "," dot_ada))).
Proof.
  split; [reflexivity|]. split; [reflexivity|].
  destruct (last_row_wins libs (world dot_slash) dot_slash
              {| raw_fields := split "," header; raw_err := None |}
              [{| raw_fields := split "," ada; raw_err := None |}]
              {| raw_fields := split "," dot_ada; raw_err := None |} []
              pic regular bold) as [_ H].
  - unfold Batch_ready, ready2, loads, parses.
    repeat split; try (eexists; split; reflexivity).
  - reflexivity.
  - reflexivity.
  - reflexivity.
  - reflexivity.
  - vm_compute. lia.
  - intros r Hin. cbn in Hin. destruct Hin as [<-|[<-|[]]]; split; reflexivity.
  - reflexivity.
  - intros c Hc. vm_compute in Hc.
    destruct Hc as [<-|[<-|[]]]; repeat split; intros E; vm_compute in E; discriminate E.
  - intros r [].
  - assert (R : raw_fields {| raw_fields := split "," dot_ada; raw_err := None |}
                = split "," dot_ada) by exact (eq_refl (split "," dot_ada)).
    specialize (H "Ada_Lovelace_email_signature.png" eq_refl).
    rewrite R in H. exact H.
Defined.

Lemma assets_read_per_card_witness :
  trace (snd (Batch.main libs (world two_rows)))
  = (checked ++ [EvOpen Batch.csvPath]
     ++ card_events libs pic regular bold ada_card
     ++ card_events libs pic regular bold alan_card)%list.
Proof.
  rewrite (assets_read_per_card libs (world two_rows) two_rows
             {| raw_fields := split "," header; raw_err := None |}
             (plain_csv (ada ++ nl ++ alan ++ nl)) pic regular bold).
  - reflexivity.
  - unfold Batch_ready, ready2, loads, parses.
    repeat split; try (eexists; split; reflexivity).
  - reflexivity.
  - reflexivity.
  - reflexivity.
  - reflexivity.
  - vm_compute. lia.
  - discriminate.
  - intros row Hrow. vm_compute in Hrow. destruct Hrow as [<-|[<-|[]]]; split; reflexivity.
  - reflexivity.
  - intros c Hc. vm_compute in Hc.
    destruct Hc as [<-|[<-|[]]]; repeat split; intros E; vm_compute in E; discriminate E.
Defined.
